(** * Billing / inventory settlement of invoice-flow

    A shallow embedding of the bill routes of the application:

    - [extendedBillSchema] and the schemas it is built from (lib/schemas),
    - [POST] of /api/bills (bill creation, stock reservation),
    - [PUT], [PATCH] and [DELETE] of /api/bills/[id] (header update, status
      update, deletion with stock release),
    - [GET] of /api/bills/[id] (a bill with its client, items and extra
      charges),
    - the schema, the previewed totals and the submitted data of the bill
      dialog of the billing page.

    JavaScript numbers are IEEE 754 binary64 values, which is what Rocq's
    primitive [float] is, so the arithmetic of the handlers is evaluated
    bit for bit.  The database is a record of tables, each a list of rows in
    insertion order; the handlers run in a state monad that threads the
    tables and keeps a journal of the statements that write. *)

From Stdlib Require Import Floats List String ZArith Bool Lia.
Import ListNotations.

Set Warnings "-inexact-float,-register-all".

Open Scope string_scope.
Open Scope float_scope.

(** ** Numbers and numeric columns *)

(** The numeric columns hold decimal text: a handler writes [x.toString()]
    and reads the column back with [parseFloat].  [toString] prints the
    shortest text that reads back as the same number, so the round trip is
    the identity, except on the negative zero, which prints as 0.  The
    column declarations (db/schema) are outside this development: a column
    is taken to keep the text it is given. *)
Definition stored (x : float) : float :=
  if x =? 0 then 0 else x.

(** ** Request bodies *)

(** A JSON value as [request.json()] returns it.  An object is the list of
    its properties. *)
Inductive json : Type :=
| JNull
| JBool (b : bool)
| JNum (n : float)
| JStr (s : string)
| JArr (elems : list json)
| JObj (props : list (string * json)).

(** [body.key], the first property of that name: [None] stands for
    [undefined]. *)
Fixpoint prop (key : string) (props : list (string * json)) : option json :=
  match props with
  | [] => None
  | (k, v) :: rest => if (k =? key)%string then Some v else prop key rest
  end.

Definition props_of (j : json) : option (list (string * json)) :=
  match j with
  | JObj props => Some props
  | _ => None
  end.

(** ** Database rows *)

Inductive Status : Type := due | paid.

Module Inventory.
Record row : Type := mk {
  id : string;
  itemId : string;
  quantity : float;
  availableQuantity : float;
  updatedAt : Z
}.
End Inventory.

(** [billDate] is kept as the text of the request; the handler stores
    [new Date(billDate)].  The timestamps are clock readings. *)
Module Bills.
Record row : Type := mk {
  id : string;
  userId : string;
  clientId : string;
  billNumber : string;
  invoiceNumber : string;
  billDate : string;
  subtotal : float;
  taxRate : float;
  tax : float;
  extraChargesTotal : float;
  total : float;
  status : Status;
  notes : option string;
  createdAt : Z;
  updatedAt : Z
}.
End Bills.

Module BillItems.
Record row : Type := mk {
  billId : string;
  inventoryId : string;
  quantity : float;
  sellingPrice : float;
  total : float
}.
End BillItems.

Module BillExtraCharges.
Record row : Type := mk {
  billId : string;
  name : string;
  amount : float
}.
End BillExtraCharges.

Record Db : Type := mkDb {
  bills : list Bills.row;
  billItems : list BillItems.row;
  billExtraCharges : list BillExtraCharges.row;
  inventory : list Inventory.row
}.

(** The columns a [db.update(bills).set(...)] may name. *)
Module BillSet.
Record t : Type := mk {
  clientId : option string;
  billNumber : option string;
  invoiceNumber : option string;
  billDate : option string;
  subtotal : option float;
  taxRate : option float;
  tax : option float;
  extraChargesTotal : option float;
  total : option float;
  status : option Status;
  notes : option (option string);
  updatedAt : option Z
}.
End BillSet.

Definition orKeep {A : Type} (new : option A) (old : A) : A :=
  match new with
  | Some a => a
  | None => old
  end.

Definition setBill (s : BillSet.t) (b : Bills.row) : Bills.row :=
  Bills.mk (Bills.id b) (Bills.userId b)
    (orKeep (BillSet.clientId s) (Bills.clientId b))
    (orKeep (BillSet.billNumber s) (Bills.billNumber b))
    (orKeep (BillSet.invoiceNumber s) (Bills.invoiceNumber b))
    (orKeep (BillSet.billDate s) (Bills.billDate b))
    (orKeep (BillSet.subtotal s) (Bills.subtotal b))
    (orKeep (BillSet.taxRate s) (Bills.taxRate b))
    (orKeep (BillSet.tax s) (Bills.tax b))
    (orKeep (BillSet.extraChargesTotal s) (Bills.extraChargesTotal b))
    (orKeep (BillSet.total s) (Bills.total b))
    (orKeep (BillSet.status s) (Bills.status b))
    (orKeep (BillSet.notes s) (Bills.notes b))
    (Bills.createdAt b)
    (orKeep (BillSet.updatedAt s) (Bills.updatedAt b)).

(** ** Statements that write *)

Inductive Write : Type :=
| InsertBill (values : Bills.row)
| InsertBillItems (values : list BillItems.row)
| InsertBillExtraCharges (values : list BillExtraCharges.row)
| UpdateInventory (id : string) (availableQuantity : float) (updatedAt : Z)
| UpdateBill (id userId : string) (set : BillSet.t)
| DeleteBillItems (billId : string)
| DeleteBillExtraCharges (billId : string)
| DeleteBill (id userId : string).

Definition ownBill (id userId : string) (b : Bills.row) : bool :=
  (Bills.id b =? id)%string && (Bills.userId b =? userId)%string.

Definition setAvailable (id : string) (aq : float) (at_ : Z)
    (r : Inventory.row) : Inventory.row :=
  if (Inventory.id r =? id)%string
  then Inventory.mk (Inventory.id r) (Inventory.itemId r)
         (Inventory.quantity r) aq at_
  else r.

Definition apply (w : Write) (db : Db) : Db :=
  match w with
  | InsertBill b =>
      mkDb (bills db ++ [b]) (billItems db) (billExtraCharges db) (inventory db)
  | InsertBillItems rows =>
      mkDb (bills db) (billItems db ++ rows) (billExtraCharges db) (inventory db)
  | InsertBillExtraCharges rows =>
      mkDb (bills db) (billItems db) (billExtraCharges db ++ rows) (inventory db)
  | UpdateInventory id aq at_ =>
      mkDb (bills db) (billItems db) (billExtraCharges db)
        (map (setAvailable id aq at_) (inventory db))
  | UpdateBill id userId s =>
      mkDb (map (fun b => if ownBill id userId b then setBill s b else b) (bills db))
        (billItems db) (billExtraCharges db) (inventory db)
  | DeleteBillItems billId =>
      mkDb (bills db)
        (filter (fun i => negb (BillItems.billId i =? billId)%string) (billItems db))
        (billExtraCharges db) (inventory db)
  | DeleteBillExtraCharges billId =>
      mkDb (bills db) (billItems db)
        (filter (fun c => negb (BillExtraCharges.billId c =? billId)%string)
           (billExtraCharges db))
        (inventory db)
  | DeleteBill id userId =>
      mkDb (filter (fun b => negb (ownBill id userId b)) (bills db))
        (billItems db) (billExtraCharges db) (inventory db)
  end.

(** ** Queries *)

(** [select().from(inventory).where(eq(inventory.id, id)).limit(1)] *)
Definition selectInventory (id : string) (db : Db) : option Inventory.row :=
  find (fun r => (Inventory.id r =? id)%string) (inventory db).

(** [select().from(bills).where(and(eq(bills.id, id), eq(bills.userId, userId))).limit(1)] *)
Definition selectBill (id userId : string) (db : Db) : option Bills.row :=
  find (ownBill id userId) (bills db).

(** [select().from(billItems).where(eq(billItems.billId, billId))] *)
Definition selectBillItems (billId : string) (db : Db) : list BillItems.row :=
  filter (fun i => (BillItems.billId i =? billId)%string) (billItems db).

(** [lookupAvailable]: the available quantity a handler reads for a lot. *)
Definition availableOf (id : string) (db : Db) : option float :=
  option_map Inventory.availableQuantity (selectInventory id db).

(** ** The handlers' monad: the tables and the journal of writes *)

Record Conn : Type := mkConn {
  tables : Db;
  journal : list Write
}.

Definition M (A : Type) : Type := Conn -> A * Conn.

Definition ret {A : Type} (a : A) : M A := fun c => (a, c).

Definition bind {A B : Type} (m : M A) (k : A -> M B) : M B :=
  fun c => let (a, c') := m c in k a c'.

Notation "x <- m ;; k" := (bind m (fun x => k))
  (at level 61, m at next level, right associativity).
Notation "m ;; k" := (bind m (fun _ => k))
  (at level 61, right associativity).

Definition query {A : Type} (q : Db -> A) : M A :=
  fun c => (q (tables c), c).

Definition execute (w : Write) : M unit :=
  fun c => (tt, mkConn (apply w (tables c)) (journal c ++ [w])).

(** A request served on the tables [db]: the response, the tables left
    behind, and the writes in the order they were issued. *)
Definition run {A : Type} (m : M A) (db : Db) : A * Db * list Write :=
  let (a, c) := m (mkConn db []) in (a, tables c, journal c).

(** ** lib/schemas *)

(** What [extendedBillSchema.parse] returns. *)
Module Form.
Record BillingItem : Type := mkItem {
  inventoryId : string;
  quantity : float;
  sellingPrice : float
}.
Record ExtraCharge : Type := mkCharge {
  name : string;
  amount : float
}.
Record ExtendedBill : Type := mk {
  clientId : string;
  invoiceNumber : string;
  billDate : string;
  items : list BillingItem;
  taxRate : float;
  extraCharges : list ExtraCharge;
  notes : option string;
  status : Status
}.
End Form.

(** The schemas take the value of a property, [None] when it is absent, and
    return [None] where zod reports an issue ([parse] then throws a
    ZodError). *)

(** [z.string().min(1, ...)] *)
Definition zStringMin1 (val : option json) : option string :=
  match val with
  | Some (JStr EmptyString) => None
  | Some (JStr s) => Some s
  | _ => None
  end.

(** [z.number()]: a number that is not NaN. *)
Definition zNumber (val : option json) : option float :=
  match val with
  | Some (JNum x) => if x =? x then Some x else None
  | _ => None
  end.

(** [z.number().min(lo, ...)]: too small when [x < lo]. *)
Definition zNumberMin (lo : float) (val : option json) : option float :=
  match zNumber val with
  | Some x => if x <? lo then None else Some x
  | None => None
  end.

(** [z.number().min(lo).max(hi, ...)]: too big when [x > hi]. *)
Definition zNumberMinMax (lo hi : float) (val : option json) : option float :=
  match zNumberMin lo val with
  | Some x => if hi <? x then None else Some x
  | None => None
  end.

Fixpoint parseAll {A B : Type} (schema : A -> option B) (l : list A)
    : option (list B) :=
  match l with
  | [] => Some []
  | x :: rest =>
      match schema x, parseAll schema rest with
      | Some y, Some ys => Some (y :: ys)
      | _, _ => None
      end
  end.

(** [z.array(schema)] *)
Definition zArray {B : Type} (schema : json -> option B) (val : option json)
    : option (list B) :=
  match val with
  | Some (JArr elems) => parseAll schema elems
  | _ => None
  end.

(** [z.array(schema).min(1, ...)] *)
Definition zArrayMin1 {B : Type} (schema : json -> option B) (val : option json)
    : option (list B) :=
  match zArray schema val with
  | Some [] => None
  | r => r
  end.

Definition billingItemSchema (j : json) : option Form.BillingItem :=
  match props_of j with
  | Some o =>
      match zStringMin1 (prop "inventoryId" o),
            zNumberMin 0.01 (prop "quantity" o),
            zNumberMin 0 (prop "sellingPrice" o) with
      | Some i, Some q, Some p => Some (Form.mkItem i q p)
      | _, _, _ => None
      end
  | None => None
  end.

Definition extraChargeSchema (j : json) : option Form.ExtraCharge :=
  match props_of j with
  | Some o =>
      match zStringMin1 (prop "name" o), zNumberMin 0 (prop "amount" o) with
      | Some n, Some a => Some (Form.mkCharge n a)
      | _, _ => None
      end
  | None => None
  end.

(** [(val) => val === null || val === undefined || val === '' ? 10 : val] *)
Definition taxRatePreprocess (val : option json) : option json :=
  match val with
  | None => Some (JNum 10)
  | Some JNull => Some (JNum 10)
  | Some (JStr EmptyString) => Some (JNum 10)
  | Some v => Some v
  end.

(** [z.array(extraChargeSchema).default([])] *)
Definition extraChargesSchema (val : option json) : option (list Form.ExtraCharge) :=
  match val with
  | None => Some []
  | Some v => zArray extraChargeSchema (Some v)
  end.

(** [z.string().optional()] *)
Definition zStringOptional (val : option json) : option (option string) :=
  match val with
  | None => Some None
  | Some (JStr s) => Some (Some s)
  | Some _ => None
  end.

(** [z.enum(['due', 'paid']).default('due')] *)
Definition statusSchema (val : option json) : option Status :=
  match val with
  | None => Some due
  | Some (JStr s) =>
      if (s =? "due")%string then Some due
      else if (s =? "paid")%string then Some paid
      else None
  | Some _ => None
  end.

Definition extendedBillSchema (body : json) : option Form.ExtendedBill :=
  match props_of body with
  | Some o =>
      match zStringMin1 (prop "clientId" o),
            zStringMin1 (prop "invoiceNumber" o),
            zStringMin1 (prop "billDate" o),
            zArrayMin1 billingItemSchema (prop "items" o),
            zNumberMinMax 0 100 (taxRatePreprocess (prop "taxRate" o)),
            extraChargesSchema (prop "extraCharges" o),
            zStringOptional (prop "notes" o),
            statusSchema (prop "status" o) with
      | Some c, Some n, Some d, Some lines, Some t, Some es, Some ns, Some st =>
          Some (Form.mk c n d lines t es ns st)
      | _, _, _, _, _, _, _, _ => None
      end
  | None => None
  end.

(** ** Responses *)

Inductive Response : Type :=
| Unauthorized
| BillNotFound
| InvalidRequestData
| InventoryItemNotFound (inventoryId : string)
| InsufficientStock (available requested : float)
| Created (newBill : Bills.row)
| Updated (updatedBill : option Bills.row)
| Deleted
| Failed (error : string).

Definition statusCode (r : Response) : Z :=
  match r with
  | Unauthorized => 401
  | BillNotFound => 404
  | InvalidRequestData => 400
  | InventoryItemNotFound _ => 400
  | InsufficientStock _ _ => 400
  | Created _ => 201
  | Updated _ => 200
  | Deleted => 200
  | Failed _ => 500
  end.

(** ** Dates *)

(** A handler makes the date of a text with [new Date(text)]: a date for
    the texts the engine reads as one, the Invalid Date for the others.
    Which texts are read as dates is the engine's: the handlers take it as
    [isDate].  A statement that writes a date to a timestamp column sends
    it as [toISOString()], which throws on the Invalid Date, and on a
    text, which has no such method; the handler then answers 500 from its
    catch clause, and the statement is not issued. *)
Definition readsAsDate (isDate : string -> bool) (val : option string) : bool :=
  match val with
  | Some text => isDate text
  | None => true
  end.

(** ** POST /api/bills *)

(** An entry of [itemsData]: the columns of the bill item as text, and the
    inventory row as it was read when the line was checked. *)
Module ItemData.
Record t : Type := mk {
  inventoryId : string;
  quantity : float;
  sellingPrice : float;
  total : float;
  inventoryItem : Inventory.row
}.
End ItemData.

(** The loop that validates availability and accumulates the subtotal. *)
Fixpoint validateItems (items : list Form.BillingItem) (subtotal : float)
    (itemsData : list ItemData.t) : M (Response + float * list ItemData.t) :=
  match items with
  | [] => ret (inr (subtotal, itemsData))
  | item :: rest =>
      inventoryItem <- query (selectInventory (Form.inventoryId item)) ;;
      match inventoryItem with
      | None => ret (inl (InventoryItemNotFound (Form.inventoryId item)))
      | Some row =>
          let availableQty := Inventory.availableQuantity row in
          if availableQty <? Form.quantity item
          then ret (inl (InsufficientStock availableQty (Form.quantity item)))
          else
            let itemTotal := Form.quantity item * Form.sellingPrice item in
            validateItems rest (subtotal + itemTotal)
              (itemsData ++
                 [ItemData.mk (Form.inventoryId item)
                    (stored (Form.quantity item))
                    (stored (Form.sellingPrice item))
                    (stored itemTotal) row])
      end
  end.

(** The loop that reduces the available quantities. *)
Fixpoint reduceInventory (itemsData : list ItemData.t) (now : Z) : M unit :=
  match itemsData with
  | [] => ret tt
  | item :: rest =>
      let newAvailableQuantity :=
        Inventory.availableQuantity (ItemData.inventoryItem item)
        - ItemData.quantity item in
      execute (UpdateInventory (ItemData.inventoryId item)
                 (stored newAvailableQuantity) now) ;;
      reduceInventory rest now
  end.

Definition sumCharges (extraCharges : list Form.ExtraCharge) : float :=
  fold_left (fun sum charge => sum + Form.amount charge) extraCharges 0.

Definition notesOrNull (notes : option string) : option string :=
  match notes with
  | Some EmptyString => None
  | n => n
  end.

(** [session] is the user id of the session, [newId] the id the database
    gives the inserted bill, [now] the clock. *)
Definition POST (isDate : string -> bool) (session : option string)
    (body : json) (newId : string) (now : Z) : M Response :=
  match session with
  | None => ret Unauthorized
  | Some userId =>
      match extendedBillSchema body with
      | None => ret InvalidRequestData
      | Some data =>
          checked <- validateItems (Form.items data) 0 [] ;;
          match checked with
          | inl response => ret response
          | inr (subtotal, itemsData) =>
              let extraChargesTotal := sumCharges (Form.extraCharges data) in
              let tax := (subtotal * Form.taxRate data) / 100 in
              let grandTotal := subtotal + tax + extraChargesTotal in
              let billNumber := Form.invoiceNumber data in
              let newBill :=
                Bills.mk newId userId (Form.clientId data) billNumber
                  (Form.invoiceNumber data) (Form.billDate data)
                  (stored subtotal) (stored (Form.taxRate data)) (stored tax)
                  (stored extraChargesTotal) (stored grandTotal)
                  (Form.status data) (notesOrNull (Form.notes data)) now now in
              if isDate (Form.billDate data)
              then
                execute (InsertBill newBill) ;;
                execute (InsertBillItems
                           (map (fun item =>
                                   BillItems.mk newId (ItemData.inventoryId item)
                                     (ItemData.quantity item)
                                     (ItemData.sellingPrice item)
                                     (ItemData.total item))
                                itemsData)) ;;
                match Form.extraCharges data with
                | [] => ret tt
                | charges =>
                    execute (InsertBillExtraCharges
                               (map (fun charge =>
                                       BillExtraCharges.mk newId (Form.name charge)
                                         (stored (Form.amount charge)))
                                    charges))
                end ;;
                reduceInventory itemsData now ;;
                ret (Created newBill)
              else ret (Failed "Failed to create bill")
          end
      end
  end.

(** ** PUT, PATCH and DELETE /api/bills/[id] *)

(** The body of a PUT as the billing form sends it: every header field is
    absent or has the type of its column; [notes] may also be null. *)
Module PutBody.
Record t : Type := mk {
  clientId : option string;
  billDate : option string;
  invoiceNumber : option string;
  status : option Status;
  taxRate : option float;
  notes : option (option string)
}.
End PutBody.

(** [if (body.field)] on text: the empty string is falsy. *)
Definition truthy (val : option string) : option string :=
  match val with
  | Some EmptyString => None
  | v => v
  end.

Definition updateData (body : PutBody.t) (now : Z) : BillSet.t :=
  BillSet.mk (truthy (PutBody.clientId body)) None
    (truthy (PutBody.invoiceNumber body)) (truthy (PutBody.billDate body))
    None (option_map stored (PutBody.taxRate body)) None None None
    (PutBody.status body) (PutBody.notes body) (Some now).

Definition PUT (isDate : string -> bool) (session : option string)
    (billId : string) (body : PutBody.t) (now : Z) : M Response :=
  match session with
  | None => ret Unauthorized
  | Some userId =>
      existingBill <- query (selectBill billId userId) ;;
      match existingBill with
      | None => ret BillNotFound
      | Some _ =>
          if readsAsDate isDate (truthy (PutBody.billDate body))
          then
            execute (UpdateBill billId userId (updateData body now)) ;;
            updatedBill <- query (selectBill billId userId) ;;
            ret (Updated updatedBill)
          else ret (Failed "Failed to update bill")
      end
  end.

(** [{ ...body, updatedAt: new Date() }] *)
Definition patchData (body : BillSet.t) (now : Z) : BillSet.t :=
  BillSet.mk (BillSet.clientId body) (BillSet.billNumber body)
    (BillSet.invoiceNumber body) (BillSet.billDate body)
    (BillSet.subtotal body) (BillSet.taxRate body) (BillSet.tax body)
    (BillSet.extraChargesTotal body) (BillSet.total body)
    (BillSet.status body) (BillSet.notes body) (Some now).

(** The body is set as it is: a [billDate] in it is a text, not a date. *)
Definition PATCH (session : option string) (billId : string) (body : BillSet.t)
    (now : Z) : M Response :=
  match session with
  | None => ret Unauthorized
  | Some userId =>
      existingBill <- query (selectBill billId userId) ;;
      match existingBill with
      | None => ret BillNotFound
      | Some _ =>
          match BillSet.billDate body with
          | None =>
              execute (UpdateBill billId userId (patchData body now)) ;;
              updatedBill <- query (selectBill billId userId) ;;
              ret (Updated updatedBill)
          | Some _ => ret (Failed "Failed to update bill")
          end
      end
  end.

(** The loop that restores the inventory quantities. *)
Fixpoint restoreInventory (billItemsList : list BillItems.row) (now : Z)
    : M unit :=
  match billItemsList with
  | [] => ret tt
  | item :: rest =>
      currentInventory <- query (selectInventory (BillItems.inventoryId item)) ;;
      match currentInventory with
      | Some row =>
          let newAvailableQuantity :=
            Inventory.availableQuantity row + BillItems.quantity item in
          execute (UpdateInventory (BillItems.inventoryId item)
                     (stored newAvailableQuantity) now)
      | None => ret tt
      end ;;
      restoreInventory rest now
  end.

Definition DELETE (session : option string) (billId : string) (now : Z)
    : M Response :=
  match session with
  | None => ret Unauthorized
  | Some userId =>
      existingBill <- query (selectBill billId userId) ;;
      match existingBill with
      | None => ret BillNotFound
      | Some _ =>
          billItemsList <- query (selectBillItems billId) ;;
          restoreInventory billItemsList now ;;
          execute (DeleteBillItems billId) ;;
          execute (DeleteBillExtraCharges billId) ;;
          execute (DeleteBill billId userId) ;;
          ret Deleted
      end
  end.

(** The settlement operations of the specification. *)
Definition createBill := POST.
Definition updateBillHeader := PUT.
Definition deleteBill := DELETE.

(** [updateBillStatus]: the PATCH the billing page sends, [{ status }]. *)
Definition statusOnly (s : Status) : BillSet.t :=
  BillSet.mk None None None None None None None None None (Some s) None None.

Definition updateBillStatus (session : option string) (billId : string)
    (s : Status) (now : Z) : M Response :=
  PATCH session billId (statusOnly s) now.

(** ** Vocabulary of the statements *)

(** [quantity * sellingPrice] of a line. *)
Definition lineTotal (item : Form.BillingItem) : float :=
  Form.quantity item * Form.sellingPrice item.

(** The subtotal the validation loop accumulates, from [subtotal]. *)
Definition sumLines (items : list Form.BillingItem) (subtotal : float) : float :=
  fold_left (fun sum item => sum + lineTotal item) items subtotal.

(** The entry the validation loop pushes for a line and the row it read. *)
Definition itemDataOf (item : Form.BillingItem) (row : Inventory.row) : ItemData.t :=
  ItemData.mk (Form.inventoryId item) (stored (Form.quantity item))
    (stored (Form.sellingPrice item)) (stored (lineTotal item)) row.

(** A line passes the stock check on [db]: its lot is found and the
    available quantity is not below the requested one. *)
Definition lineOk (db : Db) (item : Form.BillingItem) : Prop :=
  exists row,
    selectInventory (Form.inventoryId item) db = Some row /\
    (Inventory.availableQuantity row <? Form.quantity item) = false.

(** A line asks for more than its lot has available on [db]. *)
Definition exceeds (db : Db) (item : Form.BillingItem) (available : float) : Prop :=
  availableOf (Form.inventoryId item) db = Some available /\
  (available <? Form.quantity item) = true.

Definition applyAll (ws : list Write) (db : Db) : Db :=
  fold_left (fun d w => apply w d) ws db.

Definition reduceWrites (itemsData : list ItemData.t) (now : Z) : list Write :=
  map (fun item =>
         UpdateInventory (ItemData.inventoryId item)
           (stored (Inventory.availableQuantity (ItemData.inventoryItem item)
                    - ItemData.quantity item)) now)
      itemsData.

Definition isUpdateInventory (w : Write) : bool :=
  match w with
  | UpdateInventory _ _ _ => true
  | _ => false
  end.

Definition lotOfWrite (w : Write) : option string :=
  match w with
  | UpdateInventory id _ _ => Some id
  | _ => None
  end.

Definition lotExists (db : Db) (id : string) : bool :=
  match selectInventory id db with
  | Some _ => true
  | None => false
  end.

(** A request on a bill header, by either verb. *)
Inductive HeaderRequest : Type :=
| ViaPUT (session : option string) (billId : string) (body : PutBody.t) (now : Z)
| ViaPATCH (session : option string) (billId : string) (body : BillSet.t) (now : Z).

Definition serve (isDate : string -> bool) (r : HeaderRequest) : M Response :=
  match r with
  | ViaPUT session billId body now => PUT isDate session billId body now
  | ViaPATCH session billId body now => PATCH session billId body now
  end.

(** The tables after a sequence of header requests, served in order. *)
Definition serveAll (isDate : string -> bool) (rs : list HeaderRequest) (db : Db)
    : Db :=
  fold_left (fun d r => snd (fst (run (serve isDate r) d))) rs db.

(** Round half up to two decimals, on the exact value of the number: the
    rounding the specification asks of currency fields.  [cents] is the
    number of hundredths, [round2] the nearest number to [cents / 100]. *)
Definition cents (x : float) : Z :=
  match Prim2SF x with
  | S754_finite s m e =>
      let n := ((if s then Z.neg m else Z.pos m) * 100)%Z in
      if (0 <=? e)%Z then (n * 2 ^ e)%Z
      else ((2 * n + 2 ^ (- e)) / 2 ^ (- e + 1))%Z
  | _ => 0%Z
  end.

Definition round2 (x : float) : float :=
  let c := cents x in
  if (0 <=? c)%Z then of_uint63 (Uint63.of_Z c) / 100
  else - (of_uint63 (Uint63.of_Z (- c)) / 100).

(** ** Further vocabulary of the statements *)

(** Some line of the request asks for more than its lot has available. *)
Definition asksTooMuch (db : Db) (body : json) : Prop :=
  exists o elems line id q available,
    body = JObj o /\
    prop "items" o = Some (JArr elems) /\ In (JObj line) elems /\
    prop "inventoryId" line = Some (JStr id) /\
    prop "quantity" line = Some (JNum q) /\
    availableOf id db = Some available /\
    (available <? q) = true.

(** The request bodies the specification calls malformed. *)
Definition malformed (body : json) : Prop :=
  exists o, body = JObj o /\
    (prop "items" o = Some (JArr [])
     \/ (exists elems line q,
           prop "items" o = Some (JArr elems) /\ In (JObj line) elems /\
           prop "quantity" line = Some (JNum q) /\ (q <=? 0) = true)
     \/ (exists elems line p,
           prop "items" o = Some (JArr elems) /\ In (JObj line) elems /\
           prop "sellingPrice" line = Some (JNum p) /\ (p <? 0) = true)
     \/ (exists r,
           prop "taxRate" o = Some (JNum r) /\
           ((r <? 0) = true \/ (100 <? r) = true))).

(** A body whose tax rate is absent, null or the empty text. *)
Definition taxRateOmitted (o : list (string * json)) : Prop :=
  prop "taxRate" o = None \/ prop "taxRate" o = Some JNull
  \/ prop "taxRate" o = Some (JStr "").

(** The rows POST inserts for a request that passed the checks. *)
Definition newBillOf (userId newId : string) (now : Z) (data : Form.ExtendedBill)
    : Bills.row :=
  let subtotal := sumLines (Form.items data) 0 in
  let extraChargesTotal := sumCharges (Form.extraCharges data) in
  let tax := (subtotal * Form.taxRate data) / 100 in
  Bills.mk newId userId (Form.clientId data) (Form.invoiceNumber data)
    (Form.invoiceNumber data) (Form.billDate data)
    (stored subtotal) (stored (Form.taxRate data)) (stored tax)
    (stored extraChargesTotal) (stored (subtotal + tax + extraChargesTotal))
    (Form.status data) (notesOrNull (Form.notes data)) now now.

Definition billItemOf (newId : string) (item : ItemData.t) : BillItems.row :=
  BillItems.mk newId (ItemData.inventoryId item) (ItemData.quantity item)
    (ItemData.sellingPrice item) (ItemData.total item).

Definition chargeOf (newId : string) (charge : Form.ExtraCharge)
    : BillExtraCharges.row :=
  BillExtraCharges.mk newId (Form.name charge) (stored (Form.amount charge)).

Definition chargeWrites (newId : string) (charges : list Form.ExtraCharge)
    : list Write :=
  match charges with
  | [] => []
  | _ => [InsertBillExtraCharges (map (chargeOf newId) charges)]
  end.

Definition postWrites (userId newId : string) (now : Z)
    (data : Form.ExtendedBill) (itemsData : list ItemData.t) : list Write :=
  InsertBill (newBillOf userId newId now data)
  :: InsertBillItems (map (billItemOf newId) itemsData)
  :: (chargeWrites newId (Form.extraCharges data)
      ++ reduceWrites itemsData now)%list.

(** The total quantity of a lot, as a handler reads it. *)
Definition quantityOf (id : string) (db : Db) : option float :=
  option_map Inventory.quantity (selectInventory id db).

(** The writes of the restore loop on the tables [db]: one per item whose
    lot is found, computed from the row as it is when the item is reached. *)
Fixpoint restoreWrites (billItemsList : list BillItems.row) (now : Z) (db : Db)
    : list Write :=
  match billItemsList with
  | [] => []
  | item :: rest =>
      match selectInventory (BillItems.inventoryId item) db with
      | Some row =>
          let w := UpdateInventory (BillItems.inventoryId item)
                     (stored (Inventory.availableQuantity row
                              + BillItems.quantity item)) now in
          w :: restoreWrites rest now (apply w db)
      | None => restoreWrites rest now db
      end
  end.

(** What the release of one item makes of an available quantity. *)
Definition released (available : float) (item : BillItems.row) : float :=
  stored (available + BillItems.quantity item).

Definition onLot (l : string) (item : BillItems.row) : bool :=
  (BillItems.inventoryId item =? l)%string.

Definition deleteWrites (userId billId : string) (now : Z) (db : Db) : list Write :=
  (restoreWrites (selectBillItems billId db) now db
   ++ [DeleteBillItems billId; DeleteBillExtraCharges billId;
       DeleteBill billId userId])%list.

(** What createBill can have made of the available quantity of lot [l]:
    nothing, or the quantity read before the call minus the quantity of a
    line on that lot that passed the stock check. *)
Definition reservedFrom (db : Db) (items : list Form.BillingItem) (l : string)
    (after : option float) : Prop :=
  after = availableOf l db
  \/ exists item a,
       In item items /\ Form.inventoryId item = l /\
       availableOf l db = Some a /\
       (a <? Form.quantity item) = false /\
       after = Some (stored (a - stored (Form.quantity item))).

(** An entry of [itemsData] made from a line of [items] that passed the
    stock check on [db]. *)
Definition entryOf (db : Db) (items : list Form.BillingItem) (d : ItemData.t)
    : Prop :=
  exists item row,
    In item items /\ d = itemDataOf item row /\
    selectInventory (Form.inventoryId item) db = Some row /\
    (Inventory.availableQuantity row <? Form.quantity item) = false.

(** The first line of a request on lot [l]. *)
Definition lineOn (l : string) (items : list Form.BillingItem)
    : option Form.BillingItem :=
  find (fun item => (Form.inventoryId item =? l)%string) items.

(** What reserving and then releasing [q] makes of an available quantity:
    [(a - q) + q] in binary64 arithmetic, through the columns. *)
Definition roundTrip (q a : float) : float :=
  stored (stored (a - stored q) + stored q).

(** No row of the bill tables carries the id [newId]. *)
Definition freshId (newId : string) (db : Db) : bool :=
  forallb (fun b => negb (Bills.id b =? newId)%string) (bills db)
  && forallb (fun i => negb (BillItems.billId i =? newId)%string) (billItems db)
  && forallb (fun c => negb (BillExtraCharges.billId c =? newId)%string)
       (billExtraCharges db).

(** The same request created and deleted again, once per bill id (and
    clock) of [ids]; [None] when a call is not answered 201, then 200. *)
Fixpoint cycles (isDate : string -> bool) (userId : string) (body : json)
    (ids : list (string * Z)) (db : Db) : option Db :=
  match ids with
  | [] => Some db
  | (newId, now) :: rest =>
      match run (createBill isDate (Some userId) body newId now) db with
      | (Created _, db1, _) =>
          match run (deleteBill (Some userId) newId now) db1 with
          | (Deleted, db2, _) => cycles isDate userId body rest db2
          | _ => None
          end
      | _ => None
      end
  end.

(** The bill of a 201 response. *)
Definition createdBill (r : Response) : option Bills.row :=
  match r with
  | Created b => Some b
  | _ => None
  end.

(** ** Concrete requests *)

Module Sample.

(** The engine of the scenarios reads the text 2025-01-15 as a date, as
    every engine does, and none of the other texts that occur in them. *)
Definition isDate (text : string) : bool :=
  (text =? "2025-01-15")%string.

Definition lot (id : string) (quantity available : float) : Inventory.row :=
  Inventory.mk id "item-1" quantity available 0.

Definition line (inventoryId : string) (quantity sellingPrice : float) : json :=
  JObj [("inventoryId", JStr inventoryId); ("quantity", JNum quantity);
        ("sellingPrice", JNum sellingPrice)].

Definition order (lines : list json) (rest : list (string * json)) : json :=
  JObj (("clientId", JStr "client-1") :: ("invoiceNumber", JStr "INV-001")
        :: ("billDate", JStr "2025-01-15") :: ("items", JArr lines) :: rest).

Definition stock (lots : list Inventory.row) : Db := mkDb [] [] [] lots.

(** Three lots; the third has less than the third line asks for. *)
Definition threeLots : Db :=
  stock [lot "L1" 10 10; lot "L2" 5 5; lot "L3" 1 1].

Definition threeLines : json :=
  order [line "L1" 2 1; line "L2" 3 1; line "L3" 4 1] [].

(** One lot named by two lines of the same request. *)
Definition oneLot : Db := stock [lot "L1" 10 10].

Definition repeatedLot : json :=
  order [line "L1" 3 1; line "L1" 2 1] [].

(** Two lots, one line each. *)
Definition twoLots : Db := stock [lot "L1" 10 10; lot "L2" 5 5].

Definition twoLines : json :=
  order [line "L1" 3 1; line "L2" 2 1] [].

(** The example of the specification: items (2, 10.00) and (1, 5.50),
    taxRate 10, extra charge Shipping 3.00. *)
Definition specExample : json :=
  order [line "L1" 2 10; line "L1" 1 5.5]
    [("taxRate", JNum 10);
     ("extraCharges", JArr [JObj [("name", JStr "Shipping"); ("amount", JNum 3)]])].

(** One line of 1 at 0.125 under a tax rate of 100. *)
Definition eighth : json :=
  order [line "L1" 1 0.125] [("taxRate", JNum 100)].

(** A bill of 10 at 10 under a tax rate of 10, then a PUT of taxRate 20. *)
Definition hundred : json :=
  order [line "L1" 10 10] [("taxRate", JNum 10)].

Definition rate20 : PutBody.t :=
  PutBody.mk None None None None (Some 20) None.

(** The same with a bill date that is no date. *)
Definition rate20Someday : PutBody.t :=
  PutBody.mk None (Some "someday") None None (Some 20) None.

(** A request of one line whose bill date is no date. *)
Definition someday : json :=
  JObj [("clientId", JStr "client-1"); ("invoiceNumber", JStr "INV-001");
        ("billDate", JStr "someday"); ("items", JArr [line "L1" 3 1])].

(** A PATCH body with a status and a bill date. *)
Definition paidOn (billDate : string) : BillSet.t :=
  BillSet.mk None None None (Some billDate) None None None None None
    (Some paid) None None.

(** A bill with an item on a lot that exists and one on a lot that is gone. *)
Definition billB1 : Bills.row :=
  Bills.mk "B1" "u1" "client-1" "INV-001" "INV-001" "2025-01-15"
    5 10 0.5 0 5.5 due None 1 1.

Definition vanished : Db :=
  mkDb [billB1]
    [BillItems.mk "B1" "L1" 3 1 3; BillItems.mk "B1" "GONE" 2 1 2]
    [] [lot "L1" 10 7].

(** A lot of 0.3 and a request for 0.03 of it. *)
Definition threeTenths : Db := stock [lot "L1" 0.3 0.3].

Definition threeHundredths : json :=
  order [line "L1" 0.03 1] [].

(** Two lots with 1 available each. *)
Definition twoShort : Db := stock [lot "L1" 10 1; lot "L2" 10 1].

End Sample.

(** ** GET /api/bills/[id] *)

(** The clients table, with the columns the route selects.  No bill route
    writes it; the handler that joins it is given its rows. *)
Module Clients.
Record row : Type := mk {
  id : string;
  name : string;
  email : string;
  phone : option string;
  address : option string
}.
End Clients.

(** The columns selected of a bill item.  The row ids the database
    generates for bill items and extra charges are not part of the tables
    here, so they are not part of what is read back. *)
Module ItemView.
Record t : Type := mk {
  inventoryId : string;
  quantity : float;
  sellingPrice : float;
  total : float
}.
End ItemView.

(** [fullBill]: the selected header columns, the joined client, the items
    and the extra charges. *)
Module FullBill.
Record t : Type := mk {
  id : string;
  billNumber : string;
  invoiceNumber : string;
  billDate : string;
  subtotal : float;
  taxRate : float;
  tax : float;
  extraChargesTotal : float;
  total : float;
  status : Status;
  notes : option string;
  createdAt : Z;
  updatedAt : Z;
  client : option Clients.row;
  items : list ItemView.t;
  extraCharges : list BillExtraCharges.row
}.
End FullBill.

Inductive GetResponse : Type :=
| GetUnauthorized
| GetBillNotFound
| GetOk (fullBill : FullBill.t).

Definition getStatusCode (r : GetResponse) : Z :=
  match r with
  | GetUnauthorized => 401
  | GetBillNotFound => 404
  | GetOk _ => 200
  end.

(** [leftJoin(clients, eq(bills.clientId, clients.id))]: the client of the
    bill, null when there is none. *)
Definition joinClient (clients : list Clients.row) (b : Bills.row)
    : option Clients.row :=
  find (fun c => (Clients.id c =? Bills.clientId b)%string) clients.

(** [select().from(billExtraCharges).where(eq(billExtraCharges.billId, billId))] *)
Definition selectBillExtraCharges (billId : string) (db : Db)
    : list BillExtraCharges.row :=
  filter (fun c => (BillExtraCharges.billId c =? billId)%string)
    (billExtraCharges db).

Definition itemView (i : BillItems.row) : ItemView.t :=
  ItemView.mk (BillItems.inventoryId i) (BillItems.quantity i)
    (BillItems.sellingPrice i) (BillItems.total i).

Definition fullBillOf (b : Bills.row) (client : option Clients.row)
    (items : list ItemView.t) (extraCharges : list BillExtraCharges.row)
    : FullBill.t :=
  FullBill.mk (Bills.id b) (Bills.billNumber b) (Bills.invoiceNumber b)
    (Bills.billDate b) (Bills.subtotal b) (Bills.taxRate b) (Bills.tax b)
    (Bills.extraChargesTotal b) (Bills.total b) (Bills.status b)
    (Bills.notes b) (Bills.createdAt b) (Bills.updatedAt b)
    client items extraCharges.

Definition GET (session : option string) (billId : string)
    (clients : list Clients.row) : M GetResponse :=
  match session with
  | None => ret GetUnauthorized
  | Some userId =>
      billHeader <- query (selectBill billId userId) ;;
      match billHeader with
      | None => ret GetBillNotFound
      | Some bill =>
          billItemsResult <- query (selectBillItems billId) ;;
          extraChargesResult <- query (selectBillExtraCharges billId) ;;
          ret (GetOk (fullBillOf bill (joinClient clients bill)
                        (map itemView billItemsResult) extraChargesResult))
      end
  end.

Definition getBill := GET.

(** ** The four writing routes as one *)

Inductive Request : Type :=
| ReqPOST (body : json) (newId : string)
| ReqPUT (billId : string) (body : PutBody.t)
| ReqPATCH (billId : string) (body : BillSet.t)
| ReqDELETE (billId : string).

Definition route (isDate : string -> bool) (session : option string) (now : Z)
    (r : Request) : M Response :=
  match r with
  | ReqPOST body newId => POST isDate session body newId now
  | ReqPUT billId body => PUT isDate session billId body now
  | ReqPATCH billId body => PATCH session billId body now
  | ReqDELETE billId => DELETE session billId now
  end.

(** The bill a request is about, if it names one. *)
Definition targetOf (r : Request) : option string :=
  match r with
  | ReqPOST _ _ => None
  | ReqPUT billId _ => Some billId
  | ReqPATCH billId _ => Some billId
  | ReqDELETE billId => Some billId
  end.

(** ** Further vocabulary *)

(** The last line of a request on lot [l]. *)
Definition lastLineOn (l : string) (items : list Form.BillingItem)
    : option Form.BillingItem :=
  find (fun item => (Form.inventoryId item =? l)%string) (rev items).

(** The bill item POST stores for a line. *)
Definition itemViewOf (item : Form.BillingItem) : ItemView.t :=
  ItemView.mk (Form.inventoryId item) (stored (Form.quantity item))
    (stored (Form.sellingPrice item)) (stored (lineTotal item)).


(** The rows of the bill tables that do not belong to the bill [billId] of
    [userId]. *)
Definition otherBills (billId userId : string) (db : Db) : list Bills.row :=
  filter (fun b => negb (ownBill billId userId b)) (bills db).

Definition otherBillItems (billId : string) (db : Db) : list BillItems.row :=
  filter (fun i => negb (BillItems.billId i =? billId)%string) (billItems db).

Definition otherBillExtraCharges (billId : string) (db : Db)
    : list BillExtraCharges.row :=
  filter (fun c => negb (BillExtraCharges.billId c =? billId)%string)
    (billExtraCharges db).

(** The columns of a bill that PUT does not name. *)
Definition protectedColumns (b : Bills.row)
    : string * string * string * float * float * float * float * Z :=
  (Bills.id b, Bills.userId b, Bills.billNumber b, Bills.subtotal b,
   Bills.tax b, Bills.extraChargesTotal b, Bills.total b, Bills.createdAt b).

(** A bill with another status, touched at [now]. *)
Definition withStatus (s : Status) (now : Z) (b : Bills.row) : Bills.row :=
  Bills.mk (Bills.id b) (Bills.userId b) (Bills.clientId b) (Bills.billNumber b)
    (Bills.invoiceNumber b) (Bills.billDate b) (Bills.subtotal b)
    (Bills.taxRate b) (Bills.tax b) (Bills.extraChargesTotal b) (Bills.total b)
    s (Bills.notes b) (Bills.createdAt b) now.

(** What the schemas check of a number: it is a number, not below [lo]. *)
Definition numberFrom (lo x : float) : bool :=
  (x =? x) && negb (x <? lo).

Definition nonEmpty (s : string) : bool :=
  negb (s =? "")%string.

Definition validItem (item : Form.BillingItem) : bool :=
  nonEmpty (Form.inventoryId item)
  && numberFrom 0.01 (Form.quantity item)
  && numberFrom 0 (Form.sellingPrice item).

Definition validCharge (charge : Form.ExtraCharge) : bool :=
  nonEmpty (Form.name charge) && numberFrom 0 (Form.amount charge).

(** The data [extendedBillSchema] lets through. *)
Definition validBill (data : Form.ExtendedBill) : bool :=
  nonEmpty (Form.clientId data)
  && nonEmpty (Form.invoiceNumber data)
  && nonEmpty (Form.billDate data)
  && negb (Nat.eqb (List.length (Form.items data)) 0)
  && forallb validItem (Form.items data)
  && numberFrom 0 (Form.taxRate data)
  && negb (100 <? Form.taxRate data)
  && forallb validCharge (Form.extraCharges data).

(** A body that [request.json()] reads as [data]: the object with its
    fields.  A JSON text can spell every number of [data]: the negative
    zero as -0, an infinity as a literal beyond the range, such as 1e999. *)
Definition itemBody (item : Form.BillingItem) : json :=
  JObj [("inventoryId", JStr (Form.inventoryId item));
        ("quantity", JNum (Form.quantity item));
        ("sellingPrice", JNum (Form.sellingPrice item))].

Definition chargeBody (charge : Form.ExtraCharge) : json :=
  JObj [("name", JStr (Form.name charge)); ("amount", JNum (Form.amount charge))].

Definition statusText (s : Status) : string :=
  match s with
  | due => "due"
  | paid => "paid"
  end.

Definition bodyOf (data : Form.ExtendedBill) : json :=
  JObj ([("clientId", JStr (Form.clientId data));
         ("invoiceNumber", JStr (Form.invoiceNumber data));
         ("billDate", JStr (Form.billDate data));
         ("items", JArr (map itemBody (Form.items data)));
         ("taxRate", JNum (Form.taxRate data));
         ("extraCharges", JArr (map chargeBody (Form.extraCharges data)));
         ("status", JStr (statusText (Form.status data)))]
        ++ match Form.notes data with
           | Some n => [("notes", JStr n)]
           | None => []
           end)%list.

(** ** The billing page *)

(** [BillingFormData]: the values of the bill dialog. *)
Module BillingFormData.
Record t : Type := mk {
  clientId : string;
  billDate : string;
  invoiceNumber : string;
  items : list Form.BillingItem;
  taxRate : option float;
  extraCharges : option (list Form.ExtraCharge);
  notes : option string;
  status : Status;
  dueDate : string
}.
End BillingFormData.

(** [x || 0] on a number: 0, the negative zero and NaN are falsy. *)
Definition orZero (x : float) : float :=
  if (x =? 0) || negb (x =? x) then 0 else x.

(** [watch('taxRate') || 0] and [data.taxRate || 0] *)
Definition taxRateOrZero (taxRate : option float) : float :=
  match taxRate with
  | Some x => orZero x
  | None => 0
  end.

(** [watch('extraCharges') || []] and [data.extraCharges || []] *)
Definition chargesOrNone (extraCharges : option (list Form.ExtraCharge))
    : list Form.ExtraCharge :=
  match extraCharges with
  | Some l => l
  | None => []
  end.

(** The totals the dialog shows while the bill is edited. *)
Module Preview.
Definition subtotal (data : BillingFormData.t) : float :=
  fold_left
    (fun sum item => sum + orZero (Form.quantity item) * orZero (Form.sellingPrice item))
    (BillingFormData.items data) 0.

Definition extraChargesTotal (data : BillingFormData.t) : float :=
  fold_left (fun sum charge => sum + orZero (Form.amount charge))
    (chargesOrNone (BillingFormData.extraCharges data)) 0.

Definition tax (data : BillingFormData.t) : float :=
  (subtotal data * taxRateOrZero (BillingFormData.taxRate data)) / 100.

Definition grandTotal (data : BillingFormData.t) : float :=
  subtotal data + tax data + extraChargesTotal data.
End Preview.

(** [formattedData] of [onSubmit], as the server's schema reads it: the
    schema strips [dueDate]. *)
Definition formattedData (data : BillingFormData.t) : Form.ExtendedBill :=
  Form.mk (BillingFormData.clientId data) (BillingFormData.invoiceNumber data)
    (BillingFormData.billDate data) (BillingFormData.items data)
    (taxRateOrZero (BillingFormData.taxRate data))
    (chargesOrNone (BillingFormData.extraCharges data))
    (BillingFormData.notes data) (BillingFormData.status data).

(** The data reach the route as JSON, which [request.json()] reads back.
    [JSON.stringify] writes a number that is not finite as null and the
    negative zero as 0; every other number is read back as it was. *)
Definition isFinite (x : float) : bool :=
  (neg_infinity <? x) && (x <? infinity).

Definition sentNumber (x : float) : json :=
  if isFinite x then JNum (if x =? 0 then 0 else x) else JNull.

Definition sentItem (item : Form.BillingItem) : json :=
  JObj [("inventoryId", JStr (Form.inventoryId item));
        ("quantity", sentNumber (Form.quantity item));
        ("sellingPrice", sentNumber (Form.sellingPrice item))].

Definition sentCharge (charge : Form.ExtraCharge) : json :=
  JObj [("name", JStr (Form.name charge));
        ("amount", sentNumber (Form.amount charge))].

(** The body of the request that carries [formattedData]. *)
Definition requestBody (data : BillingFormData.t) : json :=
  JObj ([("clientId", JStr (BillingFormData.clientId data));
         ("billDate", JStr (BillingFormData.billDate data));
         ("invoiceNumber", JStr (BillingFormData.invoiceNumber data));
         ("items", JArr (map sentItem (BillingFormData.items data)));
         ("taxRate", sentNumber (taxRateOrZero (BillingFormData.taxRate data)));
         ("extraCharges",
          JArr (map sentCharge (chargesOrNone (BillingFormData.extraCharges data))))]
        ++ match BillingFormData.notes data with
           | Some n => [("notes", JStr n)]
           | None => []
           end
        ++ [("status", JStr (statusText (BillingFormData.status data)));
            ("dueDate", JStr (BillingFormData.dueDate data))])%list.

(** Every quantity, price and amount of the form is finite. *)
Definition finiteItem (item : Form.BillingItem) : bool :=
  isFinite (Form.quantity item) && isFinite (Form.sellingPrice item).

Definition finiteCharge (charge : Form.ExtraCharge) : bool :=
  isFinite (Form.amount charge).

Definition finiteForm (data : BillingFormData.t) : bool :=
  forallb finiteItem (BillingFormData.items data)
  && forallb finiteCharge (chargesOrNone (BillingFormData.extraCharges data)).

(** [formattedData] with its numbers as JSON carries them. *)
Definition readItem (item : Form.BillingItem) : Form.BillingItem :=
  Form.mkItem (Form.inventoryId item) (stored (Form.quantity item))
    (stored (Form.sellingPrice item)).

Definition readCharge (charge : Form.ExtraCharge) : Form.ExtraCharge :=
  Form.mkCharge (Form.name charge) (stored (Form.amount charge)).

Definition readBack (data : BillingFormData.t) : Form.ExtendedBill :=
  Form.mk (BillingFormData.clientId data) (BillingFormData.invoiceNumber data)
    (BillingFormData.billDate data) (map readItem (BillingFormData.items data))
    (stored (taxRateOrZero (BillingFormData.taxRate data)))
    (map readCharge (chargesOrNone (BillingFormData.extraCharges data)))
    (BillingFormData.notes data) (BillingFormData.status data).

(** Every lot of the table has a finite available quantity. *)
Definition finiteStock (db : Db) : bool :=
  forallb (fun r => Inventory.availableQuantity r <? infinity) (inventory db).

(** [billingFormSchema], the schema of the bill dialog.  Its item and
    charge objects have the fields and constraints of [billingItemSchema]
    and [extraChargeSchema]. *)
Definition zOptional {B : Type} (schema : option json -> option B)
    (val : option json) : option (option B) :=
  match val with
  | None => Some None
  | Some _ => option_map Some (schema val)
  end.

(** [z.enum(['due', 'paid'])] *)
Definition statusEnum (val : option json) : option Status :=
  match val with
  | Some (JStr s) =>
      if (s =? "due")%string then Some due
      else if (s =? "paid")%string then Some paid
      else None
  | _ => None
  end.

Definition billingFormSchema (values : json) : option BillingFormData.t :=
  match props_of values with
  | Some o =>
      match zStringMin1 (prop "clientId" o),
            zStringMin1 (prop "billDate" o),
            zStringMin1 (prop "invoiceNumber" o),
            zArrayMin1 billingItemSchema (prop "items" o),
            zOptional (zNumberMinMax 0 100) (prop "taxRate" o),
            zOptional (zArray extraChargeSchema) (prop "extraCharges" o),
            zStringOptional (prop "notes" o),
            statusEnum (prop "status" o),
            zStringMin1 (prop "dueDate" o) with
      | Some c, Some d, Some n, Some lines, Some t, Some es, Some ns, Some st,
        Some dd =>
          Some (BillingFormData.mk c d n lines t es ns st dd)
      | _, _, _, _, _, _, _, _, _ => None
      end
  | None => None
  end.

(** The bill item POST inserts for a line of the request. *)
Definition lineItem (newId : string) (item : Form.BillingItem) : BillItems.row :=
  BillItems.mk newId (Form.inventoryId item) (stored (Form.quantity item))
    (stored (Form.sellingPrice item)) (stored (lineTotal item)).

(** The lines of a request on lot [l]. *)
Definition linesOn (l : string) (items : list Form.BillingItem)
    : list Form.BillingItem :=
  filter (fun item => (Form.inventoryId item =? l)%string) items.

(** What the release of the item of a line makes of an available
    quantity. *)
Definition giveBack (available : float) (item : Form.BillingItem) : float :=
  stored (available + stored (Form.quantity item)).

(** What createBill makes of the available quantity [a] of lot [l]. *)
Definition reserved (l : string) (items : list Form.BillingItem) (a : float)
    : float :=
  match lastLineOn l items with
  | Some item => stored (a - stored (Form.quantity item))
  | None => a
  end.

(** The bill id a request writes rows of. *)
Definition writesTo (r : Request) (billId : string) : bool :=
  match r with
  | ReqPOST _ newId => (newId =? billId)%string
  | ReqPUT id _ => (id =? billId)%string
  | ReqPATCH id _ => (id =? billId)%string
  | ReqDELETE id => (id =? billId)%string
  end.

(** What GET reads of a bill: its header for the reader, its items and its
    extra charges. *)
Definition readOf (reader billId : string) (db : Db)
    : option Bills.row * list BillItems.row * list BillExtraCharges.row :=
  (selectBill billId reader db, selectBillItems billId db,
   selectBillExtraCharges billId db).

(** ** Concrete requests on the routes above *)

Module Scenario.

Definition clients : list Clients.row :=
  [Clients.mk "client-1" "Acme" "billing@acme.test" None None].

(** Three lines; the second names a lot that is not in the table. *)
Definition missingLot : json :=
  Sample.order [Sample.line "L1" 2 1; Sample.line "L9" 1 1; Sample.line "L3" 4 1] [].

(** The values of a dialog with two lines, one extra charge and no tax
    rate. *)
Definition formValues : json :=
  JObj [("clientId", JStr "client-1"); ("billDate", JStr "2025-01-15");
        ("invoiceNumber", JStr "INV-001");
        ("items", JArr [Sample.line "L1" 2 10; Sample.line "L1" 1 5.5]);
        ("extraCharges",
         JArr [JObj [("name", JStr "Shipping"); ("amount", JNum 3)]]);
        ("status", JStr "due"); ("dueDate", JStr "2025-02-14")].

Definition form : BillingFormData.t :=
  BillingFormData.mk "client-1" "2025-01-15" "INV-001"
    [Form.mkItem "L1" 2 10; Form.mkItem "L1" 1 5.5] None
    (Some [Form.mkCharge "Shipping" 3]) None due "2025-02-14".

(** The values of a dialog with one line of infinitely many units. *)
Definition boundlessValues : json :=
  JObj [("clientId", JStr "client-1"); ("billDate", JStr "2025-01-15");
        ("invoiceNumber", JStr "INV-002");
        ("items", JArr [Sample.line "L1" infinity 10]);
        ("status", JStr "due"); ("dueDate", JStr "2025-02-14")].

Definition boundless : BillingFormData.t :=
  BillingFormData.mk "client-1" "2025-01-15" "INV-002"
    [Form.mkItem "L1" infinity 10] None None None due "2025-02-14".

(** A lot of 1e308 and a line of 1e308 at 1e308 under a tax rate of 0. *)
Definition hugeLot : Db := Sample.stock [Sample.lot "L1" 1e308 1e308].

Definition hugeLine : json :=
  Sample.order [Sample.line "L1" 1e308 1e308] [("taxRate", JNum 0)].

End Scenario.

(** * Properties *)

Section Properties.

(** The engine's reading of dates: any. *)
Variable isDate : string -> bool.

(** ** Numbers *)

(** A quantity that is not positive is below the schema's minimum 0.01. *)
Lemma nonpositive_below_min (q : float) :
  (q <=? 0) = true -> (q <? 0.01) = true.
Proof.
  rewrite leb_spec, ltb_spec.
  replace (Prim2SF 0) with (S754_zero false) by (vm_compute; reflexivity).
  replace (Prim2SF 0.01) with (S754_finite false 5764607523034235 (-59))
    by (vm_compute; reflexivity).
  unfold SFleb, SFltb, SFcompare.
  destruct (Prim2SF q) as [s | s | | s m e].
  - reflexivity.
  - destruct s; [reflexivity | discriminate].
  - discriminate.
  - destruct s; [reflexivity | discriminate].
Qed.

(** The number of binary digits brackets the number. *)
Lemma digits2_pos_bounds (m : positive) :
  (2 ^ (Z.pos (digits2_pos m) - 1) <= Z.pos m < 2 ^ Z.pos (digits2_pos m))%Z.
Proof.
  induction m as [m IH | m IH |]; cbn [digits2_pos].
  - rewrite Pos2Z.inj_succ. replace (Z.succ (Z.pos (digits2_pos m)) - 1)%Z
      with (Z.succ (Z.pos (digits2_pos m) - 1))%Z by lia.
    rewrite !Z.pow_succ_r by lia. lia.
  - rewrite Pos2Z.inj_succ. replace (Z.succ (Z.pos (digits2_pos m)) - 1)%Z
      with (Z.succ (Z.pos (digits2_pos m) - 1))%Z by lia.
    rewrite !Z.pow_succ_r by lia. lia.
  - simpl. lia.
Qed.

(** Aligning a mantissa on a smaller exponent multiplies it by a power of 2. *)
Lemma shl_align_value (m : positive) (e e' : Z) :
  (e' <= e)%Z ->
  Z.pos (fst (shl_align m e e')) = (Z.pos m * 2 ^ (e - e'))%Z.
Proof.
  intros Hle. unfold shl_align.
  destruct (e' - e)%Z as [| d | d] eqn:Hd.
  - replace (e - e')%Z with 0%Z by lia. simpl. lia.
  - lia.
  - replace (e - e')%Z with (Z.pos d) by lia. cbn [fst].
    change (Pos.iter xO m d) with (shift_pos d m).
    rewrite shift_pos_correct, Z.pow_pos_fold. lia.
Qed.

(** A mantissa in canonical form has at most 53 digits, and exactly 53
    above the least exponent. *)
Lemma canonical_digits (m : positive) (e : Z) :
  bounded prec emax m e = true ->
  (emin <= e)%Z /\ (Z.pos m < 2 ^ 53)%Z /\
  ((emin < e)%Z -> (2 ^ 52 <= Z.pos m)%Z).
Proof.
  unfold bounded, canonical_mantissa, fexp, SpecFloat.emin.
  change prec with 53%Z. change emax with 1024%Z. intros H.
  apply andb_prop in H. destruct H as [H _]. apply Z.eqb_eq in H.
  pose proof (digits2_pos_bounds m) as [Hlo Hhi].
  split; [lia |]. split.
  - assert (Hd : (Z.pos (digits2_pos m) <= 53)%Z) by lia.
    apply (Z.lt_le_trans _ _ _ Hhi). apply Z.pow_le_mono_r; lia.
  - intros He. assert (Hd : Z.pos (digits2_pos m) = 53%Z) by lia.
    rewrite Hd in Hlo. exact Hlo.
Qed.

(** Of two positive numbers in canonical form, the one that is not smaller
    has the mantissa that is not smaller once both are aligned. *)
Lemma aligned_order (ma mq : positive) (ea eq : Z) :
  bounded prec emax ma ea = true -> bounded prec emax mq eq = true ->
  SFltb (S754_finite false ma ea) (S754_finite false mq eq) = false ->
  (Z.pos (fst (shl_align mq eq (Z.min ea eq)))
   <= Z.pos (fst (shl_align ma ea (Z.min ea eq))))%Z.
Proof.
  intros Ha Hq. unfold SFltb, SFcompare.
  destruct (canonical_digits ma ea Ha) as (Hae & Hahi & Halo).
  destruct (canonical_digits mq eq Hq) as (Hqe & Hqhi & Hqlo).
  unfold SpecFloat.emin in Hae, Halo, Hqe, Hqlo.
  change prec with 53%Z in *. change emax with 1024%Z in *.
  rewrite !shl_align_value by lia.
  destruct (Z.compare_spec ea eq) as [-> | Hlt | Hgt].
  - rewrite Pos.compare_cont_spec. simpl.
    destruct (Pos.compare_spec ma mq) as [-> | Hm | Hm]; try discriminate;
      intros _; rewrite Z.min_id, Z.sub_diag; simpl; lia.
  - discriminate.
  - intros _. rewrite Z.min_r by lia. rewrite Z.sub_diag.
    assert (H2 : (2 ^ 1 <= 2 ^ (ea - eq))%Z) by (apply Z.pow_le_mono_r; lia).
    specialize (Halo ltac:(lia)). simpl in H2. nia.
Qed.

(** Rounding a number that is not negative gives one that is not negative. *)
Lemma shr_1_nonneg (mrs : shr_record) :
  (0 <= shr_m mrs)%Z -> (0 <= shr_m (shr_1 mrs))%Z.
Proof.
  destruct mrs as [m r s]. simpl.
  destruct m as [| [p | p |] | p]; simpl; lia.
Qed.

Lemma iter_shr_1_nonneg (p : positive) :
  forall mrs, (0 <= shr_m mrs)%Z -> (0 <= shr_m (SpecFloat.iter_pos shr_1 p mrs))%Z.
Proof.
  induction p as [p IH | p IH |]; intros mrs H; simpl.
  - apply IH, IH. now apply shr_1_nonneg.
  - now apply IH, IH.
  - now apply shr_1_nonneg.
Qed.

Lemma shr_fexp_nonneg (m e : Z) (l : location) :
  (0 <= m)%Z -> (0 <= shr_m (fst (shr_fexp prec emax m e l)))%Z.
Proof.
  intros H. unfold shr_fexp, shr.
  assert (H0 : (0 <= shr_m (shr_record_of_loc m l))%Z)
    by (destruct l as [| []]; exact H).
  destruct (_ - e)%Z; simpl; try exact H0.
  now apply iter_shr_1_nonneg.
Qed.

Lemma round_nearest_even_nonneg (mx : Z) (lx : location) :
  (0 <= mx)%Z -> (0 <= round_nearest_even mx lx)%Z.
Proof.
  intros H. destruct lx as [| []]; simpl; try destruct (Z.even mx); lia.
Qed.

Lemma binary_round_aux_nonneg (mx ex : Z) (lx : location) :
  (0 <= mx)%Z ->
  SFleb (S754_zero false) (binary_round_aux prec emax false mx ex lx) = true.
Proof.
  intros H. unfold binary_round_aux.
  pose proof (shr_fexp_nonneg mx ex lx H) as H1.
  destruct (shr_fexp prec emax mx ex lx) as [mrs' e']. simpl in H1.
  pose proof (shr_fexp_nonneg _ e' loc_Exact
                (round_nearest_even_nonneg _ (loc_of_shr_record mrs') H1)) as H2.
  destruct (shr_fexp prec emax _ e' loc_Exact) as [mrs'' e'']. simpl in H2.
  destruct (shr_m mrs'') as [| m | m]; [reflexivity | | lia].
  now destruct (e'' <=? emax - prec)%Z.
Qed.

Lemma binary_normalize_nonneg (m e : Z) :
  (0 <= m)%Z ->
  SFleb (S754_zero false) (binary_normalize prec emax m e false) = true.
Proof.
  intros H. destruct m as [| m | m]; [reflexivity | | lia].
  unfold binary_normalize, binary_round.
  destruct (shl_align m e _) as [mz ez].
  apply binary_round_aux_nonneg. lia.
Qed.

(** [a - q] is not negative when [0 <= a < infinity], [q] is a number, at
    least 0.01, and not above [a]. *)
Lemma sub_nonnegative (a q : float) :
  (0 <=? a)%float = true -> (a <? infinity)%float = true ->
  (q =? q)%float = true -> (q <? 0.01)%float = false ->
  (a <? q)%float = false ->
  (0 <=? a - q)%float = true /\ (q =? 0)%float = false.
Proof.
  rewrite !leb_spec, !ltb_spec, !FloatAxioms.eqb_spec, sub_spec.
  replace (Prim2SF 0) with (S754_zero false) by (vm_compute; reflexivity).
  replace (Prim2SF 0.01) with (S754_finite false 5764607523034235 (-59))
    by (vm_compute; reflexivity).
  replace (Prim2SF infinity) with (S754_infinity false) by (vm_compute; reflexivity).
  pose proof (Prim2SF_valid a) as Hva. pose proof (Prim2SF_valid q) as Hvq.
  destruct (Prim2SF q) as [sq | sq | | sq mq eq];
    destruct (Prim2SF a) as [sa | sa | | sa ma ea];
    try destruct sq; try destruct sa; try discriminate.
  - intros _ _ _ _ Hlt. split; [| reflexivity].
    unfold SF64sub, SFsub. apply binary_normalize_nonneg.
    pose proof (aligned_order ma mq ea eq Hva Hvq Hlt) as Hord.
    unfold cond_Zopp. lia.
Qed.

(** The quantity createBill writes to a lot is not negative: the available
    quantity read is a number from 0 up, short of infinity, and the
    requested one is a number, at least 0.01 and not above it. *)
Lemma reserve_nonnegative (a q : float) :
  (0 <=? a) = true -> (a <? infinity) = true ->
  (q =? q) = true -> (q <? 0.01) = false ->
  (a <? q) = false ->
  (0 <=? stored (a - stored q)) = true.
Proof.
  intros Ha Hfin Hq Hmin Hge.
  destruct (sub_nonnegative a q Ha Hfin Hq Hmin Hge) as [Hsub Hq0].
  unfold stored. rewrite Hq0.
  destruct (a - q =? 0); [reflexivity | exact Hsub].
Qed.


(** *** Rounding, on the specification of the format *)

Section Rounding.

Local Open Scope Z_scope.

Lemma shr_1_half (mrs : shr_record) :
  0 <= shr_m mrs -> shr_m (shr_1 mrs) = shr_m mrs / 2.
Proof.
  destruct mrs as [m r s]. cbn [shr_m].
  destruct m as [| [p | p |] | p]; cbn [shr_1 shr_m]; intros H.
  - reflexivity.
  - apply Z.div_unique with (r := 1); lia.
  - apply Z.div_unique with (r := 0); lia.
  - reflexivity.
  - lia.
Qed.

Lemma iter_shr_1_div (p : positive) :
  forall mrs,
    0 <= shr_m mrs ->
    shr_m (SpecFloat.iter_pos shr_1 p mrs) = shr_m mrs / 2 ^ Z.pos p.
Proof.
  induction p as [p IH | p IH |]; intros mrs H; simpl SpecFloat.iter_pos.
  - rewrite IH, IH, shr_1_half by
      (try apply iter_shr_1_nonneg; try apply shr_1_nonneg; exact H).
    rewrite !Z.div_div by lia.
    f_equal. replace (Z.pos p~1) with (1 + Z.pos p + Z.pos p) by lia.
    rewrite !Z.pow_add_r by lia. change (2 ^ 1) with 2. ring.
  - rewrite IH, IH by (try apply iter_shr_1_nonneg; exact H).
    rewrite !Z.div_div by lia.
    f_equal. replace (Z.pos p~0) with (Z.pos p + Z.pos p) by lia.
    rewrite !Z.pow_add_r by lia. ring.
  - now apply shr_1_half.
Qed.

(** What [shr_fexp] returns for a number that is not negative: the
    exponent is raised to the canonical one when that is higher, and the
    mantissa divided accordingly. *)
Lemma shr_fexp_value (m e : Z) (l : location) :
  0 <= m ->
  let r := shr_fexp prec emax m e l in
  snd r = Z.max e (fexp prec emax (Zdigits2 m + e)) /\
  shr_m (fst r) = m / 2 ^ (snd r - e).
Proof.
  intros H. unfold shr_fexp, shr.
  assert (H0 : shr_m (shr_record_of_loc m l) = m) by (destruct l as [| []]; reflexivity).
  destruct (fexp prec emax (Zdigits2 m + e) - e) as [| p | p] eqn:Hn; cbn [fst snd].
  - split; [lia |]. rewrite H0, Z.sub_diag. simpl. now rewrite Z.div_1_r.
  - split; [lia |]. rewrite iter_shr_1_div by (rewrite H0; exact H).
    rewrite H0. f_equal. f_equal. lia.
  - split; [lia |]. rewrite H0, Z.sub_diag. simpl. now rewrite Z.div_1_r.
Qed.

Lemma Zdigits2_le (m k : Z) :
  0 <= m -> 0 <= k -> m < 2 ^ k -> Zdigits2 m <= k.
Proof.
  intros Hm Hk Hlt. destruct m as [| p | p]; [exact Hk | | lia].
  cbn [Zdigits2]. pose proof (digits2_pos_bounds p) as [Hlo _].
  assert (H : 2 ^ (Z.pos (digits2_pos p) - 1) < 2 ^ k) by lia.
  apply Z.pow_lt_mono_r_iff in H; lia.
Qed.

Lemma pow2_split (x y : Z) :
  0 <= x <= y -> 2 ^ y = 2 ^ x * 2 ^ (y - x).
Proof.
  intros H. rewrite <- Z.pow_add_r by lia. f_equal. lia.
Qed.

Lemma fexp_mono (x y : Z) :
  x <= y -> fexp prec emax x <= fexp prec emax y.
Proof. unfold fexp. lia. Qed.

(** A number in canonical form, as the bounds the proof needs. *)
Lemma canonical_bounds (ma : positive) (ea : Z) :
  bounded prec emax ma ea = true ->
  fexp prec emax (Z.pos (digits2_pos ma) + ea) = ea /\
  ea <= emax - prec /\
  Z.pos ma < 2 ^ Z.pos (digits2_pos ma).
Proof.
  unfold bounded, canonical_mantissa. intros H.
  apply andb_prop in H. destruct H as [H1 H2].
  apply Z.eqb_eq in H1. apply Z.leb_le in H2.
  repeat split; try assumption. apply digits2_pos_bounds.
Qed.

(** Rounding a positive number below a number of the format does not
    exceed that number. *)
Lemma binary_round_aux_le (m e : Z) (ma : positive) (ea : Z) :
  0 < m -> e <= ea ->
  bounded prec emax ma ea = true ->
  m < Z.pos ma * 2 ^ (ea - e) ->
  SFleb (binary_round_aux prec emax false m e loc_Exact)
    (S754_finite false ma ea) = true.
Proof.
  intros Hm He Hb Hlt.
  destruct (canonical_bounds ma ea Hb) as (Hcan & Hmax & Hma).
  set (da := Z.pos (digits2_pos ma)) in *.
  assert (Hda : 0 < da) by (subst da; lia).
  unfold binary_round_aux.
  destruct (shr_fexp_value m e loc_Exact ltac:(lia)) as [He1 Hm1].
  destruct (shr_fexp prec emax m e loc_Exact) as [mrs' e']. cbn [fst snd] in He1, Hm1.
  (* the first exponent is not above [ea] *)
  assert (Hdm : Zdigits2 m + e <= da + ea).
  { assert (m < 2 ^ (da + ea - e)).
    { rewrite (pow2_split da (da + ea - e)) by lia.
      replace (da + ea - e - da) with (ea - e) by lia.
      assert (0 < 2 ^ (ea - e)) by (apply Z.pow_pos_nonneg; lia). nia. }
    pose proof (Zdigits2_le m (da + ea - e) ltac:(lia) ltac:(lia) H). lia. }
  assert (He1' : e <= e' <= ea).
  { pose proof (fexp_mono _ _ Hdm) as Hf. rewrite Hcan in Hf.
    revert He1 Hf. generalize (fexp prec emax (Zdigits2 m + e)). intros; lia. }
  (* the rounded mantissa is not above [ma], aligned *)
  set (m1 := round_nearest_even (shr_m mrs') (loc_of_shr_record mrs')).
  assert (Hm1' : 0 <= m1 <= Z.pos ma * 2 ^ (ea - e')).
  { assert (Hdiv : 0 <= shr_m mrs' /\ shr_m mrs' + 1 <= Z.pos ma * 2 ^ (ea - e')).
    { rewrite Hm1. split; [apply Z.div_pos; [lia | apply Z.pow_pos_nonneg; lia] |].
      assert (H2 : 0 < 2 ^ (e' - e)) by (apply Z.pow_pos_nonneg; lia).
      assert (m / 2 ^ (e' - e) < Z.pos ma * 2 ^ (ea - e')); [| lia].
      apply Z.div_lt_upper_bound; [exact H2 |].
      rewrite (pow2_split (e' - e) (ea - e)) in Hlt by lia.
      replace (ea - e - (e' - e)) with (ea - e') in Hlt by lia. nia. }
    subst m1. destruct (loc_of_shr_record mrs') as [| []];
      cbn [round_nearest_even]; try destruct (Z.even (shr_m mrs')); lia. }
  destruct (shr_fexp_value m1 e' loc_Exact ltac:(lia)) as [He2 Hm2].
  destruct (shr_fexp prec emax m1 e' loc_Exact) as [mrs'' e''].
  cbn [fst snd] in He2, Hm2.
  assert (Hdm1 : Zdigits2 m1 + e' <= da + ea).
  { assert (m1 < 2 ^ (da + ea - e')).
    { rewrite (pow2_split da (da + ea - e')) by lia.
      replace (da + ea - e' - da) with (ea - e') by lia.
      assert (0 < 2 ^ (ea - e')) by (apply Z.pow_pos_nonneg; lia). nia. }
    pose proof (Zdigits2_le m1 (da + ea - e') ltac:(lia) ltac:(lia) H). lia. }
  assert (He2' : e' <= e'' <= ea).
  { pose proof (fexp_mono _ _ Hdm1) as Hf. rewrite Hcan in Hf.
    revert He2 Hf. generalize (fexp prec emax (Zdigits2 m1 + e')). intros; lia. }
  assert (Hm2' : 0 <= shr_m mrs'' /\ shr_m mrs'' * 2 ^ (e'' - e') <= m1).
  { rewrite Hm2.
    assert (H2 : 0 < 2 ^ (e'' - e')) by (apply Z.pow_pos_nonneg; lia).
    split; [apply Z.div_pos; lia |].
    rewrite Z.mul_comm. apply Z.mul_div_le. exact H2. }
  destruct (shr_m mrs'') as [| p | p]; [reflexivity | | lia].
  destruct (e'' <=? emax - prec) eqn:Hov; [| apply Z.leb_gt in Hov; lia].
  unfold SFleb, SFcompare.
  destruct (Z.compare_spec e'' ea) as [-> | _ | Hgt]; [| reflexivity | lia].
  rewrite Pos.compare_cont_spec. simpl.
  destruct (Pos.compare_spec p ma) as [_ | _ | Hgt]; try reflexivity.
  exfalso.
  assert (H2 : 0 < 2 ^ (ea - e')) by (apply Z.pow_pos_nonneg; lia).
  nia.
Qed.

Lemma shl_align_snd (m : positive) (e e' : Z) :
  e' <= e -> snd (shl_align m e e') = e'.
Proof.
  intros H. unfold shl_align.
  destruct (e' - e) as [| d | d] eqn:Hd; cbn [snd]; lia.
Qed.

Lemma shl_align_above (m : positive) (e e' : Z) :
  e < e' -> shl_align m e e' = (m, e).
Proof.
  intros H. unfold shl_align.
  destruct (e' - e) as [| d | d] eqn:Hd; try reflexivity. lia.
Qed.

Lemma binary_round_le (d : positive) (ez : Z) (ma : positive) (ea : Z) :
  ez <= ea ->
  bounded prec emax ma ea = true ->
  Z.pos d < Z.pos ma * 2 ^ (ea - ez) ->
  SFleb (binary_round prec emax false d ez) (S754_finite false ma ea) = true.
Proof.
  intros He Hb Hlt. unfold binary_round.
  set (F := fexp prec emax (Z.pos (digits2_pos d) + ez)).
  destruct (Z_le_gt_dec F ez) as [HF | HF].
  - pose proof (shl_align_value d ez F HF) as Hv.
    pose proof (shl_align_snd d ez F HF) as Hs.
    destruct (shl_align d ez F) as [mz ez1]. cbn [fst snd] in Hv, Hs. subst ez1.
    apply binary_round_aux_le; try assumption; try lia.
    rewrite Hv, (pow2_split (ea - ez) (ea - F)) by lia.
    replace (ea - F - (ea - ez)) with (ez - F) by lia.
    assert (0 < 2 ^ (ez - F)) by (apply Z.pow_pos_nonneg; lia). nia.
  - rewrite shl_align_above by lia.
    apply binary_round_aux_le; try assumption; lia.
Qed.

(** Taking a positive number of the format from one that is not smaller
    leaves a number that is not greater. *)
Lemma SFsub_le (ma mq : positive) (ea eq : Z) :
  bounded prec emax ma ea = true -> bounded prec emax mq eq = true ->
  SFltb (S754_finite false ma ea) (S754_finite false mq eq) = false ->
  SFleb (SFsub prec emax (S754_finite false ma ea) (S754_finite false mq eq))
    (S754_finite false ma ea) = true.
Proof.
  intros Ha Hq Hge. cbn [SFsub]. cbv zeta. unfold cond_Zopp.
  pose proof (aligned_order ma mq ea eq Ha Hq Hge) as Hord.
  pose proof (shl_align_value ma ea (Z.min ea eq) ltac:(lia)) as HA.
  set (A := Z.pos (fst (shl_align ma ea (Z.min ea eq)))) in *.
  set (Q := Z.pos (fst (shl_align mq eq (Z.min ea eq)))) in *.
  assert (HQ : 0 < Q) by (subst Q; lia).
  destruct (A - Q) as [| d | d] eqn:HD; [reflexivity | | lia].
  cbn [binary_normalize].
  apply binary_round_le; try assumption; lia.
Qed.

(** The order of the format is transitive. *)
Lemma SFleb_trans (x y z : spec_float) :
  SFleb x y = true -> SFleb y z = true -> SFleb x z = true.
Proof.
  unfold SFleb, SFcompare.
  destruct x as [sx | sx | | sx mx ex]; destruct y as [sy | sy | | sy my ey];
    destruct z as [sz | sz | | sz mz ez];
    try destruct sx; try destruct sy; try destruct sz;
    try discriminate; try reflexivity;
    rewrite ?Pos.compare_cont_spec; cbn [Pos.switch_Eq];
    destruct (Z.compare_spec ex ey); destruct (Z.compare_spec ey ez);
    destruct (Z.compare_spec ex ez); try lia; try discriminate; try reflexivity;
    destruct (Pos.compare_spec mx my); destruct (Pos.compare_spec my mz);
    destruct (Pos.compare_spec mx mz);
    try lia; try discriminate; try reflexivity.
Qed.

End Rounding.

(** The order of the numbers is transitive. *)
Lemma leb_trans (x y z : float) :
  (x <=? y) = true -> (y <=? z) = true -> (x <=? z) = true.
Proof. rewrite !leb_spec. apply SFleb_trans. Qed.

(** [a - q] is not above [a], under the conditions of the stock check. *)
Lemma sub_le (a q : float) :
  (0 <=? a) = true -> (a <? infinity) = true ->
  (q =? q) = true -> (q <? 0.01) = false ->
  (a <? q) = false ->
  (a - q <=? a) = true.
Proof.
  rewrite !leb_spec, !ltb_spec, !FloatAxioms.eqb_spec, sub_spec.
  replace (Prim2SF 0) with (S754_zero false) by (vm_compute; reflexivity).
  replace (Prim2SF 0.01) with (S754_finite false 5764607523034235 (-59))
    by (vm_compute; reflexivity).
  replace (Prim2SF infinity) with (S754_infinity false) by (vm_compute; reflexivity).
  pose proof (Prim2SF_valid a) as Hva. pose proof (Prim2SF_valid q) as Hvq.
  destruct (Prim2SF q) as [sq | sq | | sq mq eq];
    destruct (Prim2SF a) as [sa | sa | | sa ma ea];
    try destruct sq; try destruct sa; try discriminate.
  intros _ _ _ _ Hlt. now apply SFsub_le.
Qed.

(** The quantity createBill writes to a lot stays within the bounds the
    quantity it read was within. *)
Lemma reserve_within (a q Q : float) :
  (0 <=? a) = true -> (a <=? Q) = true -> (a <? infinity) = true ->
  (q =? q) = true -> (q <? 0.01) = false ->
  (a <? q) = false ->
  (0 <=? stored (a - stored q)) = true /\ (stored (a - stored q) <=? Q) = true.
Proof.
  intros Ha HQ Hfin Hq Hmin Hge.
  split; [now apply reserve_nonnegative |].
  destruct (sub_nonnegative a q Ha Hfin Hq Hmin Hge) as [_ Hq0].
  unfold stored. rewrite Hq0.
  destruct (a - q =? 0).
  - exact (leb_trans 0 a Q Ha HQ).
  - exact (leb_trans _ a Q (sub_le a q Ha Hfin Hq Hmin Hge) HQ).
Qed.

(** Adding numbers that are not negative gives one that is not negative. *)
Lemma add_nonnegative (a q : float) :
  (0 <=? a) = true -> (0 <=? q) = true -> (0 <=? a + q) = true.
Proof.
  rewrite !leb_spec, add_spec.
  replace (Prim2SF 0) with (S754_zero false) by (vm_compute; reflexivity).
  destruct (Prim2SF a) as [sa | sa | | sa ma ea];
    destruct (Prim2SF q) as [sq | sq | | sq mq eq];
    try destruct sa; try destruct sq; try discriminate; try reflexivity.
  intros _ _. unfold SF64add, SFadd. apply binary_normalize_nonneg.
  unfold cond_Zopp. lia.
Qed.

(** ** The schemas *)

Lemma parseAll_In {A B : Type} (schema : A -> option B) (l : list A) (x : A) :
  In x l -> schema x = None -> parseAll schema l = None.
Proof.
  induction l as [| y l IH]; simpl; [tauto |].
  intros [-> | Hin] Hx.
  - now rewrite Hx.
  - rewrite (IH Hin Hx). now destruct (schema y).
Qed.

Lemma billingItemSchema_quantity (o : list (string * json)) (q : float) :
  prop "quantity" o = Some (JNum q) -> (q <=? 0) = true ->
  billingItemSchema (JObj o) = None.
Proof.
  intros Hq Hle. unfold billingItemSchema, zNumberMin, zNumber; simpl.
  rewrite Hq.
  destruct (zStringMin1 (prop "inventoryId" o)); [| reflexivity].
  destruct (q =? q); [| reflexivity].
  now rewrite (nonpositive_below_min q Hle).
Qed.

Lemma billingItemSchema_price (o : list (string * json)) (p : float) :
  prop "sellingPrice" o = Some (JNum p) -> (p <? 0) = true ->
  billingItemSchema (JObj o) = None.
Proof.
  intros Hp Hlt. unfold billingItemSchema, zNumberMin, zNumber; simpl.
  rewrite Hp.
  destruct (zStringMin1 (prop "inventoryId" o)); [| reflexivity].
  destruct (match prop "quantity" o with Some (JNum x) => _ | _ => _ end);
    [| reflexivity].
  destruct (p =? p); [| now destruct (_ : option float)].
  rewrite Hlt. now destruct (_ : option float).
Qed.

Lemma extendedBillSchema_items (o : list (string * json)) :
  zArrayMin1 billingItemSchema (prop "items" o) = None ->
  extendedBillSchema (JObj o) = None.
Proof.
  intros H. unfold extendedBillSchema; simpl. rewrite H.
  repeat match goal with
         | |- match ?x with _ => _ end = None => destruct x; try reflexivity
         end.
Qed.

Lemma extendedBillSchema_taxRate (o : list (string * json)) :
  zNumberMinMax 0 100 (taxRatePreprocess (prop "taxRate" o)) = None ->
  extendedBillSchema (JObj o) = None.
Proof.
  intros H. unfold extendedBillSchema; simpl. rewrite H.
  repeat match goal with
         | |- match ?x with _ => _ end = None => destruct x; try reflexivity
         end.
Qed.

Lemma zArrayMin1_bad_line {B : Type} (schema : json -> option B)
    (elems : list json) (line : json) :
  In line elems -> schema line = None ->
  zArrayMin1 schema (Some (JArr elems)) = None.
Proof.
  intros Hin Hbad. unfold zArrayMin1, zArray.
  now rewrite (parseAll_In schema elems line Hin Hbad).
Qed.

Lemma malformed_rejected (body : json) :
  malformed body -> extendedBillSchema body = None.
Proof.
  intros (o & -> & [H | [H | [H | H]]]).
  - apply extendedBillSchema_items. now rewrite H.
  - destruct H as (elems & line & q & Hitems & Hin & Hq & Hle).
    apply extendedBillSchema_items. rewrite Hitems.
    apply (zArrayMin1_bad_line _ _ (JObj line) Hin).
    exact (billingItemSchema_quantity line q Hq Hle).
  - destruct H as (elems & line & p & Hitems & Hin & Hp & Hlt).
    apply extendedBillSchema_items. rewrite Hitems.
    apply (zArrayMin1_bad_line _ _ (JObj line) Hin).
    exact (billingItemSchema_price line p Hp Hlt).
  - destruct H as (r & Hr & Hout).
    apply extendedBillSchema_taxRate. rewrite Hr.
    unfold taxRatePreprocess, zNumberMinMax, zNumberMin, zNumber.
    destruct (r =? r); [| reflexivity].
    destruct (r <? 0) eqn:Hlo; [reflexivity |].
    destruct Hout as [Hout | Hout]; [discriminate | now rewrite Hout].
Qed.

Lemma prop_other (key k : string) (v : json) (o : list (string * json)) :
  (k =? key)%string = false -> prop key ((k, v) :: o) = prop key o.
Proof. intros H. simpl. now rewrite H. Qed.

Lemma extendedBillSchema_default_rate (o : list (string * json)) :
  taxRateOmitted o ->
  extendedBillSchema (JObj o) = extendedBillSchema (JObj (("taxRate", JNum 10) :: o)).
Proof.
  intros H. unfold extendedBillSchema. cbn [props_of].
  rewrite !(prop_other _ "taxRate") by reflexivity.
  replace (taxRatePreprocess (prop "taxRate" (("taxRate", JNum 10) :: o)))
    with (taxRatePreprocess (prop "taxRate" o)); [reflexivity |].
  destruct H as [-> | [-> | ->]]; reflexivity.
Qed.

Lemma extendedBillSchema_rate10 (o : list (string * json)) (data : Form.ExtendedBill) :
  taxRateOmitted o -> extendedBillSchema (JObj o) = Some data ->
  Form.taxRate data = 10.
Proof.
  intros H. unfold extendedBillSchema. cbn [props_of].
  replace (taxRatePreprocess (prop "taxRate" o)) with (Some (JNum 10))
    by (destruct H as [-> | [-> | ->]]; reflexivity).
  replace (zNumberMinMax 0 100 (Some (JNum 10))) with (Some 10)
    by (vm_compute; reflexivity).
  repeat match goal with
         | |- match ?x with _ => _ end = Some _ -> _ =>
             destruct x; try discriminate
         end.
  now intros [= <-].
Qed.

Lemma parseAll_some_In {A B : Type} (schema : A -> option B) (l : list A) :
  forall ys x,
    parseAll schema l = Some ys -> In x l ->
    exists y, schema x = Some y /\ In y ys.
Proof.
  induction l as [| a l IH]; intros ys x Hall Hin; [contradiction |].
  simpl in Hall.
  destruct (schema a) as [y |] eqn:Ha; [| discriminate].
  destruct (parseAll schema l) as [ys' |]; [| discriminate].
  injection Hall as <-. destruct Hin as [-> | Hin].
  - exists y. split; [exact Ha | now left].
  - destruct (IH ys' x eq_refl Hin) as (y' & Hy' & Hin').
    exists y'. split; [exact Hy' | now right].
Qed.

Lemma billingItemSchema_fields (line : list (string * json))
    (item : Form.BillingItem) (id : string) (q : float) :
  billingItemSchema (JObj line) = Some item ->
  prop "inventoryId" line = Some (JStr id) ->
  prop "quantity" line = Some (JNum q) ->
  Form.inventoryId item = id /\ Form.quantity item = q.
Proof.
  unfold billingItemSchema, zNumberMin, zNumber, zStringMin1. cbn [props_of].
  intros H Hid Hq. rewrite Hid, Hq in H.
  destruct id; [discriminate |].
  destruct (q =? q); [| discriminate].
  destruct (q <? 0.01); [discriminate |].
  destruct (match prop "sellingPrice" line with Some (JNum x) => _ | _ => _ end);
    [| discriminate].
  destruct (_ <? 0); [discriminate |].
  injection H as <-. now split.
Qed.

Lemma extendedBillSchema_lines (o : list (string * json))
    (data : Form.ExtendedBill) (elems : list json) :
  extendedBillSchema (JObj o) = Some data ->
  prop "items" o = Some (JArr elems) ->
  parseAll billingItemSchema elems = Some (Form.items data).
Proof.
  unfold extendedBillSchema. cbn [props_of]. intros H Hitems.
  rewrite Hitems in H. unfold zArrayMin1, zArray in H.
  destruct (parseAll billingItemSchema elems) as [[| l lines] |]; revert H;
    repeat (cbv iota;
            match goal with
            | |- match ?x with _ => _ end = Some _ -> _ =>
                destruct x; try discriminate
            end).
  now intros [= <-].
Qed.

Lemma parseAll_result_In {A B : Type} (schema : A -> option B) (l : list A) :
  forall ys y,
    parseAll schema l = Some ys -> In y ys ->
    exists x, In x l /\ schema x = Some y.
Proof.
  induction l as [| a l IH]; intros ys y Hall Hin; simpl in Hall.
  - injection Hall as <-. contradiction.
  - destruct (schema a) as [b |] eqn:Ha; [| discriminate].
    destruct (parseAll schema l) as [ys' |]; [| discriminate].
    injection Hall as <-. destruct Hin as [-> | Hin].
    + exists a. split; [now left | exact Ha].
    + destruct (IH ys' y eq_refl Hin) as (x & Hx & Hs).
      exists x. split; [now right | exact Hs].
Qed.

(** The quantity of a parsed line is a number, at least 0.01. *)
Lemma billingItemSchema_checked (j : json) (item : Form.BillingItem) :
  billingItemSchema j = Some item ->
  (Form.quantity item =? Form.quantity item) = true /\
  (Form.quantity item <? 0.01) = false.
Proof.
  unfold billingItemSchema, zNumberMin, zNumber.
  destruct (props_of j) as [o |]; [| discriminate].
  destruct (zStringMin1 (prop "inventoryId" o)); [| discriminate].
  destruct (prop "quantity" o) as [[| | q | | |] |]; try discriminate.
  destruct (q =? q) eqn:Hq; [| discriminate].
  destruct (q <? 0.01) eqn:Hmin; [discriminate |].
  destruct (match prop "sellingPrice" o with Some (JNum x) => _ | _ => _ end);
    [| discriminate].
  destruct (_ <? 0); [discriminate |].
  intros [= <-]. now split.
Qed.

Lemma extendedBillSchema_checked (body : json) (data : Form.ExtendedBill) :
  extendedBillSchema body = Some data ->
  Forall (fun item =>
            (Form.quantity item =? Form.quantity item) = true /\
            (Form.quantity item <? 0.01) = false)
         (Form.items data).
Proof.
  intros H. destruct body as [| | | | | o]; try discriminate.
  destruct (prop "items" o) as [[| | | | elems |] |] eqn:Hitems;
    try (unfold extendedBillSchema in H; cbn [props_of] in H; rewrite Hitems in H;
         unfold zArrayMin1, zArray in H; revert H;
         repeat (cbv iota;
                 match goal with
                 | |- match ?x with _ => _ end = Some _ -> _ =>
                     destruct x; try discriminate
                 end); fail).
  pose proof (extendedBillSchema_lines o data elems H Hitems) as Hlines.
  apply Forall_forall. intros item Hin.
  destruct (parseAll_result_In _ _ _ _ Hlines Hin) as (j & _ & Hj).
  exact (billingItemSchema_checked j item Hj).
Qed.

(** ** The validation loop of POST *)

(** The loop only reads. *)
Lemma validateItems_reads (items : list Form.BillingItem) :
  forall subtotal itemsData c,
    validateItems items subtotal itemsData c
    = (fst (validateItems items subtotal itemsData c), c).
Proof.
  induction items as [| item rest IH]; intros subtotal itemsData c.
  - reflexivity.
  - simpl. unfold bind, query.
    destruct (selectInventory (Form.inventoryId item) (tables c)) as [row |];
      [| reflexivity].
    destruct (Inventory.availableQuantity row <? Form.quantity item);
      [reflexivity | apply IH].
Qed.

(** It depends on the tables only. *)
Lemma validateItems_tables (items : list Form.BillingItem) :
  forall subtotal itemsData c c',
    tables c = tables c' ->
    fst (validateItems items subtotal itemsData c)
    = fst (validateItems items subtotal itemsData c').
Proof.
  induction items as [| item rest IH]; intros subtotal itemsData c c' Ht.
  - reflexivity.
  - simpl. unfold bind, query. rewrite Ht.
    destruct (selectInventory (Form.inventoryId item) (tables c')) as [row |];
      [| reflexivity].
    destruct (Inventory.availableQuantity row <? Form.quantity item);
      [reflexivity | now apply IH].
Qed.

(** When every line passes, the loop returns the subtotal and one entry
    per line, in order, each holding the row read for its lot. *)
Lemma validateItems_passes (items : list Form.BillingItem) :
  forall subtotal itemsData c s ds,
    fst (validateItems items subtotal itemsData c) = inr (s, ds) ->
    s = sumLines items subtotal /\
    exists rows,
      ds = (itemsData ++ map (fun ir => itemDataOf (fst ir) (snd ir))
                             (combine items rows))%list /\
      List.length rows = List.length items /\
      Forall (fun ir =>
                selectInventory (Form.inventoryId (fst ir)) (tables c) = Some (snd ir) /\
                (Inventory.availableQuantity (snd ir) <? Form.quantity (fst ir)) = false)
             (combine items rows).
Proof.
  induction items as [| item rest IH]; intros subtotal itemsData c s ds.
  - simpl. intros [= <- <-]. split; [reflexivity |].
    exists []. rewrite app_nil_r. repeat split; constructor.
  - simpl. unfold bind, query.
    destruct (selectInventory (Form.inventoryId item) (tables c)) as [row |] eqn:Hsel;
      [| discriminate].
    destruct (Inventory.availableQuantity row <? Form.quantity item) eqn:Hlt;
      [discriminate |].
    intros H. apply IH in H. destruct H as (-> & rows & -> & Hlen & Hall).
    split; [reflexivity |].
    exists (row :: rows). simpl. rewrite <- app_assoc. simpl.
    repeat split; [now rewrite Hlen |].
    constructor; [now split | exact Hall].
Qed.

(** When the loop stops, it stops at the first line that does not pass:
    the lines before it pass, and the response tells why that line fails. *)
Lemma validateItems_stops (items : list Form.BillingItem) :
  forall subtotal itemsData c r,
    fst (validateItems items subtotal itemsData c) = inl r ->
    exists before item after,
      items = (before ++ item :: after)%list /\
      Forall (lineOk (tables c)) before /\
      ((selectInventory (Form.inventoryId item) (tables c) = None /\
        r = InventoryItemNotFound (Form.inventoryId item))
       \/ (exists available,
             exceeds (tables c) item available /\
             r = InsufficientStock available (Form.quantity item))).
Proof.
  induction items as [| item rest IH]; intros subtotal itemsData c r.
  - discriminate.
  - simpl. unfold bind, query.
    destruct (selectInventory (Form.inventoryId item) (tables c)) as [row |] eqn:Hsel.
    + destruct (Inventory.availableQuantity row <? Form.quantity item) eqn:Hlt.
      * intros [= <-]. exists [], item, rest. repeat split; [constructor |].
        right. exists (Inventory.availableQuantity row). split; [| reflexivity].
        unfold exceeds, availableOf. now rewrite Hsel.
      * intros H. apply IH in H.
        destruct H as (before & it & after & -> & Hok & Hwhy).
        exists (item :: before), it, after. repeat split; [| exact Hwhy].
        constructor; [now exists row | exact Hok].
    + intros [= <-]. exists [], item, rest. repeat split; [constructor |].
      now left.
Qed.

(** The first line that exceeds its lot, after lines that pass, decides the
    response. *)
Lemma validateItems_first_exceeding (before : list Form.BillingItem) :
  forall item after available subtotal itemsData c,
    Forall (lineOk (tables c)) before ->
    exceeds (tables c) item available ->
    fst (validateItems (before ++ item :: after) subtotal itemsData c)
    = inl (InsufficientStock available (Form.quantity item)).
Proof.
  induction before as [| b before IH];
    intros item after available subtotal itemsData c Hok [Hav Hlt].
  - simpl. unfold bind, query. unfold availableOf in Hav.
    destruct (selectInventory (Form.inventoryId item) (tables c)) as [row |];
      [| discriminate].
    injection Hav as ->. now rewrite Hlt.
  - inversion Hok as [| ? ? (row & Hsel & Hge) Hok']; subst.
    simpl. unfold bind, query. rewrite Hsel, Hge.
    now apply IH.
Qed.

(** A line that exceeds its lot, anywhere in the list, stops the loop. *)
Lemma validateItems_some_exceeding (items : list Form.BillingItem) :
  forall item available subtotal itemsData c,
    In item items -> exceeds (tables c) item available ->
    exists r, fst (validateItems items subtotal itemsData c) = inl r /\
              (400 <= statusCode r)%Z.
Proof.
  induction items as [| i rest IH];
    intros item available subtotal itemsData c Hin Hex; [contradiction |].
  simpl. unfold bind, query.
  destruct (selectInventory (Form.inventoryId i) (tables c)) as [row |] eqn:Hsel.
  - destruct (Inventory.availableQuantity row <? Form.quantity i) eqn:Hlt.
    + eexists; split; [reflexivity | simpl; lia].
    + destruct Hin as [-> | Hin].
      * destruct Hex as [Hav Hx]. unfold availableOf in Hav.
        rewrite Hsel in Hav. injection Hav as <-. congruence.
      * now apply (IH item available).
  - eexists; split; [reflexivity | simpl; lia].
Qed.

(** ** Running the writes of a handler *)

Lemma reduceInventory_run (itemsData : list ItemData.t) (now : Z) :
  forall c,
    reduceInventory itemsData now c
    = (tt, mkConn (applyAll (reduceWrites itemsData now) (tables c))
             (journal c ++ reduceWrites itemsData now)).
Proof.
  induction itemsData as [| item rest IH]; intros c.
  - simpl. rewrite app_nil_r. now destruct c.
  - simpl. unfold bind, execute. rewrite IH. simpl.
    now rewrite <- app_assoc.
Qed.

(** A request that fails a check is answered without a write. *)
Lemma POST_stopped (userId : string) (body : json) (newId : string) (now : Z)
    (db : Db) (data : Form.ExtendedBill) (r : Response) :
  extendedBillSchema body = Some data ->
  fst (validateItems (Form.items data) 0 [] (mkConn db [])) = inl r ->
  run (POST isDate (Some userId) body newId now) db = (r, db, []).
Proof.
  intros Hparse Hcheck. unfold run, POST. rewrite Hparse. unfold bind.
  rewrite validateItems_reads, Hcheck. reflexivity.
Qed.

(** A request that passes the checks is answered 201 after these writes. *)
Lemma POST_created (userId : string) (body : json) (newId : string) (now : Z)
    (db : Db) (data : Form.ExtendedBill) (s : float) (ds : list ItemData.t) :
  extendedBillSchema body = Some data ->
  fst (validateItems (Form.items data) 0 [] (mkConn db [])) = inr (s, ds) ->
  isDate (Form.billDate data) = true ->
  run (POST isDate (Some userId) body newId now) db
  = (Created (newBillOf userId newId now data),
     applyAll (postWrites userId newId now data ds) db,
     postWrites userId newId now data ds).
Proof.
  intros Hparse Hcheck Hdate. unfold run, POST. rewrite Hparse. unfold bind.
  rewrite validateItems_reads, Hcheck, Hdate.
  destruct (validateItems_passes _ _ _ _ _ _ Hcheck) as (-> & _).
  unfold postWrites, chargeWrites, newBillOf.
  destruct (Form.extraCharges data) as [| ch chs] eqn:Hch.
  - unfold execute, ret. simpl. rewrite reduceInventory_run. reflexivity.
  - unfold execute, ret. simpl. rewrite reduceInventory_run. reflexivity.
Qed.

(** A request that passes the checks with a bill date that is no date is
    answered 500 without a write. *)
Lemma POST_failed (userId : string) (body : json) (newId : string) (now : Z)
    (db : Db) (data : Form.ExtendedBill) (s : float) (ds : list ItemData.t) :
  extendedBillSchema body = Some data ->
  fst (validateItems (Form.items data) 0 [] (mkConn db [])) = inr (s, ds) ->
  isDate (Form.billDate data) = false ->
  run (POST isDate (Some userId) body newId now) db
  = (Failed "Failed to create bill", db, []).
Proof.
  intros Hparse Hcheck Hdate. unfold run, POST. rewrite Hparse. unfold bind.
  rewrite validateItems_reads, Hcheck, Hdate. reflexivity.
Qed.

(** ** Updates of the inventory table *)

Lemma setAvailable_id (id : string) (aq : float) (at_ : Z) (r : Inventory.row) :
  Inventory.id (setAvailable id aq at_ r) = Inventory.id r.
Proof. unfold setAvailable. now destruct (Inventory.id r =? id)%string. Qed.

Lemma selectInventory_update (l id : string) (aq : float) (at_ : Z) (db : Db) :
  selectInventory l (apply (UpdateInventory id aq at_) db)
  = option_map (setAvailable id aq at_) (selectInventory l db).
Proof.
  unfold selectInventory. simpl.
  induction (inventory db) as [| r rows IH]; [reflexivity |].
  simpl. rewrite setAvailable_id.
  now destruct (Inventory.id r =? l)%string.
Qed.

Lemma availableOf_update (l id : string) (aq : float) (at_ : Z) (db : Db) :
  availableOf l (apply (UpdateInventory id aq at_) db)
  = if (l =? id)%string then option_map (fun _ => aq) (availableOf l db)
    else availableOf l db.
Proof.
  unfold availableOf. rewrite selectInventory_update.
  destruct (selectInventory l db) as [r |] eqn:Hsel; simpl.
  - apply find_some in Hsel. destruct Hsel as [_ Hid].
    apply String.eqb_eq in Hid. unfold setAvailable. rewrite Hid.
    now destruct (l =? id)%string.
  - now destruct (l =? id)%string.
Qed.

Lemma quantityOf_update (l id : string) (aq : float) (at_ : Z) (db : Db) :
  quantityOf l (apply (UpdateInventory id aq at_) db) = quantityOf l db.
Proof.
  unfold quantityOf. rewrite selectInventory_update.
  destruct (selectInventory l db) as [r |]; [| reflexivity].
  simpl. unfold setAvailable. now destruct (Inventory.id r =? id)%string.
Qed.

Lemma lotExists_update (l id : string) (aq : float) (at_ : Z) (db : Db) :
  lotExists (apply (UpdateInventory id aq at_) db) l = lotExists db l.
Proof.
  unfold lotExists. rewrite selectInventory_update.
  now destruct (selectInventory l db).
Qed.

Lemma applyAll_app (ws ws' : list Write) (db : Db) :
  applyAll (ws ++ ws') db = applyAll ws' (applyAll ws db).
Proof. unfold applyAll. apply fold_left_app. Qed.

(** Inventory updates leave the other tables alone, and the total quantity
    of every lot. *)
Lemma updates_frame (ws : list Write) :
  forallb isUpdateInventory ws = true ->
  forall db,
    bills (applyAll ws db) = bills db /\
    billItems (applyAll ws db) = billItems db /\
    billExtraCharges (applyAll ws db) = billExtraCharges db /\
    (forall l, quantityOf l (applyAll ws db) = quantityOf l db) /\
    (forall l, lotExists (applyAll ws db) l = lotExists db l).
Proof.
  induction ws as [| w ws IH]; intros Hall db.
  - now repeat split.
  - simpl in Hall. apply andb_prop in Hall. destruct Hall as [Hw Hws].
    destruct w; try discriminate.
    destruct (IH Hws (apply (UpdateInventory id availableQuantity updatedAt) db))
      as (Hb & Hi & Hc & Hq & He).
    change (applyAll (UpdateInventory id availableQuantity updatedAt :: ws) db)
      with (applyAll ws (apply (UpdateInventory id availableQuantity updatedAt) db)).
    repeat split.
    + now rewrite Hb.
    + now rewrite Hi.
    + now rewrite Hc.
    + intros l. now rewrite Hq, quantityOf_update.
    + intros l. now rewrite He, lotExists_update.
Qed.

Lemma reduceWrites_updates (ds : list ItemData.t) (now : Z) :
  forallb isUpdateInventory (reduceWrites ds now) = true.
Proof. induction ds; simpl; auto. Qed.

(** ** The restore loop of DELETE *)

Lemma restoreInventory_run (billItemsList : list BillItems.row) (now : Z) :
  forall c,
    restoreInventory billItemsList now c
    = (tt, mkConn (applyAll (restoreWrites billItemsList now (tables c)) (tables c))
             (journal c ++ restoreWrites billItemsList now (tables c))).
Proof.
  induction billItemsList as [| item rest IH]; intros c.
  - simpl. rewrite app_nil_r. now destruct c.
  - simpl. unfold bind, query.
    destruct (selectInventory (BillItems.inventoryId item) (tables c)) as [row |].
    + unfold execute. rewrite IH. simpl. now rewrite <- app_assoc.
    + unfold ret. now rewrite IH.
Qed.

Lemma restoreWrites_updates (billItemsList : list BillItems.row) (now : Z) :
  forall db, forallb isUpdateInventory (restoreWrites billItemsList now db) = true.
Proof.
  induction billItemsList as [| item rest IH]; intros db; [reflexivity |].
  simpl. destruct (selectInventory (BillItems.inventoryId item) db); simpl; auto.
Qed.

(** The lots written are those of the items whose lot exists, in order. *)
Lemma restoreWrites_lots (billItemsList : list BillItems.row) (now : Z) :
  forall db,
    map lotOfWrite (restoreWrites billItemsList now db)
    = map Some (filter (lotExists db) (map BillItems.inventoryId billItemsList)).
Proof.
  induction billItemsList as [| item rest IH]; intros db; [reflexivity |].
  simpl. unfold lotExists at 1.
  destruct (selectInventory (BillItems.inventoryId item) db) as [row |].
  - simpl. rewrite IH. f_equal. f_equal. apply filter_ext.
    intros l. apply lotExists_update.
  - apply IH.
Qed.

(** After the loop a lot has had the quantity of each of its items added,
    one after the other. *)
Lemma restoreWrites_available (billItemsList : list BillItems.row) (now : Z) :
  forall db l,
    availableOf l (applyAll (restoreWrites billItemsList now db) db)
    = option_map (fun a => fold_left released (filter (onLot l) billItemsList) a)
        (availableOf l db).
Proof.
  induction billItemsList as [| item rest IH]; intros db l.
  - simpl. now destruct (availableOf l db).
  - simpl. unfold onLot at 1.
    destruct (selectInventory (BillItems.inventoryId item) db) as [row |] eqn:Hsel.
    + change (applyAll (?w :: ?ws) db) with (applyAll ws (apply w db)).
      rewrite IH, availableOf_update. rewrite String.eqb_sym.
      destruct (BillItems.inventoryId item =? l)%string eqn:Hl.
      * apply String.eqb_eq in Hl. subst l.
        unfold availableOf at 2. rewrite Hsel. simpl.
        unfold availableOf. rewrite Hsel. reflexivity.
      * reflexivity.
    + rewrite IH.
      destruct (BillItems.inventoryId item =? l)%string eqn:Hl; [| reflexivity].
      apply String.eqb_eq in Hl. subst l.
      unfold availableOf. now rewrite Hsel.
Qed.

Lemma DELETE_deleted (userId billId : string) (now : Z) (db : Db) (b : Bills.row) :
  selectBill billId userId db = Some b ->
  run (DELETE (Some userId) billId now) db
  = (Deleted, applyAll (deleteWrites userId billId now db) db,
     deleteWrites userId billId now db).
Proof.
  intros Hb. unfold run, DELETE, bind, query. simpl. rewrite Hb.
  rewrite restoreInventory_run. unfold execute, ret. simpl.
  unfold deleteWrites. rewrite applyAll_app. simpl.
  rewrite <- !app_assoc. reflexivity.
Qed.

Lemma DELETE_otherwise (session : option string) (billId : string) (now : Z)
    (db : Db) :
  (forall userId, session = Some userId -> selectBill billId userId db = None) ->
  exists r, run (DELETE session billId now) db = (r, db, []) /\
            (400 <= statusCode r)%Z.
Proof.
  intros H. destruct session as [userId |].
  - unfold run, DELETE, bind, query. simpl. rewrite (H userId eq_refl).
    eexists; split; [reflexivity | simpl; lia].
  - eexists; split; [reflexivity | simpl; lia].
Qed.

(** ** Header updates *)

Lemma ownBill_setBill (id userId : string) (s : BillSet.t) (b : Bills.row) :
  ownBill id userId (setBill s b) = ownBill id userId b.
Proof. reflexivity. Qed.

Lemma selectBill_update (id userId : string) (s : BillSet.t) (db : Db) :
  selectBill id userId (apply (UpdateBill id userId s) db)
  = option_map (setBill s) (selectBill id userId db).
Proof.
  unfold selectBill. simpl.
  induction (bills db) as [| b rows IH]; [reflexivity |].
  simpl. destruct (ownBill id userId b) eqn:Hb.
  - now rewrite ownBill_setBill, Hb.
  - now rewrite Hb.
Qed.

Lemma PUT_updated (userId billId : string) (body : PutBody.t) (now : Z)
    (db : Db) (b : Bills.row) :
  selectBill billId userId db = Some b ->
  readsAsDate isDate (truthy (PutBody.billDate body)) = true ->
  run (PUT isDate (Some userId) billId body now) db
  = (Updated (Some (setBill (updateData body now) b)),
     apply (UpdateBill billId userId (updateData body now)) db,
     [UpdateBill billId userId (updateData body now)]).
Proof.
  intros Hb Hdate. unfold run, PUT, bind, query, execute, ret.
  cbn [tables journal]. rewrite Hb, Hdate. cbn [tables journal app].
  now rewrite selectBill_update, Hb.
Qed.

(** A PUT whose bill date is no date is answered 500 without a write. *)
Lemma PUT_failed (userId billId : string) (body : PutBody.t) (now : Z)
    (db : Db) (b : Bills.row) :
  selectBill billId userId db = Some b ->
  readsAsDate isDate (truthy (PutBody.billDate body)) = false ->
  run (PUT isDate (Some userId) billId body now) db
  = (Failed "Failed to update bill", db, []).
Proof.
  intros Hb Hdate. unfold run, PUT, bind, query, ret.
  cbn [tables journal]. now rewrite Hb, Hdate.
Qed.

Lemma PUT_not_found (userId billId : string) (body : PutBody.t) (now : Z)
    (db : Db) :
  selectBill billId userId db = None ->
  run (PUT isDate (Some userId) billId body now) db = (BillNotFound, db, []).
Proof.
  intros Hb. unfold run, PUT, bind, query, ret. cbn [tables journal].
  now rewrite Hb.
Qed.

Lemma PATCH_updated (userId billId : string) (body : BillSet.t) (now : Z)
    (db : Db) (b : Bills.row) :
  selectBill billId userId db = Some b ->
  BillSet.billDate body = None ->
  run (PATCH (Some userId) billId body now) db
  = (Updated (Some (setBill (patchData body now) b)),
     apply (UpdateBill billId userId (patchData body now)) db,
     [UpdateBill billId userId (patchData body now)]).
Proof.
  intros Hb Hdate. unfold run, PATCH, bind, query, execute, ret.
  cbn [tables journal]. rewrite Hb, Hdate. cbn [tables journal app].
  now rewrite selectBill_update, Hb.
Qed.

(** A PATCH whose body carries a bill date is answered 500 without a
    write. *)
Lemma PATCH_failed (userId billId : string) (body : BillSet.t) (now : Z)
    (db : Db) (b : Bills.row) (text : string) :
  selectBill billId userId db = Some b ->
  BillSet.billDate body = Some text ->
  run (PATCH (Some userId) billId body now) db
  = (Failed "Failed to update bill", db, []).
Proof.
  intros Hb Hdate. unfold run, PATCH, bind, query, ret.
  cbn [tables journal]. now rewrite Hb, Hdate.
Qed.

Lemma PATCH_not_found (userId billId : string) (body : BillSet.t) (now : Z)
    (db : Db) :
  selectBill billId userId db = None ->
  run (PATCH (Some userId) billId body now) db = (BillNotFound, db, []).
Proof.
  intros Hb. unfold run, PATCH, bind, query, ret. cbn [tables journal].
  now rewrite Hb.
Qed.

(** A header request is answered 401, 404 or 500 without a write, or 200
    after one update of the bill. *)
Lemma PUT_cases (session : option string) (billId : string) (body : PutBody.t)
    (now : Z) (db : Db) :
  (exists r, run (PUT isDate session billId body now) db = (r, db, []) /\
             (400 <= statusCode r)%Z)
  \/ (exists userId b,
        session = Some userId /\
        selectBill billId userId db = Some b /\
        run (PUT isDate session billId body now) db
        = (Updated (Some (setBill (updateData body now) b)),
           apply (UpdateBill billId userId (updateData body now)) db,
           [UpdateBill billId userId (updateData body now)])).
Proof.
  destruct session as [userId |];
    [| left; exists Unauthorized; split; [reflexivity | simpl; lia]].
  destruct (selectBill billId userId db) as [b |] eqn:Hb.
  - destruct (readsAsDate isDate (truthy (PutBody.billDate body))) eqn:Hdate.
    + right. exists userId, b. repeat split; [exact Hb |].
      exact (PUT_updated _ _ _ _ _ _ Hb Hdate).
    + left. eexists. split; [exact (PUT_failed _ _ _ _ _ _ Hb Hdate) |].
      simpl. lia.
  - left. eexists. split; [exact (PUT_not_found _ _ _ _ _ Hb) |]. simpl. lia.
Qed.

Lemma PATCH_cases (session : option string) (billId : string) (body : BillSet.t)
    (now : Z) (db : Db) :
  (exists r, run (PATCH session billId body now) db = (r, db, []) /\
             (400 <= statusCode r)%Z)
  \/ (exists userId b,
        session = Some userId /\
        selectBill billId userId db = Some b /\
        run (PATCH session billId body now) db
        = (Updated (Some (setBill (patchData body now) b)),
           apply (UpdateBill billId userId (patchData body now)) db,
           [UpdateBill billId userId (patchData body now)])).
Proof.
  destruct session as [userId |];
    [| left; exists Unauthorized; split; [reflexivity | simpl; lia]].
  destruct (selectBill billId userId db) as [b |] eqn:Hb.
  - destruct (BillSet.billDate body) as [text |] eqn:Hdate.
    + left. eexists. split; [exact (PATCH_failed _ _ _ _ _ _ _ Hb Hdate) |].
      simpl. lia.
    + right. exists userId, b. repeat split; [exact Hb |].
      exact (PATCH_updated _ _ _ _ _ _ Hb Hdate).
  - left. eexists. split; [exact (PATCH_not_found _ _ _ _ _ Hb) |]. simpl. lia.
Qed.

(** A header request, by either verb and whatever its answer, writes to the
    bills table only. *)
Lemma serve_frame (r : HeaderRequest) (db : Db) :
  let db' := snd (fst (run (serve isDate r) db)) in
  billItems db' = billItems db /\
  billExtraCharges db' = billExtraCharges db /\
  inventory db' = inventory db.
Proof.
  destruct r as [[userId |] billId body now | [userId |] billId body now];
    simpl; try (now repeat split);
    unfold run, PUT, PATCH, bind, query, execute, ret; simpl;
    destruct (selectBill billId userId db); try (now repeat split).
  - now destruct (readsAsDate isDate (truthy (PutBody.billDate body))).
  - now destruct (BillSet.billDate body).
Qed.

Lemma serveAll_frame (rs : list HeaderRequest) :
  forall db,
    billItems (serveAll isDate rs db) = billItems db /\
    billExtraCharges (serveAll isDate rs db) = billExtraCharges db /\
    inventory (serveAll isDate rs db) = inventory db.
Proof.
  induction rs as [| r rs IH]; intros db; [now repeat split |].
  change (serveAll isDate (r :: rs) db)
    with (serveAll isDate rs (snd (fst (run (serve isDate r) db)))).
  destruct (IH (snd (fst (run (serve isDate r) db)))) as (Hi & Hc & Hv).
  destruct (serve_frame r db) as (Hi' & Hc' & Hv').
  repeat split; congruence.
Qed.

(** ** Bill creation *)

Lemma POST_inv (session : option string) (body : json) (newId : string)
    (now : Z) (db db' : Db) (b : Bills.row) (j : list Write) :
  run (POST isDate session body newId now) db = (Created b, db', j) ->
  exists userId data ds,
    session = Some userId /\
    extendedBillSchema body = Some data /\
    fst (validateItems (Form.items data) 0 [] (mkConn db []))
    = inr (sumLines (Form.items data) 0, ds) /\
    b = newBillOf userId newId now data /\
    db' = applyAll (postWrites userId newId now data ds) db /\
    j = postWrites userId newId now data ds.
Proof.
  destruct session as [userId |]; [| discriminate].
  destruct (extendedBillSchema body) as [data |] eqn:Hparse.
  - destruct (fst (validateItems (Form.items data) 0 [] (mkConn db [])))
      as [r | [s ds]] eqn:Hcheck.
    + rewrite (POST_stopped _ _ _ _ _ _ _ Hparse Hcheck).
      intros [= Hr _ _]. subst r.
      destruct (validateItems_stops _ _ _ _ _ Hcheck)
        as (bf & it & af & _ & _ & [[_ H] | (a & _ & H)]); discriminate.
    + destruct (isDate (Form.billDate data)) eqn:Hdate.
      * rewrite (POST_created _ _ _ _ _ _ _ _ Hparse Hcheck Hdate).
        intros [= <- <- <-].
        destruct (validateItems_passes _ _ _ _ _ _ Hcheck) as (-> & _).
        now exists userId, data, ds.
      * rewrite (POST_failed _ _ _ _ _ _ _ _ Hparse Hcheck Hdate).
        discriminate.
  - unfold run, POST. rewrite Hparse. discriminate.
Qed.

(** A bill is created only with a bill date the engine reads as a date. *)
Lemma POST_dated (session : option string) (body : json) (newId : string)
    (now : Z) (db db' : Db) (b : Bills.row) (j : list Write)
    (data : Form.ExtendedBill) :
  run (POST isDate session body newId now) db = (Created b, db', j) ->
  extendedBillSchema body = Some data ->
  isDate (Form.billDate data) = true.
Proof.
  intros Hrun Hparse. destruct session as [userId |]; [| discriminate].
  destruct (fst (validateItems (Form.items data) 0 [] (mkConn db [])))
    as [r | [s ds]] eqn:Hcheck.
  - rewrite (POST_stopped _ _ _ _ _ _ _ Hparse Hcheck) in Hrun.
    injection Hrun as Hr _ _. subst r.
    destruct (validateItems_stops _ _ _ _ _ Hcheck)
      as (bf & it & af & _ & _ & [[_ H] | (a & _ & H)]); discriminate.
  - destruct (isDate (Form.billDate data)) eqn:Hdate; [reflexivity |].
    rewrite (POST_failed _ _ _ _ _ _ _ _ Hparse Hcheck Hdate) in Hrun.
    discriminate.
Qed.

Lemma updates_inventory (ws : list Write) :
  forallb isUpdateInventory ws = true ->
  forall db db',
    inventory db = inventory db' ->
    inventory (applyAll ws db) = inventory (applyAll ws db').
Proof.
  induction ws as [| w ws IH]; intros Hall db db' Hinv; [exact Hinv |].
  simpl in Hall. apply andb_prop in Hall. destruct Hall as [Hw Hws].
  destruct w; try discriminate.
  change (applyAll (?w :: ws) ?d) with (applyAll ws (apply w d)).
  apply (IH Hws). simpl. now rewrite Hinv.
Qed.

Lemma availableOf_inventory (l : string) (db db' : Db) :
  inventory db = inventory db' -> availableOf l db = availableOf l db'.
Proof. intros H. unfold availableOf, selectInventory. now rewrite H. Qed.

(** The tables after a bill is created. *)
Lemma postWrites_tables (userId newId : string) (now : Z)
    (data : Form.ExtendedBill) (ds : list ItemData.t) (db : Db) :
  let db' := applyAll (postWrites userId newId now data ds) db in
  bills db' = (bills db ++ [newBillOf userId newId now data])%list /\
  billItems db' = (billItems db ++ map (billItemOf newId) ds)%list /\
  billExtraCharges db'
  = (billExtraCharges db ++ map (chargeOf newId) (Form.extraCharges data))%list /\
  inventory db' = inventory (applyAll (reduceWrites ds now) db).
Proof.
  unfold postWrites.
  change (applyAll (?w1 :: ?w2 :: ?ws) db)
    with (applyAll ws (apply w2 (apply w1 db))).
  rewrite applyAll_app.
  set (db1 := applyAll (chargeWrites newId (Form.extraCharges data)) _).
  destruct (updates_frame _ (reduceWrites_updates ds now) db1)
    as (Hb & Hi & Hc & _).
  cbv zeta. rewrite Hb, Hi, Hc.
  rewrite (updates_inventory _ (reduceWrites_updates ds now) db1 db).
  - subst db1. unfold chargeWrites.
    destruct (Form.extraCharges data);
      [rewrite app_nil_r |]; now repeat split.
  - subst db1. unfold chargeWrites. now destruct (Form.extraCharges data).
Qed.

(** C1: when some line of a createBill request asks for more than its lot
    has available, the call fails, no statement that writes is issued, and
    the tables (every lot's availableQuantity; Bill, BillItem and
    BillExtraCharge rows) are as they were. *)
Theorem createBill_insufficient_stock_atomic (session : option string)
    (body : json) (newId : string) (now : Z) (db : Db) :
  asksTooMuch db body ->
  exists r,
    run (createBill isDate session body newId now) db = (r, db, []) /\
    (400 <= statusCode r)%Z.
Proof.
  intros (o & elems & line & id & q & a & -> & Hitems & Hin & Hid & Hq & Hav & Hlt).
  destruct session as [userId |];
    [| exists Unauthorized; split; [reflexivity | simpl; lia]].
  destruct (extendedBillSchema (JObj o)) as [data |] eqn:Hparse.
  - pose proof (extendedBillSchema_lines o data elems Hparse Hitems) as Hlines.
    destruct (parseAll_some_In _ _ _ _ Hlines Hin) as (item & Hitem & Hin').
    destruct (billingItemSchema_fields line item id q Hitem Hid Hq) as [Hi Hqi].
    assert (Hex : exceeds db item a) by (unfold exceeds; now rewrite Hi, Hqi).
    destruct (validateItems_some_exceeding (Form.items data) item a
                0 [] (mkConn db []) Hin' Hex) as (r & Hr & Hcode).
    exists r. split; [| exact Hcode].
    exact (POST_stopped _ _ _ _ _ _ _ Hparse Hr).
  - exists InvalidRequestData. split; [| simpl; lia].
    unfold run, createBill, POST. now rewrite Hparse.
Qed.

(** C7, as amended: for a valid createBill request, the first line in the
    caller's order that asks for more than its lot has available, when the
    lines before it pass the stock check, decides the answer: the bill is
    rejected as a whole, nothing is written, and the error carries the
    available and the requested amounts of that line (not the lot id). *)
Theorem createBill_first_failure_wins (userId : string) (body : json)
    (newId : string) (now : Z) (db : Db) (data : Form.ExtendedBill)
    (before after : list Form.BillingItem) (item : Form.BillingItem)
    (available : float) :
  extendedBillSchema body = Some data ->
  Form.items data = (before ++ item :: after)%list ->
  Forall (lineOk db) before ->
  exceeds db item available ->
  run (createBill isDate (Some userId) body newId now) db
  = (InsufficientStock available (Form.quantity item), db, []).
Proof.
  intros Hparse Hitems Hok Hex.
  apply (POST_stopped _ _ _ _ _ data _ Hparse).
  rewrite Hitems. now apply validateItems_first_exceeding.
Qed.

(** C9: a createBill request whose item list is empty, or that has a line
    with quantity <= 0 or with sellingPrice < 0, or whose taxRate is below 0
    or above 100, is answered with the validation error, and no statement
    that writes is issued: the tables are as they were. *)
Theorem createBill_validation_error (userId : string) (body : json)
    (newId : string) (now : Z) (db : Db) :
  malformed body ->
  run (createBill isDate (Some userId) body newId now) db
  = (InvalidRequestData, db, []).
Proof.
  intros H. unfold run, createBill, POST.
  now rewrite (malformed_rejected body H).
Qed.

(** C3, as amended: the bill a successful createBill persists has
    subtotal = the sum of quantity * sellingPrice over the lines,
    extraChargesTotal = the sum of the extra-charge amounts,
    tax = subtotal * taxRate / 100 with no rounding to two decimals, and
    total = subtotal + tax + extraChargesTotal, all in binary64 arithmetic,
    summed from 0 in the order of the request, each written to its column
    ([stored]). *)
Theorem createBill_totals (session : option string) (body : json)
    (newId : string) (now : Z) (db db' : Db) (b : Bills.row) (j : list Write) :
  run (createBill isDate session body newId now) db = (Created b, db', j) ->
  exists data,
    extendedBillSchema body = Some data /\
    Bills.subtotal b = stored (sumLines (Form.items data) 0) /\
    Bills.extraChargesTotal b = stored (sumCharges (Form.extraCharges data)) /\
    Bills.taxRate b = stored (Form.taxRate data) /\
    Bills.tax b = stored (sumLines (Form.items data) 0 * Form.taxRate data / 100) /\
    Bills.total b
    = stored (sumLines (Form.items data) 0
              + sumLines (Form.items data) 0 * Form.taxRate data / 100
              + sumCharges (Form.extraCharges data)) /\
    In b (bills db').
Proof.
  intros H. apply POST_inv in H.
  destruct H as (userId & data & ds & _ & Hparse & _ & -> & -> & _).
  exists data. repeat split; try assumption.
  destruct (postWrites_tables userId newId now data ds db) as (Hb & _).
  rewrite Hb. apply in_or_app. right. now left.
Qed.

(** When every line passes the stock check, the loop runs to its end. *)
Lemma validateItems_all_ok (items : list Form.BillingItem) :
  forall subtotal itemsData c,
    Forall (lineOk (tables c)) items ->
    exists ds,
      fst (validateItems items subtotal itemsData c)
      = inr (sumLines items subtotal, ds).
Proof.
  induction items as [| item rest IH]; intros subtotal itemsData c Hok.
  - now exists itemsData.
  - inversion Hok as [| ? ? (row & Hsel & Hge) Hok']; subst.
    simpl. unfold bind, query. rewrite Hsel, Hge.
    now apply IH.
Qed.

(** C10: a createBill request whose taxRate is absent, null or the empty
    text is not rejected for it: the tax rate passes the schema as 10, and
    the request is treated exactly as the same request with taxRate 10 (it
    is answered, and leaves the tables, as that request).  When its other
    fields pass the schema, its lines pass the stock check and its bill date
    is a date, it is answered 201; and the bill of a 201 answer is the row
    inserted into the bills table, with taxRate 10 and with tax and total
    computed from 10 percent of the subtotal. *)
Theorem createBill_default_tax_rate (session : option string)
    (o : list (string * json)) (newId : string) (now : Z) (db : Db) :
  taxRateOmitted o ->
  zNumberMinMax 0 100 (taxRatePreprocess (prop "taxRate" o)) = Some 10 /\
  extendedBillSchema (JObj o)
  = extendedBillSchema (JObj (("taxRate", JNum 10) :: o)) /\
  run (createBill isDate session (JObj o) newId now) db
  = run (createBill isDate session (JObj (("taxRate", JNum 10) :: o)) newId now) db /\
  (forall userId data,
     session = Some userId ->
     extendedBillSchema (JObj o) = Some data ->
     Forall (lineOk db) (Form.items data) ->
     isDate (Form.billDate data) = true ->
     exists b db' j,
       run (createBill isDate session (JObj o) newId now) db = (Created b, db', j)) /\
  forall b db' j,
    run (createBill isDate session (JObj o) newId now) db = (Created b, db', j) ->
    exists data,
      extendedBillSchema (JObj o) = Some data /\
      Form.taxRate data = 10 /\
      Bills.taxRate b = 10 /\
      Bills.tax b = stored (sumLines (Form.items data) 0 * 10 / 100) /\
      Bills.total b
      = stored (sumLines (Form.items data) 0
                + sumLines (Form.items data) 0 * 10 / 100
                + sumCharges (Form.extraCharges data)) /\
      bills db' = (bills db ++ [b])%list /\
      In (InsertBill b) j /\
      db' = applyAll j db.
Proof.
  intros Hom.
  split; [| split; [| split; [| split]]].
  - destruct Hom as [-> | [-> | ->]]; reflexivity.
  - exact (extendedBillSchema_default_rate o Hom).
  - unfold run, createBill, POST.
    now rewrite (extendedBillSchema_default_rate o Hom).
  - intros userId data -> Hparse Hok Hdate.
    destruct (validateItems_all_ok (Form.items data) 0 [] (mkConn db []) Hok)
      as (ds & Hcheck).
    do 3 eexists. exact (POST_created _ _ _ _ _ _ _ _ Hparse Hcheck Hdate).
  - intros b db' j H.
    apply POST_inv in H.
    destruct H as (userId & data & ds & _ & Hparse & _ & -> & -> & ->).
    pose proof (extendedBillSchema_rate10 o data Hom Hparse) as H10.
    destruct (postWrites_tables userId newId now data ds db) as (Hb & _).
    exists data. unfold newBillOf at 1 2 3.
    cbn [Bills.taxRate Bills.tax Bills.total].
    rewrite H10.
    split; [exact Hparse |]. split; [reflexivity |]. split; [reflexivity |].
    split; [reflexivity |]. split; [reflexivity |].
    split; [exact Hb |]. split; [now left | reflexivity].
Qed.

Lemma POST_cases (session : option string) (body : json) (newId : string)
    (now : Z) (db : Db) :
  (exists r, run (POST isDate session body newId now) db = (r, db, []))
  \/ (exists userId data ds,
        session = Some userId /\
        extendedBillSchema body = Some data /\
        fst (validateItems (Form.items data) 0 [] (mkConn db []))
        = inr (sumLines (Form.items data) 0, ds) /\
        run (POST isDate session body newId now) db
        = (Created (newBillOf userId newId now data),
           applyAll (postWrites userId newId now data ds) db,
           postWrites userId newId now data ds)).
Proof.
  destruct session as [userId |]; [| left; now exists Unauthorized].
  destruct (extendedBillSchema body) as [data |] eqn:Hparse.
  - destruct (fst (validateItems (Form.items data) 0 [] (mkConn db [])))
      as [r | [s ds]] eqn:Hcheck.
    + left. exists r. exact (POST_stopped _ _ _ _ _ _ _ Hparse Hcheck).
    + destruct (isDate (Form.billDate data)) eqn:Hdate.
      * right. exists userId, data, ds.
        pose proof (POST_created userId _ newId now _ _ _ _ Hparse Hcheck Hdate)
          as Hrun.
        destruct (validateItems_passes _ _ _ _ _ _ Hcheck) as (-> & _).
        now repeat split.
      * left. eexists. exact (POST_failed _ _ _ _ _ _ _ _ Hparse Hcheck Hdate).
  - left. exists InvalidRequestData. unfold run, POST. now rewrite Hparse.
Qed.

(** ** Reservation and release, lot by lot *)

Lemma passes_entries (db : Db) (items : list Form.BillingItem)
    (rows : list Inventory.row) :
  Forall (fun ir =>
            selectInventory (Form.inventoryId (fst ir)) db = Some (snd ir) /\
            (Inventory.availableQuantity (snd ir) <? Form.quantity (fst ir)) = false)
         (combine items rows) ->
  Forall (entryOf db items)
    (map (fun ir => itemDataOf (fst ir) (snd ir)) (combine items rows)).
Proof.
  intros Hall. apply Forall_forall. intros d Hd.
  apply in_map_iff in Hd. destruct Hd as ([item row] & <- & Hin).
  rewrite Forall_forall in Hall. destruct (Hall _ Hin) as [Hsel Hge].
  exists item, row. repeat split; try assumption.
  exact (in_combine_l _ _ _ _ Hin).
Qed.

Lemma reduceWrites_reserved (db0 : Db) (items : list Form.BillingItem)
    (now : Z) (ds : list ItemData.t) :
  Forall (entryOf db0 items) ds ->
  forall db,
    (forall l, reservedFrom db0 items l (availableOf l db)) ->
    forall l,
      reservedFrom db0 items l (availableOf l (applyAll (reduceWrites ds now) db)).
Proof.
  induction ds as [| d ds IH]; intros Hall db Hdb l; [apply Hdb |].
  inversion Hall as [| ? ? Hd Hds]; subst.
  change (applyAll (reduceWrites (d :: ds) now) db)
    with (applyAll (reduceWrites ds now)
            (apply (UpdateInventory (ItemData.inventoryId d)
                      (stored (Inventory.availableQuantity (ItemData.inventoryItem d)
                               - ItemData.quantity d)) now) db)).
  apply (IH Hds). clear l. intros l.
  rewrite availableOf_update.
  destruct (l =? ItemData.inventoryId d)%string eqn:Hl; [| apply Hdb].
  apply String.eqb_eq in Hl.
  destruct Hd as (item & row & Hin & -> & Hsel & Hge).
  simpl in Hl. subst l. simpl.
  assert (Hav : availableOf (Form.inventoryId item) db0
                = Some (Inventory.availableQuantity row))
    by (unfold availableOf; now rewrite Hsel).
  right. exists item, (Inventory.availableQuantity row).
  repeat split; try assumption.
  destruct (Hdb (Form.inventoryId item)) as [-> | (i' & a' & _ & _ & _ & _ & ->)].
  - now rewrite Hav.
  - reflexivity.
Qed.

(** The deletes of DELETE leave the inventory alone. *)
Lemma deleteWrites_inventory (userId billId : string) (now : Z) (db : Db) :
  inventory (applyAll (deleteWrites userId billId now db) db)
  = inventory (applyAll (restoreWrites (selectBillItems billId db) now db) db).
Proof. unfold deleteWrites. now rewrite applyAll_app. Qed.

Lemma quantityOf_inventory (l : string) (db db' : Db) :
  inventory db = inventory db' -> quantityOf l db = quantityOf l db'.
Proof. intros H. unfold quantityOf, selectInventory. now rewrite H. Qed.

(** [updateBillStatus] is one of the header requests. *)
Lemma updateBillStatus_is_header_request (session : option string)
    (billId : string) (s : Status) (now : Z) :
  updateBillStatus session billId s now
  = serve isDate (ViaPATCH session billId (statusOnly s) now).
Proof. reflexivity. Qed.

(** Marking a stored bill paid and then due again: the status follows, the
    lots and the item lines stay. *)
Example status_due_paid_due :
  let paidDb := snd (fst (run (updateBillStatus (Some "u1") "B1" paid 2)
                            Sample.vanished)) in
  let dueDb := snd (fst (run (updateBillStatus (Some "u1") "B1" due 3) paidDb)) in
  option_map Bills.status (selectBill "B1" "u1" paidDb) = Some paid /\
  option_map Bills.status (selectBill "B1" "u1" dueDb) = Some due /\
  inventory dueDb = inventory Sample.vanished /\
  billItems dueDb = billItems Sample.vanished.
Proof. repeat split; reflexivity. Qed.

(** C8: whatever sequence of status updates (or other header updates, by
    PUT or by PATCH, in any order and number) is served, the inventory
    table, hence every lot's availableQuantity, and the item lines of every
    bill are as they were. *)
Theorem status_updates_keep_reservations (rs : list HeaderRequest) (db : Db) :
  inventory (serveAll isDate rs db) = inventory db /\
  (forall l, availableOf l (serveAll isDate rs db) = availableOf l db) /\
  billItems (serveAll isDate rs db) = billItems db.
Proof.
  destruct (serveAll_frame rs db) as (Hi & _ & Hv).
  repeat split; try assumption.
  intros l. now apply availableOf_inventory.
Qed.

(** C4, as amended: updateBillHeader (PUT) never changes the item lines,
    the extra charges or any lot; and a call that changes the taxRate of a
    bill and is answered 200 stores the new rate and leaves the stored
    subtotal, tax, extraChargesTotal and total as they were: they are not
    recomputed.  The call is answered 200 when the body has no bill date or
    one the engine reads as a date; otherwise it is answered 500 and the
    tables are as they were. *)
Theorem updateBillHeader_keeps_tax_and_total (session : option string)
    (billId : string) (body : PutBody.t) (now : Z) (db : Db) :
  let response :=
    fst (fst (run (updateBillHeader isDate session billId body now) db)) in
  let db' := snd (fst (run (updateBillHeader isDate session billId body now) db)) in
  (billItems db' = billItems db /\
   billExtraCharges db' = billExtraCharges db /\
   inventory db' = inventory db) /\
  forall userId b rate,
    session = Some userId ->
    selectBill billId userId db = Some b ->
    PutBody.taxRate body = Some rate ->
    (forall updatedBill,
       response = Updated updatedBill ->
       exists b',
         updatedBill = Some b' /\
         selectBill billId userId db' = Some b' /\
         Bills.taxRate b' = stored rate /\
         Bills.subtotal b' = Bills.subtotal b /\
         Bills.tax b' = Bills.tax b /\
         Bills.extraChargesTotal b' = Bills.extraChargesTotal b /\
         Bills.total b' = Bills.total b) /\
    (readsAsDate isDate (truthy (PutBody.billDate body)) = true ->
     exists b', response = Updated (Some b')) /\
    (readsAsDate isDate (truthy (PutBody.billDate body)) = false ->
     response = Failed "Failed to update bill" /\ db' = db).
Proof.
  split.
  - exact (serve_frame (ViaPUT session billId body now) db).
  - intros userId b rate -> Hb Hrate. unfold updateBillHeader.
    destruct (readsAsDate isDate (truthy (PutBody.billDate body))) eqn:Hdate.
    + rewrite (PUT_updated _ _ body now _ _ Hb Hdate). cbn [fst snd].
      split; [| split; [| discriminate]].
      * intros updatedBill [= <-].
        exists (setBill (updateData body now) b).
        rewrite selectBill_update, Hb.
        unfold setBill, updateData. rewrite Hrate. now repeat split.
      * intros _. now eexists.
    + rewrite (PUT_failed _ _ body now _ _ Hb Hdate). cbn [fst snd].
      split; [discriminate |]. split; [discriminate | now split].
Qed.

(** The release of the [k]-th item whose lot exists is the [k]-th write of
    the loop, and it writes what the lot has available when the item is
    reached plus the quantity of the item. *)
Lemma restoreWrites_amounts (billItemsList : list BillItems.row) (now : Z) :
  forall db k item,
    nth_error
      (filter (fun i => lotExists db (BillItems.inventoryId i)) billItemsList) k
    = Some item ->
    exists a,
      availableOf (BillItems.inventoryId item)
        (applyAll (firstn k (restoreWrites billItemsList now db)) db) = Some a /\
      nth_error (restoreWrites billItemsList now db) k
      = Some (UpdateInventory (BillItems.inventoryId item)
                (stored (a + BillItems.quantity item)) now).
Proof.
  induction billItemsList as [| i rest IH]; intros db k item H.
  - destruct k; discriminate.
  - cbn [filter restoreWrites] in *. unfold lotExists in H at 1.
    destruct (selectInventory (BillItems.inventoryId i) db) as [row |] eqn:Hsel.
    + destruct k as [| k].
      * injection H as <-. exists (Inventory.availableQuantity row).
        split; [| reflexivity].
        cbn [firstn]. unfold applyAll, availableOf. cbn [fold_left].
        now rewrite Hsel.
      * cbn [nth_error] in H.
        set (w := UpdateInventory (BillItems.inventoryId i)
                    (stored (Inventory.availableQuantity row + BillItems.quantity i))
                    now) in *.
        rewrite (filter_ext _ (fun x => lotExists (apply w db) (BillItems.inventoryId x)))
          in H by (intros x; subst w; now rewrite lotExists_update).
        destruct (IH (apply w db) k item H) as (a & Ha & Hn).
        exists a. split; [exact Ha | exact Hn].
    + now apply IH.
Qed.

(** C5, as amended: deleteBill of a bill of the caller succeeds whether or
    not the lots of its items still exist.  It issues one release per item
    whose lot exists, in the order of the items, and skips the items whose
    lot is gone; each release writes to the lot of its item what the lot has
    available at that moment plus the quantity of the item, so that a lot
    ends with the quantities of its items added to it one after the other;
    only then it deletes the BillItems, the BillExtraCharges and the Bill
    header, in that order; afterwards no row of the bill is left. *)
Theorem deleteBill_releases_then_deletes (userId billId : string) (now : Z)
    (db : Db) (b : Bills.row) :
  selectBill billId userId db = Some b ->
  exists releases db',
    run (deleteBill (Some userId) billId now) db
    = (Deleted, db',
       (releases ++ [DeleteBillItems billId; DeleteBillExtraCharges billId;
                     DeleteBill billId userId])%list) /\
    forallb isUpdateInventory releases = true /\
    map lotOfWrite releases
    = map Some (filter (lotExists db)
                  (map BillItems.inventoryId (selectBillItems billId db))) /\
    selectBillItems billId db' = [] /\
    filter (fun c => (BillExtraCharges.billId c =? billId)%string)
      (billExtraCharges db') = [] /\
    selectBill billId userId db' = None /\
    (forall k item,
       nth_error
         (filter (fun i => lotExists db (BillItems.inventoryId i))
            (selectBillItems billId db)) k = Some item ->
       exists a,
         availableOf (BillItems.inventoryId item) (applyAll (firstn k releases) db)
         = Some a /\
         nth_error releases k
         = Some (UpdateInventory (BillItems.inventoryId item)
                   (stored (a + BillItems.quantity item)) now)) /\
    (forall l,
       availableOf l db'
       = option_map
           (fun a =>
              fold_left (fun available item => stored (available + BillItems.quantity item))
                (filter (fun item => (BillItems.inventoryId item =? l)%string)
                   (selectBillItems billId db))
                a)
           (availableOf l db)) /\
    db' = applyAll (releases ++ [DeleteBillItems billId; DeleteBillExtraCharges billId;
                                 DeleteBill billId userId]) db.
Proof.
  intros Hb. unfold deleteBill. rewrite (DELETE_deleted _ _ now _ _ Hb).
  exists (restoreWrites (selectBillItems billId db) now db).
  eexists. split; [reflexivity |].
  split; [apply restoreWrites_updates |].
  split; [apply restoreWrites_lots |].
  unfold deleteWrites. rewrite applyAll_app.
  pose proof (restoreWrites_available (selectBillItems billId db) now db) as Hav.
  set (db1 := applyAll (restoreWrites _ _ _) db) in *.
  unfold applyAll at 1 2 3 4. cbn [fold_left apply].
  unfold selectBillItems at 1, selectBill.
  cbn [bills billItems billExtraCharges inventory].
  split; [| split; [| split; [| split; [| split]]]].
  - induction (billItems db1) as [| i rows IH]; [reflexivity |].
    simpl. destruct (BillItems.billId i =? billId)%string eqn:Hi; simpl;
      [exact IH | now rewrite Hi].
  - induction (billExtraCharges db1) as [| c rows IH]; [reflexivity |].
    simpl. destruct (BillExtraCharges.billId c =? billId)%string eqn:Hc; simpl;
      [exact IH | now rewrite Hc].
  - induction (bills db1) as [| x rows IH]; [reflexivity |].
    simpl. destruct (ownBill billId userId x) eqn:Hx; simpl;
      [exact IH | now rewrite Hx].
  - apply restoreWrites_amounts.
  - intros l. transitivity (availableOf l db1); [reflexivity |].
    exact (Hav l).
  - reflexivity.
Qed.

(** Releasing items whose quantities are not negative keeps an available
    quantity that is not negative. *)
Lemma released_nonnegative (items : list BillItems.row) :
  Forall (fun item => (0 <=? BillItems.quantity item) = true) items ->
  forall a, (0 <=? a) = true -> (0 <=? fold_left released items a) = true.
Proof.
  induction 1 as [| item items Hq _ IH]; intros a Ha; [exact Ha |].
  simpl. apply IH. unfold released, stored.
  destruct (_ =? 0); [reflexivity | now apply add_nonnegative].
Qed.

(** C6, as amended: the total quantity of a lot is never changed by a
    settlement operation, and
    - header and status updates leave the inventory table as it was;
    - createBill leaves the available quantity of a lot as it was, or at
      the quantity it read before the call minus the quantity of a line on
      that lot that passed the stock check; either way a finite available
      quantity that was within 0 and a bound (such as the lot's total
      quantity) is still within them;
    - deleteBill adds to the available quantity of a lot the quantity of
      each item of the bill on that lot, one after the other, with no clamp
      at the lot's total quantity; an available quantity that was not
      negative stays so when the item quantities are not negative. *)
Theorem settlement_effect_on_lots (db : Db) (l : string) :
  (forall rs, inventory (serveAll isDate rs db) = inventory db) /\
  (forall session body newId now,
     let db' := snd (fst (run (createBill isDate session body newId now) db)) in
     quantityOf l db' = quantityOf l db /\
     (availableOf l db' = availableOf l db
      \/ exists data,
           extendedBillSchema body = Some data /\
           reservedFrom db (Form.items data) l (availableOf l db')) /\
     (forall a bound,
        availableOf l db = Some a ->
        (0 <=? a) = true -> (a <=? bound) = true -> (a <? infinity) = true ->
        exists a',
          availableOf l db' = Some a' /\
          (0 <=? a') = true /\ (a' <=? bound) = true)) /\
  (forall session billId now,
     let db' := snd (fst (run (deleteBill session billId now) db)) in
     quantityOf l db' = quantityOf l db /\
     (forall userId b,
        session = Some userId -> selectBill billId userId db = Some b ->
        availableOf l db'
        = option_map
            (fun a => fold_left released
                        (filter (onLot l) (selectBillItems billId db)) a)
            (availableOf l db)) /\
     ((forall userId, session = Some userId -> selectBill billId userId db = None) ->
      db' = db) /\
     (Forall (fun item => (0 <=? BillItems.quantity item) = true)
        (selectBillItems billId db) ->
      forall a,
        availableOf l db = Some a -> (0 <=? a) = true ->
        exists a', availableOf l db' = Some a' /\ (0 <=? a') = true)).
Proof.
  split; [| split].
  - intros rs. apply serveAll_frame.
  - intros session body newId now. unfold createBill. cbv zeta.
    assert (Hmain :
      quantityOf l (snd (fst (run (POST isDate session body newId now) db)))
      = quantityOf l db /\
      (availableOf l (snd (fst (run (POST isDate session body newId now) db)))
       = availableOf l db
       \/ exists data,
            extendedBillSchema body = Some data /\
            reservedFrom db (Form.items data) l
              (availableOf l (snd (fst (run (POST isDate session body newId now) db)))))).
    { destruct (POST_cases session body newId now db)
        as [(r & ->) | (userId & data & ds & _ & Hparse & Hcheck & ->)];
        cbn [fst snd]; [split; [reflexivity | now left] |].
      destruct (postWrites_tables userId newId now data ds db) as (_ & _ & _ & Hinv).
      cbv zeta in Hinv.
      rewrite (quantityOf_inventory l _ _ Hinv), (availableOf_inventory l _ _ Hinv).
      split.
      + apply updates_frame. apply reduceWrites_updates.
      + right. exists data. split; [exact Hparse |].
        destruct (validateItems_passes _ _ _ _ _ _ Hcheck)
          as (_ & rows & -> & _ & Hall).
        apply reduceWrites_reserved; [| intros l'; now left].
        simpl. now apply passes_entries. }
    destruct Hmain as [Hq Hres]. split; [exact Hq | split; [exact Hres |]].
    intros a bound Hav Ha Hbound Hfin.
    destruct Hres as [-> | (data & Hparse & [-> | (item & a0 & Hin & _ & Hav0 & Hge & ->)])].
    + exists a. now repeat split.
    + exists a. now repeat split.
    + rewrite Hav in Hav0. injection Hav0 as <-.
      pose proof (extendedBillSchema_checked body data Hparse) as Hchecked.
      rewrite Forall_forall in Hchecked. destruct (Hchecked item Hin) as [Hnum Hmin].
      eexists. split; [reflexivity |].
      now apply reserve_within.
  - intros session billId now. unfold deleteBill. cbv zeta.
    assert (Hnone : (forall userId, session = Some userId ->
                                    selectBill billId userId db = None) ->
                    snd (fst (run (DELETE session billId now) db)) = db).
    { intros H. destruct (DELETE_otherwise session billId now db H) as (r & -> & _).
      reflexivity. }
    destruct session as [userId |].
    + destruct (selectBill billId userId db) as [b |] eqn:Hb.
      * rewrite (DELETE_deleted _ _ now _ _ Hb). cbn [fst snd].
        pose proof (deleteWrites_inventory userId billId now db) as Hinv.
        rewrite (quantityOf_inventory l _ _ Hinv), (availableOf_inventory l _ _ Hinv).
        rewrite restoreWrites_available.
        split; [| split; [| split]].
        -- apply updates_frame. apply restoreWrites_updates.
        -- intros u b' _ _. reflexivity.
        -- intros H. specialize (H userId eq_refl). congruence.
        -- intros Hitems a Hav Ha. rewrite Hav. eexists. split; [reflexivity |].
           apply released_nonnegative; [| exact Ha].
           apply Forall_forall. intros item Hin. apply filter_In in Hin.
           rewrite Forall_forall in Hitems. now apply Hitems.
      * rewrite Hnone by (intros u [= <-]; exact Hb).
        split; [reflexivity | split; [| split; [reflexivity |]]].
        -- intros u b' [= <-] H. congruence.
        -- intros _ a Hav Ha. now exists a.
    + rewrite Hnone by discriminate.
      split; [reflexivity | split; [| split; [reflexivity |]]].
      * discriminate.
      * intros _ a Hav Ha. now exists a.
Qed.

(** ** Creating a bill and deleting it again *)

Lemma filter_all {A : Type} (f : A -> bool) (l : list A) :
  forallb f l = true -> filter f l = l.
Proof.
  induction l as [| x l IH]; simpl; [reflexivity |].
  intros H. apply andb_prop in H. destruct H as [-> H]. now rewrite IH.
Qed.

Lemma filter_none {A : Type} (f : A -> bool) (l : list A) :
  forallb (fun x => negb (f x)) l = true -> filter f l = [].
Proof.
  induction l as [| x l IH]; simpl; [reflexivity |].
  intros H. apply andb_prop in H. destruct H as [Hx H].
  apply negb_true_iff in Hx. now rewrite Hx, IH.
Qed.

Lemma find_none {A : Type} (f : A -> bool) (l : list A) :
  forallb (fun x => negb (f x)) l = true -> find f l = None.
Proof.
  induction l as [| x l IH]; simpl; [reflexivity |].
  intros H. apply andb_prop in H. destruct H as [Hx H].
  apply negb_true_iff in Hx. now rewrite Hx, IH.
Qed.

Lemma find_app_none {A : Type} (f : A -> bool) (l l' : list A) :
  find f l = None -> find f (l ++ l') = find f l'.
Proof.
  induction l as [| x l IH]; simpl; [reflexivity |].
  destruct (f x); [discriminate | exact IH].
Qed.

Lemma forallb_weaken {A : Type} (f g : A -> bool) (l : list A) :
  (forall x, f x = true -> g x = true) ->
  forallb f l = true -> forallb g l = true.
Proof.
  intros Hfg. induction l as [| x l IH]; simpl; [reflexivity |].
  intros H. apply andb_prop in H. destruct H as [Hx H].
  now rewrite (Hfg x Hx), IH.
Qed.

(** With pairwise distinct lots, the reduce loop leaves a lot at the value
    written for its one line. *)
Lemma reduceWrites_available_nodup (now : Z) (ds : list ItemData.t) :
  NoDup (map ItemData.inventoryId ds) ->
  forall db l,
    availableOf l (applyAll (reduceWrites ds now) db)
    = match find (fun d => (ItemData.inventoryId d =? l)%string) ds with
      | Some d =>
          option_map
            (fun _ => stored (Inventory.availableQuantity (ItemData.inventoryItem d)
                              - ItemData.quantity d))
            (availableOf l db)
      | None => availableOf l db
      end.
Proof.
  induction ds as [| d ds IH]; intros Hnd db l; [reflexivity |].
  inversion Hnd as [| ? ? Hnotin Hnd']; subst.
  change (applyAll (reduceWrites (d :: ds) now) db)
    with (applyAll (reduceWrites ds now)
            (apply (UpdateInventory (ItemData.inventoryId d)
                      (stored (Inventory.availableQuantity (ItemData.inventoryItem d)
                               - ItemData.quantity d)) now) db)).
  rewrite (IH Hnd'), availableOf_update. simpl.
  rewrite (String.eqb_sym l).
  destruct (ItemData.inventoryId d =? l)%string eqn:Hl; [| reflexivity].
  apply String.eqb_eq in Hl. subst l.
  replace (find _ ds) with (@None ItemData.t); [reflexivity |].
  symmetry. apply find_none. apply forallb_forall. intros d' Hd'.
  apply negb_true_iff. apply String.eqb_neq. intros Heq.
  apply Hnotin. rewrite <- Heq. now apply in_map.
Qed.

(** With pairwise distinct lots, a lot has at most one item of the bill. *)
Lemma filter_onLot_nodup (newId l : string) (ds : list ItemData.t) :
  NoDup (map ItemData.inventoryId ds) ->
  filter (onLot l) (map (billItemOf newId) ds)
  = match find (fun d => (ItemData.inventoryId d =? l)%string) ds with
    | Some d => [billItemOf newId d]
    | None => []
    end.
Proof.
  induction ds as [| d ds IH]; intros Hnd; [reflexivity |].
  inversion Hnd as [| ? ? Hnotin Hnd']; subst.
  simpl. unfold onLot at 1. simpl.
  destruct (ItemData.inventoryId d =? l)%string eqn:Hl; [| now apply IH].
  apply String.eqb_eq in Hl. subst l. f_equal.
  rewrite (IH Hnd').
  replace (find _ ds) with (@None ItemData.t); [reflexivity |].
  symmetry. apply find_none. apply forallb_forall. intros d' Hd'.
  apply negb_true_iff. apply String.eqb_neq. intros Heq.
  apply Hnotin. rewrite <- Heq. now apply in_map.
Qed.

(** The entries of [itemsData] and the lines they were made from. *)
Lemma entries_lots (items : list Form.BillingItem) :
  forall rows,
    List.length rows = List.length items ->
    map ItemData.inventoryId
      (map (fun ir => itemDataOf (fst ir) (snd ir)) (combine items rows))
    = map Form.inventoryId items.
Proof.
  induction items as [| item items IH]; intros [| row rows] Hlen;
    try discriminate; [reflexivity |].
  simpl. f_equal. apply IH. now injection Hlen.
Qed.

Lemma entries_find (db : Db) (l : string) (items : list Form.BillingItem) :
  forall rows,
    List.length rows = List.length items ->
    Forall (fun ir =>
              selectInventory (Form.inventoryId (fst ir)) db = Some (snd ir) /\
              (Inventory.availableQuantity (snd ir) <? Form.quantity (fst ir)) = false)
           (combine items rows) ->
    match lineOn l items with
    | Some item =>
        exists row,
          find (fun d => (ItemData.inventoryId d =? l)%string)
            (map (fun ir => itemDataOf (fst ir) (snd ir)) (combine items rows))
          = Some (itemDataOf item row) /\
          availableOf l db = Some (Inventory.availableQuantity row)
    | None =>
        find (fun d => (ItemData.inventoryId d =? l)%string)
          (map (fun ir => itemDataOf (fst ir) (snd ir)) (combine items rows))
        = None
    end.
Proof.
  unfold lineOn.
  induction items as [| item items IH]; intros [| row rows] Hlen Hall;
    try discriminate; [reflexivity |].
  simpl in *. inversion Hall as [| ? ? [Hsel _] Hall']; subst. simpl in Hsel.
  destruct (Form.inventoryId item =? l)%string eqn:Hl.
  - exists row. split; [reflexivity |].
    apply String.eqb_eq in Hl. subst l.
    unfold availableOf. now rewrite Hsel.
  - apply IH; [now injection Hlen | exact Hall'].
Qed.

Lemma filter_new_items (newId : string) (ds : list ItemData.t) :
  filter (fun i => (BillItems.billId i =? newId)%string) (map (billItemOf newId) ds)
  = map (billItemOf newId) ds /\
  filter (fun i => negb (BillItems.billId i =? newId)%string)
    (map (billItemOf newId) ds) = [].
Proof.
  induction ds as [| d ds [IH1 IH2]]; [now split |].
  simpl. rewrite String.eqb_refl. simpl. now rewrite IH1, IH2.
Qed.

Lemma filter_new_charges (newId : string) (charges : list Form.ExtraCharge) :
  filter (fun c => negb (BillExtraCharges.billId c =? newId)%string)
    (map (chargeOf newId) charges) = [].
Proof.
  induction charges as [| c cs IH]; [reflexivity |].
  simpl. rewrite String.eqb_refl. simpl. exact IH.
Qed.

(** One bill created and deleted again, with pairwise distinct lots and a
    bill id not in use: the delete succeeds, the bill tables are as before,
    and each lot of the request went through [roundTrip]. *)
Lemma create_delete_pair (userId : string) (body : json) (newId : string)
    (now now' : Z) (db db1 : Db) (data : Form.ExtendedBill) (b : Bills.row)
    (j1 : list Write) :
  extendedBillSchema body = Some data ->
  NoDup (map Form.inventoryId (Form.items data)) ->
  freshId newId db = true ->
  run (POST isDate (Some userId) body newId now) db = (Created b, db1, j1) ->
  exists db2 j2,
    run (DELETE (Some userId) newId now') db1 = (Deleted, db2, j2) /\
    bills db2 = bills db /\
    billItems db2 = billItems db /\
    billExtraCharges db2 = billExtraCharges db /\
    forall l,
      availableOf l db2
      = match lineOn l (Form.items data) with
        | Some item => option_map (roundTrip (Form.quantity item)) (availableOf l db)
        | None => availableOf l db
        end.
Proof.
  intros Hparse Hnd Hfresh Hrun. apply POST_inv in Hrun.
  destruct Hrun as (u & data' & ds & [= <-] & Hparse' & Hcheck & -> & -> & ->).
  rewrite Hparse in Hparse'. injection Hparse' as <-.
  destruct (postWrites_tables userId newId now data ds db) as (Hb1 & Hi1 & Hc1 & Hv1).
  cbv zeta in Hb1, Hi1, Hc1, Hv1.
  set (db1 := applyAll (postWrites userId newId now data ds) db) in *.
  unfold freshId in Hfresh.
  apply andb_prop in Hfresh. destruct Hfresh as [Hfresh Hfc].
  apply andb_prop in Hfresh. destruct Hfresh as [Hfb Hfi].
  assert (Hown : forallb (fun x => negb (ownBill newId userId x)) (bills db) = true).
  { revert Hfb. apply forallb_weaken. intros x Hx. unfold ownBill.
    apply negb_true_iff in Hx. now rewrite Hx. }
  assert (Hsel : selectBill newId userId db1
                 = Some (newBillOf userId newId now data)).
  { unfold selectBill. rewrite Hb1, (find_app_none _ _ _ (find_none _ _ Hown)).
    simpl. unfold ownBill. simpl. now rewrite !String.eqb_refl. }
  rewrite (DELETE_deleted _ _ now' _ _ Hsel).
  eexists. eexists. split; [reflexivity |].
  unfold deleteWrites. rewrite applyAll_app.
  set (items1 := selectBillItems newId db1).
  destruct (updates_frame _ (restoreWrites_updates items1 now' db1) db1)
    as (HbX & HiX & HcX & _).
  pose proof (restoreWrites_available items1 now' db1) as HvX.
  set (X := applyAll (restoreWrites items1 now' db1) db1) in *.
  unfold applyAll at 1 2 3 4. cbn [fold_left apply].
  cbn [bills billItems billExtraCharges inventory].
  rewrite HbX, HiX, HcX, Hb1, Hi1, Hc1, !filter_app.
  rewrite (filter_all _ _ Hown), (filter_all _ _ Hfi), (filter_all _ _ Hfc).
  rewrite (proj2 (filter_new_items newId ds)), filter_new_charges, !app_nil_r.
  repeat split.
  - simpl. unfold ownBill. simpl. rewrite !String.eqb_refl. simpl.
    now rewrite app_nil_r.
  - intros l.
    transitivity (availableOf l X); [reflexivity |].
    rewrite HvX. subst items1. unfold selectBillItems.
    rewrite Hi1, filter_app, (filter_none _ _ Hfi),
      (proj1 (filter_new_items newId ds)). simpl.
    rewrite (availableOf_inventory l db1 _ Hv1).
    destruct (validateItems_passes _ _ _ _ _ _ Hcheck)
      as (_ & rows & Hds & Hlen & Hall).
    simpl in Hds, Hall. subst ds.
    assert (Hnd' : NoDup (map ItemData.inventoryId
                            (map (fun ir => itemDataOf (fst ir) (snd ir))
                               (combine (Form.items data) rows))))
      by (now rewrite entries_lots).
    rewrite (filter_onLot_nodup newId l _ Hnd'),
      (reduceWrites_available_nodup now _ Hnd').
    pose proof (entries_find db l (Form.items data) rows Hlen Hall) as Hfind.
    destruct (lineOn l (Form.items data)) as [item |].
    + destruct Hfind as (row & -> & ->). reflexivity.
    + rewrite Hfind. simpl. now destruct (availableOf l db).
Qed.

Lemma freshId_tables (newId : string) (db db' : Db) :
  bills db' = bills db -> billItems db' = billItems db ->
  billExtraCharges db' = billExtraCharges db ->
  freshId newId db' = freshId newId db.
Proof. intros Hb Hi Hc. unfold freshId. now rewrite Hb, Hi, Hc. Qed.

(** C2, as amended: for a createBill request whose lines are on pairwise
    distinct lots, creating the bill and deleting it again, any number of
    times (each time under a bill id not in use), leaves the Bill, BillItem
    and BillExtraCharge tables as they were, leaves the lots the request
    does not name as they were, and leaves each lot it names at
    (available - q) + q computed in binary64 arithmetic, once per
    repetition: the original value whenever these two operations are exact,
    not in general. *)
Theorem create_delete_cycles (userId : string) (body : json)
    (data : Form.ExtendedBill) (ids : list (string * Z)) :
  extendedBillSchema body = Some data ->
  NoDup (map Form.inventoryId (Form.items data)) ->
  forall db db',
    forallb (fun p => freshId (fst p) db) ids = true ->
    cycles isDate userId body ids db = Some db' ->
    bills db' = bills db /\
    billItems db' = billItems db /\
    billExtraCharges db' = billExtraCharges db /\
    forall l,
      availableOf l db'
      = match lineOn l (Form.items data) with
        | Some item =>
            option_map
              (fun a => Nat.iter (List.length ids) (roundTrip (Form.quantity item)) a)
              (availableOf l db)
        | None => availableOf l db
        end.
Proof.
  intros Hparse Hnd.
  induction ids as [| [newId now] ids IH]; intros db db' Hfresh Hcycles.
  - injection Hcycles as <-. repeat split.
    intros l. destruct (lineOn l (Form.items data)); [| reflexivity].
    now destruct (availableOf l db).
  - simpl in Hfresh. apply andb_prop in Hfresh. destruct Hfresh as [Hnew Hfresh].
    cbn [cycles] in Hcycles. unfold createBill, deleteBill in Hcycles.
    destruct (run (POST isDate (Some userId) body newId now) db) as [[r db1] j1] eqn:Hrun.
    destruct r as [| | | | | nb | | |]; try discriminate.
    destruct (create_delete_pair userId body newId now now db db1 data nb j1
                Hparse Hnd Hnew Hrun) as (db2 & j2 & Hdel & Hb & Hi & Hc & Hav).
    rewrite Hdel in Hcycles.
    assert (Hfresh2 : forallb (fun p => freshId (fst p) db2) ids = true).
    { revert Hfresh. apply forallb_weaken. intros p Hp.
      now rewrite (freshId_tables (fst p) db db2 Hb Hi Hc). }
    destruct (IH db2 db' Hfresh2 Hcycles) as (Hb' & Hi' & Hc' & Hav').
    repeat split; try congruence.
    intros l. rewrite Hav', Hav.
    destruct (lineOn l (Form.items data)) as [item |]; [| reflexivity].
    destruct (availableOf l db) as [a |]; [| reflexivity].
    simpl. now rewrite <- Nat.iter_succ_r.
Qed.

(** * Further properties of the routes *)

(** ** Lists *)

Lemma find_app_some {A : Type} (f : A -> bool) (l l' : list A) (x : A) :
  find f l = Some x -> find f (l ++ l') = Some x.
Proof.
  induction l as [| y l IH]; [discriminate |].
  simpl. destruct (f y); [trivial | exact IH].
Qed.

Lemma find_map {A B : Type} (q : B -> bool) (g : A -> B) (l : list A) :
  find q (map g l) = option_map g (find (fun x => q (g x)) l).
Proof.
  induction l as [| x l IH]; [reflexivity |].
  simpl. now destruct (q (g x)).
Qed.

Lemma combine_fst {A B : Type} (l : list A) :
  forall l' : list B, List.length l' = List.length l -> map fst (combine l l') = l.
Proof.
  induction l as [| x l IH]; intros [| y l'] Hlen; try discriminate; [reflexivity |].
  simpl. f_equal. apply IH. now injection Hlen.
Qed.

Lemma filter_idem {A : Type} (f : A -> bool) (l : list A) :
  filter f (filter f l) = filter f l.
Proof.
  induction l as [| x l IH]; [reflexivity |].
  simpl. destruct (f x) eqn:Hx; [| exact IH].
  simpl. now rewrite Hx, IH.
Qed.


(** ** Outcomes of bill creation *)

Lemma passes_lineOk (db : Db) (items : list Form.BillingItem) :
  forall rows,
    List.length rows = List.length items ->
    Forall (fun ir =>
              selectInventory (Form.inventoryId (fst ir)) db = Some (snd ir) /\
              (Inventory.availableQuantity (snd ir) <? Form.quantity (fst ir)) = false)
           (combine items rows) ->
    Forall (lineOk db) items.
Proof.
  induction items as [| item rest IH]; intros rows Hlen Hall; [constructor |].
  destruct rows as [| row rows]; [discriminate |].
  simpl in Hall. inversion Hall as [| ? ? [Hsel Hge] Hall']; subst.
  constructor.
  - now exists row.
  - apply (IH rows); [now injection Hlen | exact Hall'].
Qed.

(** X1: createBill answers 201 exactly when the body passes the schema,
    every line passes the stock check on the tables as they are before the
    call (its lot is found and has at least the requested quantity
    available), and the engine reads the bill date as a date.  A body that
    passes the schema and the stock check with a bill date that is no date
    is answered 500, and nothing is written. *)
Theorem createBill_created_iff (userId : string) (body : json) (newId : string)
    (now : Z) (db : Db) :
  ((exists b db' j,
      run (createBill isDate (Some userId) body newId now) db = (Created b, db', j))
   <-> (exists data,
          extendedBillSchema body = Some data /\
          Forall (lineOk db) (Form.items data) /\
          isDate (Form.billDate data) = true)) /\
  ((exists data,
      extendedBillSchema body = Some data /\
      Forall (lineOk db) (Form.items data) /\
      isDate (Form.billDate data) = false)
   <-> run (createBill isDate (Some userId) body newId now) db
       = (Failed "Failed to create bill", db, [])).
Proof.
  split; split.
  - intros (b & db' & j & Hrun).
    destruct (POST_inv _ _ _ _ _ _ _ _ Hrun)
      as (u & data & ds & _ & Hparse & Hcheck & _).
    exists data. split; [exact Hparse |].
    destruct (validateItems_passes _ _ _ _ _ _ Hcheck)
      as (_ & rows & _ & Hlen & Hall).
    split; [exact (passes_lineOk db _ rows Hlen Hall) |].
    exact (POST_dated _ _ _ _ _ _ _ _ _ Hrun Hparse).
  - intros (data & Hparse & Hok & Hdate).
    destruct (validateItems_all_ok (Form.items data) 0 [] (mkConn db []) Hok)
      as (ds & Hcheck).
    do 3 eexists. exact (POST_created _ _ _ _ _ _ _ _ Hparse Hcheck Hdate).
  - intros (data & Hparse & Hok & Hdate).
    destruct (validateItems_all_ok (Form.items data) 0 [] (mkConn db []) Hok)
      as (ds & Hcheck).
    exact (POST_failed _ _ _ _ _ _ _ _ Hparse Hcheck Hdate).
  - intros Hrun. unfold createBill in Hrun.
    destruct (extendedBillSchema body) as [data |] eqn:Hparse.
    + destruct (fst (validateItems (Form.items data) 0 [] (mkConn db [])))
        as [r | [s ds]] eqn:Hcheck.
      * rewrite (POST_stopped _ _ _ _ _ _ _ Hparse Hcheck) in Hrun.
        injection Hrun as Hr. subst r.
        destruct (validateItems_stops _ _ _ _ _ Hcheck)
          as (bf & it & af & _ & _ & [[_ H] | (a & _ & H)]); discriminate.
      * destruct (validateItems_passes _ _ _ _ _ _ Hcheck)
          as (_ & rows & _ & Hlen & Hall).
        exists data. split; [reflexivity |].
        split; [exact (passes_lineOk db _ rows Hlen Hall) |].
        destruct (isDate (Form.billDate data)) eqn:Hdate; [| reflexivity].
        rewrite (POST_created _ _ _ _ _ _ _ _ Hparse Hcheck Hdate) in Hrun.
        discriminate.
    + unfold run, POST in Hrun. rewrite Hparse in Hrun. discriminate.
Qed.

(** The first line whose lot is not found, after lines that pass, decides
    the response. *)
Lemma validateItems_first_missing (before : list Form.BillingItem) :
  forall item after subtotal itemsData c,
    Forall (lineOk (tables c)) before ->
    selectInventory (Form.inventoryId item) (tables c) = None ->
    fst (validateItems (before ++ item :: after) subtotal itemsData c)
    = inl (InventoryItemNotFound (Form.inventoryId item)).
Proof.
  induction before as [| b before IH];
    intros item after subtotal itemsData c Hok Hnone.
  - simpl. unfold bind, query. now rewrite Hnone.
  - inversion Hok as [| ? ? (row & Hsel & Hge) Hok']; subst.
    simpl. unfold bind, query. rewrite Hsel, Hge.
    now apply IH.
Qed.

(** X2: when the first line that does not pass names a lot that is not in
    the inventory table, createBill answers 400 with the error that names
    that inventory id, and writes nothing, whatever the lines after it. *)
Theorem createBill_missing_lot (userId : string) (body : json)
    (newId : string) (now : Z) (db : Db) (data : Form.ExtendedBill)
    (before after : list Form.BillingItem) (item : Form.BillingItem) :
  extendedBillSchema body = Some data ->
  Form.items data = (before ++ item :: after)%list ->
  Forall (lineOk db) before ->
  lotExists db (Form.inventoryId item) = false ->
  run (createBill isDate (Some userId) body newId now) db
  = (InventoryItemNotFound (Form.inventoryId item), db, []) /\
  statusCode (InventoryItemNotFound (Form.inventoryId item)) = 400%Z.
Proof.
  intros Hparse Hitems Hok Hnone. split; [| reflexivity].
  apply (POST_stopped _ _ _ _ _ data); [exact Hparse |].
  rewrite Hitems. apply validateItems_first_missing; [exact Hok |].
  unfold lotExists in Hnone. simpl.
  now destruct (selectInventory (Form.inventoryId item) db).
Qed.

(** ** Error responses *)

(** X3: a response of POST, PUT, PATCH or DELETE with a status of 400 or more
    (401, 404, one of the 400s of bill creation, or the 500 of a bill date
    that is no date) comes with no write: the tables are as they were and
    the journal is empty. *)
Theorem error_response_writes_nothing (session : option string) (now : Z)
    (r : Request) (db db' : Db) (response : Response) (j : list Write) :
  run (route isDate session now r) db = (response, db', j) ->
  (400 <= statusCode response)%Z ->
  db' = db /\ j = [].
Proof.
  intros Hrun Hcode. destruct r as [body newId | billId body | billId body | billId].
  - simpl in Hrun.
    destruct (POST_cases session body newId now db)
      as [(r0 & H0) | (u & data & ds & _ & _ & _ & H1)].
    + rewrite H0 in Hrun. now injection Hrun as _ <- <-.
    + rewrite H1 in Hrun. injection Hrun as <- _ _. simpl in Hcode. lia.
  - simpl in Hrun.
    destruct (PUT_cases session billId body now db)
      as [(r0 & H0 & _) | (u & b & _ & _ & H1)].
    + rewrite H0 in Hrun. now injection Hrun as _ <- <-.
    + rewrite H1 in Hrun. injection Hrun as <- _ _. simpl in Hcode. lia.
  - simpl in Hrun.
    destruct (PATCH_cases session billId body now db)
      as [(r0 & H0 & _) | (u & b & _ & _ & H1)].
    + rewrite H0 in Hrun. now injection Hrun as _ <- <-.
    + rewrite H1 in Hrun. injection Hrun as <- _ _. simpl in Hcode. lia.
  - simpl in Hrun. destruct session as [userId |].
    + destruct (selectBill billId userId db) as [b |] eqn:Hb.
      * rewrite (DELETE_deleted _ _ _ _ _ Hb) in Hrun.
        injection Hrun as <- _ _. simpl in Hcode. lia.
      * unfold run, DELETE, bind, query in Hrun. simpl in Hrun.
        rewrite Hb in Hrun. now injection Hrun as _ <- <-.
    + now injection Hrun as _ <- <-.
Qed.

(** ** What a created bill reserves *)

(** After the loop that reduces the inventory, a lot holds what the last
    entry on it wrote. *)
Lemma reduceWrites_available_last (now : Z) (ds : list ItemData.t) :
  forall db l,
    availableOf l (applyAll (reduceWrites ds now) db)
    = match find (fun d => (ItemData.inventoryId d =? l)%string) (rev ds) with
      | Some d =>
          option_map
            (fun _ => stored (Inventory.availableQuantity (ItemData.inventoryItem d)
                              - ItemData.quantity d))
            (availableOf l db)
      | None => availableOf l db
      end.
Proof.
  induction ds as [| d ds IH]; intros db l; [reflexivity |].
  cbn [reduceWrites map rev].
  change (applyAll (?w :: ?ws) db) with (applyAll ws (apply w db)).
  fold (reduceWrites ds now). rewrite IH, availableOf_update.
  destruct (find (fun d0 => (ItemData.inventoryId d0 =? l)%string) (rev ds))
    as [d' |] eqn:Hfind.
  - rewrite (find_app_some _ _ _ _ Hfind).
    destruct (l =? ItemData.inventoryId d)%string; [| reflexivity].
    now destruct (availableOf l db).
  - rewrite (find_app_none _ _ _ Hfind). cbn [find].
    rewrite (String.eqb_sym l).
    now destruct (ItemData.inventoryId d =? l)%string.
Qed.

(** The last entry on a lot is that of the last line on it, and it holds
    the row the stock check read for that line. *)
Lemma entries_find_last (db : Db) (l : string) (items : list Form.BillingItem)
    (rows : list Inventory.row) :
  List.length rows = List.length items ->
  Forall (fun ir =>
            selectInventory (Form.inventoryId (fst ir)) db = Some (snd ir) /\
            (Inventory.availableQuantity (snd ir) <? Form.quantity (fst ir)) = false)
         (combine items rows) ->
  match lastLineOn l items with
  | Some item =>
      exists row,
        find (fun d => (ItemData.inventoryId d =? l)%string)
          (rev (map (fun ir => itemDataOf (fst ir) (snd ir)) (combine items rows)))
        = Some (itemDataOf item row) /\
        availableOf l db = Some (Inventory.availableQuantity row)
  | None =>
      find (fun d => (ItemData.inventoryId d =? l)%string)
        (rev (map (fun ir => itemDataOf (fst ir) (snd ir)) (combine items rows)))
      = None
  end.
Proof.
  intros Hlen Hall. unfold lastLineOn.
  assert (Hfst : find (fun item => (Form.inventoryId item =? l)%string) (rev items)
                 = find (fun item => (Form.inventoryId item =? l)%string)
                     (rev (map fst (combine items rows))))
    by now rewrite combine_fst.
  rewrite Hfst. clear Hfst.
  rewrite <- !map_rev, !find_map. cbn [itemDataOf ItemData.inventoryId].
  destruct (find (fun x => (Form.inventoryId (fst x) =? l)%string)
              (rev (combine items rows))) as [[item row] |] eqn:Hfind;
    [| reflexivity].
  apply find_some in Hfind. destruct Hfind as [Hin Hl].
  apply in_rev in Hin. rewrite Forall_forall in Hall.
  destruct (Hall _ Hin) as [Hsel _]. simpl in Hsel, Hl.
  apply String.eqb_eq in Hl. subst l.
  exists row. split; [reflexivity |].
  unfold availableOf. now rewrite Hsel.
Qed.

(** X4: after a bill is created, a lot named by its lines has available
    what it had before the call minus the quantity of the LAST line on it;
    the quantities of earlier lines on the same lot are not deducted.
    Every other lot has what it had. *)
Theorem createBill_reserves_last_line (session : option string) (body : json)
    (newId : string) (now : Z) (db db' : Db) (b : Bills.row) (j : list Write) :
  run (createBill isDate session body newId now) db = (Created b, db', j) ->
  exists data,
    extendedBillSchema body = Some data /\
    forall l,
      availableOf l db'
      = match lastLineOn l (Form.items data) with
        | Some item =>
            option_map (fun a => stored (a - stored (Form.quantity item)))
              (availableOf l db)
        | None => availableOf l db
        end.
Proof.
  intros Hrun.
  destruct (POST_inv _ _ _ _ _ _ _ _ Hrun)
    as (u & data & ds & _ & Hparse & Hcheck & _ & -> & _).
  exists data. split; [exact Hparse |]. intros l.
  destruct (postWrites_tables u newId now data ds db) as (_ & _ & _ & Hinv).
  rewrite (availableOf_inventory l _ _ Hinv), reduceWrites_available_last.
  destruct (validateItems_passes _ _ _ _ _ _ Hcheck)
    as (_ & rows & -> & Hlen & Hall).
  cbn [app tables] in *.
  pose proof (entries_find_last db l (Form.items data) rows Hlen Hall) as Hlast.
  destruct (lastLineOn l (Form.items data)) as [item |].
  - destruct Hlast as (row & -> & ->). reflexivity.
  - now rewrite Hlast.
Qed.

(** ** Reading a bill back *)

Lemma filter_own_charges (newId : string) (charges : list Form.ExtraCharge) :
  filter (fun c => (BillExtraCharges.billId c =? newId)%string)
    (map (chargeOf newId) charges)
  = map (chargeOf newId) charges.
Proof.
  induction charges as [| c cs IH]; [reflexivity |].
  simpl. rewrite String.eqb_refl. now rewrite IH.
Qed.

(** The bill of a fresh id is the only one of that id after it is
    inserted, and it belongs to the user who created it. *)
Lemma selectBill_new (userId newId other : string) (now : Z)
    (data : Form.ExtendedBill) (rows : list Bills.row) :
  forallb (fun b => negb (Bills.id b =? newId)%string) rows = true ->
  find (ownBill newId other) (rows ++ [newBillOf userId newId now data])
  = if (userId =? other)%string then Some (newBillOf userId newId now data)
    else None.
Proof.
  intros Hfresh.
  assert (Hown : forallb (fun x => negb (ownBill newId other x)) rows = true).
  { revert Hfresh. apply forallb_weaken. intros x Hx. unfold ownBill.
    apply negb_true_iff in Hx. now rewrite Hx. }
  rewrite (find_app_none _ _ _ (find_none _ _ Hown)).
  simpl. unfold ownBill. simpl. rewrite String.eqb_refl. simpl.
  now destruct (userId =? other)%string.
Qed.

Lemma GET_found (userId billId : string) (clients : list Clients.row) (db : Db)
    (b : Bills.row) :
  selectBill billId userId db = Some b ->
  run (GET (Some userId) billId clients) db
  = (GetOk (fullBillOf b (joinClient clients b)
              (map itemView (selectBillItems billId db))
              (selectBillExtraCharges billId db)), db, []).
Proof.
  intros Hb. unfold run, GET, bind, query, ret. cbn [tables journal].
  now rewrite Hb.
Qed.

Lemma GET_not_found (userId billId : string) (clients : list Clients.row)
    (db : Db) :
  selectBill billId userId db = None ->
  run (GET (Some userId) billId clients) db = (GetBillNotFound, db, []).
Proof.
  intros Hb. unfold run, GET, bind, query, ret. cbn [tables journal].
  now rewrite Hb.
Qed.

(** X5: a bill created under an id not in use is read back by its creator
    as it was answered: the header of the 201 response, the client joined
    on its clientId, one item per line of the request in the order of the
    request (quantity, price and line total as stored), and one extra charge
    per charge of the request.  Another user who asks for it is answered
    404. *)
Theorem getBill_after_createBill (userId : string) (body : json)
    (newId : string) (now : Z) (clients : list Clients.row) (db db' : Db)
    (b : Bills.row) (j : list Write) :
  freshId newId db = true ->
  run (createBill isDate (Some userId) body newId now) db = (Created b, db', j) ->
  exists data,
    extendedBillSchema body = Some data /\
    run (getBill (Some userId) newId clients) db'
    = (GetOk (fullBillOf b (joinClient clients b)
                (map itemViewOf (Form.items data))
                (map (chargeOf newId) (Form.extraCharges data))), db', []) /\
    forall other,
      (userId =? other)%string = false ->
      run (getBill (Some other) newId clients) db' = (GetBillNotFound, db', []).
Proof.
  intros Hfresh Hrun.
  destruct (POST_inv _ _ _ _ _ _ _ _ Hrun)
    as (u & data & ds & [= <-] & Hparse & Hcheck & -> & -> & _).
  exists data. split; [exact Hparse |].
  destruct (postWrites_tables userId newId now data ds db) as (Hb1 & Hi1 & Hc1 & _).
  cbv zeta in Hb1, Hi1, Hc1.
  set (db1 := applyAll (postWrites userId newId now data ds) db) in *.
  unfold freshId in Hfresh.
  apply andb_prop in Hfresh. destruct Hfresh as [Hfresh Hfc].
  apply andb_prop in Hfresh. destruct Hfresh as [Hfb Hfi].
  split.
  - assert (Hsel : selectBill newId userId db1
                   = Some (newBillOf userId newId now data)).
    { unfold selectBill. rewrite Hb1, (selectBill_new _ _ userId _ _ _ Hfb).
      now rewrite String.eqb_refl. }
    unfold getBill. rewrite (GET_found _ _ _ _ _ Hsel).
    unfold selectBillItems, selectBillExtraCharges.
    rewrite Hi1, Hc1, !filter_app, (filter_none _ _ Hfi), (filter_none _ _ Hfc).
    rewrite (proj1 (filter_new_items newId ds)), filter_own_charges.
    cbn [app].
    destruct (validateItems_passes _ _ _ _ _ _ Hcheck)
      as (_ & rows & -> & Hlen & _).
    cbn [app]. rewrite !map_map.
    rewrite <- (combine_fst (Form.items data) rows Hlen) at 2.
    now rewrite map_map.
  - intros other Hother. unfold getBill. apply GET_not_found.
    unfold selectBill. rewrite Hb1, (selectBill_new _ _ other _ _ _ Hfb).
    now rewrite Hother.
Qed.

(** ** Bills of other users, and other bills *)


Lemma DELETE_not_found (userId billId : string) (now : Z) (db : Db) :
  selectBill billId userId db = None ->
  run (DELETE (Some userId) billId now) db = (BillNotFound, db, []).
Proof.
  intros Hb. unfold run, DELETE, bind, query, ret. cbn [tables journal].
  now rewrite Hb.
Qed.


Lemma otherBills_update (billId userId : string) (s : BillSet.t) (db : Db) :
  otherBills billId userId (apply (UpdateBill billId userId s) db)
  = otherBills billId userId db.
Proof.
  unfold otherBills. simpl.
  induction (bills db) as [| b rows IH]; [reflexivity |].
  simpl. destruct (ownBill billId userId b) eqn:Hb.
  - rewrite ownBill_setBill, Hb. exact IH.
  - rewrite Hb. simpl. now rewrite IH.
Qed.

(** X7: a request changes the rows of one bill only.  PUT, PATCH (with a
    body of header columns other than id and userId) and DELETE on a bill
    leave every row of every other bill (header, items, extra charges) as
    it was; POST keeps all rows there are and adds rows that carry the new
    bill's id, its header owned by the caller. *)
Theorem request_touches_one_bill (userId : string) (now : Z) (r : Request)
    (db : Db) :
  let db' := snd (fst (run (route isDate (Some userId) now r) db)) in
  match r with
  | ReqPOST _ newId =>
      exists newBills newItems newCharges,
        bills db' = (bills db ++ newBills)%list /\
        billItems db' = (billItems db ++ newItems)%list /\
        billExtraCharges db' = (billExtraCharges db ++ newCharges)%list /\
        forallb (ownBill newId userId) newBills = true /\
        forallb (fun i => (BillItems.billId i =? newId)%string) newItems = true /\
        forallb (fun c => (BillExtraCharges.billId c =? newId)%string) newCharges
        = true
  | ReqPUT billId _ | ReqPATCH billId _ | ReqDELETE billId =>
      otherBills billId userId db' = otherBills billId userId db /\
      otherBillItems billId db' = otherBillItems billId db /\
      otherBillExtraCharges billId db' = otherBillExtraCharges billId db
  end.
Proof.
  destruct r as [body newId | billId body | billId body | billId]; cbn [route].
  - destruct (POST_cases (Some userId) body newId now db)
      as [(r0 & H0) | (u & data & ds & [= <-] & _ & _ & H1)].
    + rewrite H0. cbn [fst snd]. exists [], [], [].
      rewrite !app_nil_r. now repeat split.
    + rewrite H1. cbn [fst snd].
      destruct (postWrites_tables userId newId now data ds db) as (Hb & Hi & Hc & _).
      cbv zeta in Hb, Hi, Hc. do 3 eexists.
      split; [exact Hb |]. split; [exact Hi |]. split; [exact Hc |].
      split; [| split].
      * simpl. unfold ownBill. simpl. now rewrite !String.eqb_refl.
      * clear. induction ds as [| d ds IH]; [reflexivity |].
        simpl. now rewrite String.eqb_refl.
      * clear. induction (Form.extraCharges data) as [| c cs IH]; [reflexivity |].
        simpl. now rewrite String.eqb_refl.
  - destruct (PUT_cases (Some userId) billId body now db)
      as [(r0 & H0 & _) | (u & b & [= <-] & _ & H1)].
    + now rewrite H0.
    + rewrite H1. cbn [fst snd]. now rewrite otherBills_update.
  - destruct (PATCH_cases (Some userId) billId body now db)
      as [(r0 & H0 & _) | (u & b & [= <-] & _ & H1)].
    + now rewrite H0.
    + rewrite H1. cbn [fst snd]. now rewrite otherBills_update.
  - destruct (selectBill billId userId db) as [b |] eqn:Hb.
    + rewrite (DELETE_deleted _ _ _ _ _ Hb). cbn [fst snd].
      unfold deleteWrites. rewrite applyAll_app.
      set (items := selectBillItems billId db).
      destruct (updates_frame _ (restoreWrites_updates items now db) db)
        as (HbX & HiX & HcX & _).
      set (X := applyAll (restoreWrites items now db) db) in *.
      unfold otherBills, otherBillItems, otherBillExtraCharges.
      unfold applyAll. cbn [fold_left apply bills billItems billExtraCharges].
      now rewrite HbX, HiX, HcX, !filter_idem.
    + now rewrite (DELETE_not_found _ _ _ _ Hb).
Qed.

(** ** Deleting a bill that is gone *)



(** ** What a header update leaves alone *)

(** X9: whatever its body, PUT leaves the id, the owner, the bill number,
    the subtotal, the tax, the extra charges total, the total and the
    creation time of every bill as they were: only clientId, billDate,
    invoiceNumber, status, taxRate, notes and updatedAt can change. *)
Theorem updateBillHeader_protected_columns (session : option string)
    (billId : string) (body : PutBody.t) (now : Z) (db : Db) :
  map protectedColumns
    (bills (snd (fst (run (updateBillHeader isDate session billId body now) db))))
  = map protectedColumns (bills db).
Proof.
  unfold updateBillHeader.
  destruct (PUT_cases session billId body now db)
    as [(r0 & H0 & _) | (userId & b & _ & _ & H1)].
  - now rewrite H0.
  - rewrite H1. cbn [fst snd apply bills].
    rewrite map_map. apply map_ext. intros x.
    now destruct (ownBill billId userId x).
Qed.

(** X10: updateBillStatus on a bill of the caller sets its status and its
    updatedAt and nothing else: the response and a later read show the bill
    with the new status, every other column, the items and the extra
    charges as they were. *)
Theorem updateBillStatus_sets_status_only (userId billId : string) (s : Status)
    (now : Z) (clients : list Clients.row) (db : Db) (b : Bills.row) :
  selectBill billId userId db = Some b ->
  exists db',
    run (updateBillStatus (Some userId) billId s now) db
    = (Updated (Some (withStatus s now b)), db',
       [UpdateBill billId userId (patchData (statusOnly s) now)]) /\
    run (getBill (Some userId) billId clients) db'
    = (GetOk (fullBillOf (withStatus s now b) (joinClient clients b)
                (map itemView (selectBillItems billId db))
                (selectBillExtraCharges billId db)), db', []).
Proof.
  intros Hb. unfold updateBillStatus.
  rewrite (PATCH_updated _ _ (statusOnly s) _ _ _ Hb eq_refl).
  eexists. split; [reflexivity |].
  unfold getBill.
  rewrite (GET_found userId billId clients _ (withStatus s now b));
    [reflexivity |].
  now rewrite selectBill_update, Hb.
Qed.

(** ** What the schema lets through *)

Lemma zStringMin1_nonEmpty (val : option json) (s : string) :
  zStringMin1 val = Some s -> nonEmpty s = true.
Proof.
  destruct val as [[| | | [| c t] | |] |]; try discriminate.
  now intros [= <-].
Qed.

Lemma zStringMin1_accepts (s : string) :
  nonEmpty s = true -> zStringMin1 (Some (JStr s)) = Some s.
Proof. now destruct s. Qed.

Lemma zNumberMin_from (lo : float) (val : option json) (x : float) :
  zNumberMin lo val = Some x -> numberFrom lo x = true.
Proof.
  unfold zNumberMin, zNumber, numberFrom.
  destruct val as [[| | n | | |] |]; try discriminate.
  destruct (n =? n) eqn:Hnan; [| discriminate].
  destruct (n <? lo) eqn:Hlo; [discriminate |].
  intros [= <-]. now rewrite Hnan, Hlo.
Qed.

Lemma zNumberMin_accepts (lo x : float) :
  numberFrom lo x = true -> zNumberMin lo (Some (JNum x)) = Some x.
Proof.
  unfold zNumberMin, zNumber, numberFrom. intros H.
  apply andb_prop in H. destruct H as [Hnan Hlo].
  apply negb_true_iff in Hlo. now rewrite Hnan, Hlo.
Qed.

Lemma billingItemSchema_valid (j : json) (item : Form.BillingItem) :
  billingItemSchema j = Some item -> validItem item = true.
Proof.
  unfold billingItemSchema, validItem.
  destruct (props_of j) as [o |]; [| discriminate].
  destruct (zStringMin1 (prop "inventoryId" o)) as [i |] eqn:Hi; [| discriminate].
  destruct (zNumberMin 0.01 (prop "quantity" o)) as [q |] eqn:Hq; [| discriminate].
  destruct (zNumberMin 0 (prop "sellingPrice" o)) as [p |] eqn:Hp; [| discriminate].
  intros [= <-]. simpl.
  now rewrite (zStringMin1_nonEmpty _ _ Hi), (zNumberMin_from _ _ _ Hq),
    (zNumberMin_from _ _ _ Hp).
Qed.

Lemma billingItemSchema_accepts (item : Form.BillingItem) :
  validItem item = true -> billingItemSchema (itemBody item) = Some item.
Proof.
  unfold validItem. intros H.
  apply andb_prop in H. destruct H as [H Hp].
  apply andb_prop in H. destruct H as [Hi Hq].
  unfold billingItemSchema, itemBody. cbn [props_of]. simpl prop.
  rewrite (zStringMin1_accepts _ Hi), (zNumberMin_accepts _ _ Hq),
    (zNumberMin_accepts _ _ Hp).
  now destruct item.
Qed.

Lemma extraChargeSchema_valid (j : json) (charge : Form.ExtraCharge) :
  extraChargeSchema j = Some charge -> validCharge charge = true.
Proof.
  unfold extraChargeSchema, validCharge.
  destruct (props_of j) as [o |]; [| discriminate].
  destruct (zStringMin1 (prop "name" o)) as [n |] eqn:Hn; [| discriminate].
  destruct (zNumberMin 0 (prop "amount" o)) as [a |] eqn:Ha; [| discriminate].
  intros [= <-]. simpl.
  now rewrite (zStringMin1_nonEmpty _ _ Hn), (zNumberMin_from _ _ _ Ha).
Qed.

Lemma extraChargeSchema_accepts (charge : Form.ExtraCharge) :
  validCharge charge = true -> extraChargeSchema (chargeBody charge) = Some charge.
Proof.
  unfold validCharge. intros H.
  apply andb_prop in H. destruct H as [Hn Ha].
  unfold extraChargeSchema, chargeBody. cbn [props_of]. simpl prop.
  rewrite (zStringMin1_accepts _ Hn), (zNumberMin_accepts _ _ Ha).
  now destruct charge.
Qed.

Lemma parseAll_forallb {A B : Type} (schema : A -> option B) (valid : B -> bool) :
  (forall x y, schema x = Some y -> valid y = true) ->
  forall l ys, parseAll schema l = Some ys -> forallb valid ys = true.
Proof.
  intros Hvalid. induction l as [| x l IH]; intros ys.
  - now intros [= <-].
  - simpl. destruct (schema x) as [y |] eqn:Hx; [| discriminate].
    destruct (parseAll schema l) as [ys' |]; [| discriminate].
    intros [= <-]. simpl. now rewrite (Hvalid _ _ Hx), (IH ys').
Qed.

Lemma parseAll_accepts {A B : Type} (schema : A -> option B) (valid : B -> bool)
    (write : B -> A) :
  (forall y, valid y = true -> schema (write y) = Some y) ->
  forall ys, forallb valid ys = true -> parseAll schema (map write ys) = Some ys.
Proof.
  intros Hwrite. induction ys as [| y ys IH]; [reflexivity |].
  simpl. intros H. apply andb_prop in H. destruct H as [Hy Hys].
  now rewrite (Hwrite _ Hy), (IH Hys).
Qed.

(** What the schema returns meets its constraints. *)
Lemma extendedBillSchema_valid (body : json) (data : Form.ExtendedBill) :
  extendedBillSchema body = Some data -> validBill data = true.
Proof.
  intros H. unfold extendedBillSchema in H.
  destruct (props_of body) as [o |]; [| discriminate].
  destruct (zStringMin1 (prop "clientId" o)) as [c |] eqn:Hc; [| discriminate].
  destruct (zStringMin1 (prop "invoiceNumber" o)) as [n |] eqn:Hn; [| discriminate].
  destruct (zStringMin1 (prop "billDate" o)) as [d |] eqn:Hd; [| discriminate].
  destruct (zArrayMin1 billingItemSchema (prop "items" o)) as [lines |] eqn:Hl;
    [| discriminate].
  destruct (zNumberMinMax 0 100 (taxRatePreprocess (prop "taxRate" o)))
    as [t |] eqn:Ht; [| discriminate].
  destruct (extraChargesSchema (prop "extraCharges" o)) as [es |] eqn:He;
    [| discriminate].
  destruct (zStringOptional (prop "notes" o)) as [ns |]; [| discriminate].
  destruct (statusSchema (prop "status" o)) as [st |]; [| discriminate].
  injection H as <-. unfold validBill. simpl.
  rewrite (zStringMin1_nonEmpty _ _ Hc), (zStringMin1_nonEmpty _ _ Hn),
    (zStringMin1_nonEmpty _ _ Hd). simpl.
  assert (Hlines : negb (Nat.eqb (List.length lines) 0) = true
                   /\ forallb validItem lines = true).
  { unfold zArrayMin1, zArray in Hl.
    destruct (prop "items" o) as [[| | | | elems |] |]; try discriminate.
    destruct (parseAll billingItemSchema elems) as [[| y ys] |] eqn:Hp;
      try discriminate.
    injection Hl as <-. split; [reflexivity |].
    exact (parseAll_forallb _ _ billingItemSchema_valid _ _ Hp). }
  destruct Hlines as [-> ->]. simpl.
  assert (Hrate : numberFrom 0 t = true /\ negb (100 <? t) = true).
  { unfold zNumberMinMax in Ht.
    destruct (zNumberMin 0 (taxRatePreprocess (prop "taxRate" o)))
      as [x |] eqn:Hx; [| discriminate].
    destruct (100 <? x) eqn:Hhi; [discriminate |].
    injection Ht as <-. rewrite Hhi.
    split; [exact (zNumberMin_from _ _ _ Hx) | reflexivity]. }
  destruct Hrate as [-> ->]. simpl.
  unfold extraChargesSchema, zArray in He.
  destruct (prop "extraCharges" o) as [[| | | | elems |] |]; try discriminate.
  - exact (parseAll_forallb _ _ extraChargeSchema_valid _ _ He).
  - now injection He as <-.
Qed.

(** Data that meet the constraints are read back from the body that
    carries them. *)
Lemma extendedBillSchema_accepts (data : Form.ExtendedBill) :
  validBill data = true -> extendedBillSchema (bodyOf data) = Some data.
Proof.
  intros H. unfold validBill in H.
  apply andb_prop in H. destruct H as [H Hes].
  apply andb_prop in H. destruct H as [H Hhi].
  apply andb_prop in H. destruct H as [H Ht].
  apply andb_prop in H. destruct H as [H Hlines].
  apply andb_prop in H. destruct H as [H Hlen].
  apply andb_prop in H. destruct H as [H Hd].
  apply andb_prop in H. destruct H as [Hc Hn].
  destruct data as [c n d lines t es ns st]. simpl in *.
  unfold extendedBillSchema, bodyOf. cbn [props_of Form.clientId
    Form.invoiceNumber Form.billDate Form.items Form.taxRate
    Form.extraCharges Form.notes Form.status].
  simpl prop.
  rewrite (zStringMin1_accepts _ Hc), (zStringMin1_accepts _ Hn),
    (zStringMin1_accepts _ Hd).
  unfold zArrayMin1, zArray.
  rewrite (parseAll_accepts _ _ itemBody billingItemSchema_accepts _ Hlines).
  destruct lines as [| line lines]; [discriminate |].
  unfold zNumberMinMax, taxRatePreprocess.
  rewrite (zNumberMin_accepts _ _ Ht).
  apply negb_true_iff in Hhi. rewrite Hhi.
  unfold extraChargesSchema, zArray.
  rewrite (parseAll_accepts _ _ chargeBody extraChargeSchema_accepts _ Hes).
  destruct ns as [s |]; destruct st; reflexivity.
Qed.

(** X11: the data extendedBillSchema returns are exactly the data that meet
    its constraints: non-empty clientId, invoiceNumber and billDate; at
    least one item; every item with a non-empty inventoryId, a quantity that
    is a number not below 0.01 and a price that is a number not below 0;
    a tax rate that is a number from 0 to 100; every extra charge with a
    non-empty name and an amount that is a number not below 0.  No parsed
    number is NaN, and every such data is the parse of some body. *)
Theorem extendedBillSchema_range (data : Form.ExtendedBill) :
  (exists body, extendedBillSchema body = Some data) <-> validBill data = true.
Proof.
  split.
  - intros (body & H). exact (extendedBillSchema_valid body data H).
  - intros H. exists (bodyOf data). now apply extendedBillSchema_accepts.
Qed.

(** ** The sign of zero *)

(** A column gives back the number it was given, the negative zero as 0. *)
Lemma stored_spec (x : float) :
  Prim2SF (stored x)
  = match Prim2SF x with
    | S754_zero _ => S754_zero false
    | s => s
    end.
Proof.
  unfold stored. destruct (x =? 0) eqn:H; rewrite FloatAxioms.eqb_spec in H;
    replace (Prim2SF 0) with (S754_zero false) in * by (vm_compute; reflexivity);
    destruct (Prim2SF x) as [s | s | | s m e]; try reflexivity;
    try destruct s; discriminate.
Qed.

(** Two numbers that are stored alike are the same number, or two zeros. *)
Lemma stored_cases (x x' : float) :
  stored x = stored x' ->
  Prim2SF x = Prim2SF x'
  \/ exists s s', Prim2SF x = S754_zero s /\ Prim2SF x' = S754_zero s'.
Proof.
  intros H. apply (f_equal Prim2SF) in H. rewrite !stored_spec in H.
  destruct (Prim2SF x) as [s | s | | s m e];
    destruct (Prim2SF x') as [s' | s' | | s' m' e']; try discriminate;
    try (left; exact H).
  right. now exists s, s'.
Qed.

Lemma stored_idem (x : float) : stored (stored x) = stored x.
Proof.
  apply Prim2SF_inj. rewrite !stored_spec.
  now destruct (Prim2SF x).
Qed.

(** Sums, products and hundredths of numbers that are stored alike are
    stored alike. *)
Lemma stored_add (x x' y y' : float) :
  stored x = stored x' -> stored y = stored y' ->
  stored (x + y) = stored (x' + y').
Proof.
  intros Hx Hy. apply Prim2SF_inj. rewrite !stored_spec, !add_spec.
  destruct (stored_cases _ _ Hx) as [-> | (s & s' & -> & ->)];
    destruct (stored_cases _ _ Hy) as [-> | (t & t' & -> & ->)].
  - reflexivity.
  - destruct (Prim2SF x') as [[] | [] | | [] m e]; destruct t, t'; reflexivity.
  - destruct (Prim2SF y') as [[] | [] | | [] m e]; destruct s, s'; reflexivity.
  - destruct s, s', t, t'; reflexivity.
Qed.

Lemma stored_mul (x x' y y' : float) :
  stored x = stored x' -> stored y = stored y' ->
  stored (x * y) = stored (x' * y').
Proof.
  intros Hx Hy. apply Prim2SF_inj. rewrite !stored_spec, !mul_spec.
  destruct (stored_cases _ _ Hx) as [-> | (s & s' & -> & ->)];
    destruct (stored_cases _ _ Hy) as [-> | (t & t' & -> & ->)].
  - reflexivity.
  - destruct (Prim2SF x') as [[] | [] | | [] m e]; destruct t, t'; reflexivity.
  - destruct (Prim2SF y') as [[] | [] | | [] m e]; destruct s, s'; reflexivity.
  - destruct s, s', t, t'; reflexivity.
Qed.

Lemma stored_percent (x x' : float) :
  stored x = stored x' -> stored (x / 100) = stored (x' / 100).
Proof.
  intros Hx. apply Prim2SF_inj. rewrite !stored_spec, !div_spec.
  replace (Prim2SF 100) with (S754_finite false 7036874417766400 (-46))
    by (vm_compute; reflexivity).
  destruct (stored_cases _ _ Hx) as [-> | (s & s' & -> & ->)].
  - reflexivity.
  - destruct s, s'; reflexivity.
Qed.

(** X12: the bill createBill stores is consistent in itself: its tax is its
    subtotal times its tax rate over 100, and its total is its subtotal plus
    its tax plus its extra charges total, computed on the stored columns in
    the arithmetic of the handler.  The bill of the answer is the row added
    to the bills table. *)
Theorem createBill_stores_consistent_bill (session : option string)
    (body : json) (newId : string) (now : Z) (db db' : Db) (b : Bills.row)
    (j : list Write) :
  run (createBill isDate session body newId now) db = (Created b, db', j) ->
  Bills.tax b = stored (Bills.subtotal b * Bills.taxRate b / 100) /\
  Bills.total b
  = stored (Bills.subtotal b + Bills.tax b + Bills.extraChargesTotal b) /\
  bills db' = (bills db ++ [b])%list.
Proof.
  intros Hrun.
  destruct (POST_inv _ _ _ _ _ _ _ _ Hrun)
    as (u & data & ds & _ & _ & _ & -> & -> & _).
  destruct (postWrites_tables u newId now data ds db) as (Hb & _).
  cbn [newBillOf Bills.tax Bills.total Bills.subtotal Bills.taxRate
       Bills.extraChargesTotal Bills.userId].
  split; [| split; [| exact Hb]].
  - apply stored_percent, stored_mul; symmetry; apply stored_idem.
  - apply stored_add; [apply stored_add |]; symmetry; apply stored_idem.
Qed.

(** ** The totals are not negative *)

Lemma numberFrom_nonnegative (x : float) :
  numberFrom 0 x = true -> (0 <=? x) = true.
Proof.
  unfold numberFrom. intros H. apply andb_prop in H. destruct H as [Hnan Hlo].
  apply negb_true_iff in Hlo. revert Hnan Hlo.
  rewrite leb_spec, ltb_spec, FloatAxioms.eqb_spec.
  replace (Prim2SF 0) with (S754_zero false) by (vm_compute; reflexivity).
  destruct (Prim2SF x) as [[] | [] | | [] m e]; try discriminate; reflexivity.
Qed.

Lemma stored_nonnegative (x : float) :
  (0 <=? x) = true -> (0 <=? stored x) = true.
Proof. intros H. unfold stored. now destruct (x =? 0). Qed.

Lemma stored_finite (x : float) :
  (stored x <? infinity) = true -> (x <? infinity) = true.
Proof.
  rewrite !ltb_spec, stored_spec.
  replace (Prim2SF infinity) with (S754_infinity false) by (vm_compute; reflexivity).
  now destruct (Prim2SF x) as [[] | [] | | [] m e].
Qed.

(** A quantity that passed the stock check on a lot with a finite available
    quantity is finite. *)
Lemma checked_finite (a q : float) :
  (a <? infinity) = true -> (a <? q) = false -> (q =? q) = true ->
  (q <? infinity) = true.
Proof.
  rewrite !ltb_spec, FloatAxioms.eqb_spec.
  replace (Prim2SF infinity) with (S754_infinity false) by (vm_compute; reflexivity).
  destruct (Prim2SF q) as [[] | [] | | [] m e]; try reflexivity; try discriminate.
  congruence.
Qed.

(** A line total is not negative. *)
Lemma lineTotal_nonnegative (q p : float) :
  numberFrom 0.01 q = true -> (q <? infinity) = true ->
  numberFrom 0 p = true ->
  (0 <=? q * p) = true.
Proof.
  unfold numberFrom. intros Hq Hfin Hp.
  apply andb_prop in Hq. destruct Hq as [Hqn Hq].
  apply andb_prop in Hp. destruct Hp as [Hpn Hp].
  apply negb_true_iff in Hq, Hp. revert Hqn Hq Hfin Hpn Hp.
  rewrite leb_spec, !ltb_spec, !FloatAxioms.eqb_spec, mul_spec.
  replace (Prim2SF 0) with (S754_zero false) by (vm_compute; reflexivity).
  replace (Prim2SF 0.01) with (S754_finite false 5764607523034235 (-59))
    by (vm_compute; reflexivity).
  replace (Prim2SF infinity) with (S754_infinity false) by (vm_compute; reflexivity).
  destruct (Prim2SF q) as [[] | [] | | [] mq eq]; try discriminate;
    destruct (Prim2SF p) as [[] | [] | | [] mp ep]; try discriminate;
    try reflexivity.
  intros _ _ _ _ _. unfold SF64mul, SFmul. apply binary_round_aux_nonneg. lia.
Qed.

(** The product of two finite numbers that are not negative is not
    negative. *)
Lemma mul_nonnegative (x y : float) :
  (0 <=? x) = true -> (x <? infinity) = true ->
  (0 <=? y) = true -> (y <? infinity) = true ->
  (0 <=? x * y) = true.
Proof.
  rewrite !leb_spec, !ltb_spec, mul_spec.
  replace (Prim2SF 0) with (S754_zero false) by (vm_compute; reflexivity).
  replace (Prim2SF infinity) with (S754_infinity false) by (vm_compute; reflexivity).
  destruct (Prim2SF x) as [[] | [] | | [] mx ex]; try discriminate;
    destruct (Prim2SF y) as [[] | [] | | [] my ey]; try discriminate;
    try reflexivity.
  intros _ _ _ _. unfold SF64mul, SFmul. apply binary_round_aux_nonneg. lia.
Qed.

(** A hundredth of a number that is not negative is not negative. *)
Lemma percent_nonnegative (x : float) :
  (0 <=? x) = true -> (0 <=? x / 100) = true.
Proof.
  rewrite !leb_spec, div_spec.
  replace (Prim2SF 0) with (S754_zero false) by (vm_compute; reflexivity).
  replace (Prim2SF 100) with (S754_finite false 7036874417766400 (-46))
    by (vm_compute; reflexivity).
  destruct (Prim2SF x) as [[] | [] | | [] mx ex]; try discriminate;
    try reflexivity.
  intros _. unfold SF64div, SFdiv, SFdiv_core_binary.
  set (m' := match _ with Z0 => Z.pos mx | Z.pos _ => _ | Z.neg _ => 0%Z end).
  assert (Hm' : (0 <= m')%Z).
  { subst m'. destruct (_ - _ - _)%Z; try lia. apply Z.shiftl_nonneg. lia. }
  pose proof (Z.div_eucl_eq m' 7036874417766400%Z ltac:(lia)) as Heq.
  pose proof (Z.mod_pos_bound m' 7036874417766400%Z ltac:(lia)) as Hmod.
  unfold Z.modulo in Hmod.
  destruct (Z.div_eucl m' 7036874417766400) as [q r].
  apply binary_round_aux_nonneg. nia.
Qed.

Lemma sumLines_nonnegative (db : Db) (items : list Form.BillingItem) :
  finiteStock db = true ->
  forallb validItem items = true ->
  Forall (lineOk db) items ->
  forall subtotal,
    (0 <=? subtotal) = true -> (0 <=? sumLines items subtotal) = true.
Proof.
  intros Hstock. induction items as [| item rest IH]; intros Hvalid Hok subtotal Hs.
  - exact Hs.
  - simpl in Hvalid. apply andb_prop in Hvalid. destruct Hvalid as [Hitem Hrest].
    inversion Hok as [| ? ? (row & Hsel & Hge) Hok']; subst.
    unfold validItem in Hitem.
    apply andb_prop in Hitem. destruct Hitem as [Hitem Hp].
    apply andb_prop in Hitem. destruct Hitem as [_ Hq].
    apply (IH Hrest Hok'). apply add_nonnegative; [exact Hs |].
    apply lineTotal_nonnegative; [exact Hq | | exact Hp].
    apply (checked_finite (Inventory.availableQuantity row)); [| exact Hge |].
    + unfold finiteStock in Hstock. rewrite forallb_forall in Hstock.
      apply Hstock. unfold selectInventory in Hsel.
      now apply find_some in Hsel.
    + unfold numberFrom in Hq. apply andb_prop in Hq. tauto.
Qed.

Lemma sumCharges_nonnegative (charges : list Form.ExtraCharge) :
  forallb validCharge charges = true ->
  forall sum,
    (0 <=? sum) = true ->
    (0 <=? fold_left (fun sum charge => sum + Form.amount charge) charges sum) = true.
Proof.
  induction charges as [| c cs IH]; intros Hvalid sum Hs; [exact Hs |].
  simpl in Hvalid. apply andb_prop in Hvalid. destruct Hvalid as [Hc Hcs].
  unfold validCharge in Hc. apply andb_prop in Hc. destruct Hc as [_ Ha].
  apply (IH Hcs). apply add_nonnegative; [exact Hs |].
  now apply numberFrom_nonnegative.
Qed.

(** X13: on an inventory whose available quantities are all finite, the
    bill createBill stores has a subtotal, a tax rate and an extra charges
    total that are numbers not below 0; when the subtotal is finite, so are
    the tax and the total.  (A subtotal that overflowed to infinity with a
    tax rate of 0 gives the tax NaN.)  The bill of the answer is the row
    added to the bills table. *)
Theorem createBill_totals_nonnegative (session : option string) (body : json)
    (newId : string) (now : Z) (db db' : Db) (b : Bills.row) (j : list Write) :
  finiteStock db = true ->
  run (createBill isDate session body newId now) db = (Created b, db', j) ->
  (0 <=? Bills.subtotal b) = true /\
  (0 <=? Bills.taxRate b) = true /\
  (0 <=? Bills.extraChargesTotal b) = true /\
  ((Bills.subtotal b <? infinity) = true ->
   (0 <=? Bills.tax b) = true /\ (0 <=? Bills.total b) = true) /\
  bills db' = (bills db ++ [b])%list.
Proof.
  intros Hstock Hrun.
  destruct (POST_inv _ _ _ _ _ _ _ _ Hrun)
    as (u & data & ds & _ & Hparse & Hcheck & -> & -> & _).
  destruct (postWrites_tables u newId now data ds db) as (Hb & _).
  pose proof (extendedBillSchema_valid _ _ Hparse) as Hvalid.
  unfold validBill in Hvalid.
  apply andb_prop in Hvalid. destruct Hvalid as [Hvalid Hes].
  apply andb_prop in Hvalid. destruct Hvalid as [Hvalid Hhi].
  apply andb_prop in Hvalid. destruct Hvalid as [Hvalid Ht].
  apply andb_prop in Hvalid. destruct Hvalid as [_ Hlines].
  destruct (validateItems_passes _ _ _ _ _ _ Hcheck)
    as (_ & rows & _ & Hlen & Hall).
  pose proof (passes_lineOk db _ rows Hlen Hall) as Hok.
  assert (Hs : (0 <=? sumLines (Form.items data) 0) = true)
    by (apply (sumLines_nonnegative db); auto).
  assert (He : (0 <=? sumCharges (Form.extraCharges data)) = true)
    by (apply sumCharges_nonnegative; auto).
  pose proof (numberFrom_nonnegative _ Ht) as Hr.
  cbn [newBillOf Bills.tax Bills.total Bills.subtotal Bills.taxRate
       Bills.extraChargesTotal].
  split; [now apply stored_nonnegative |].
  split; [now apply stored_nonnegative |].
  split; [now apply stored_nonnegative |].
  split; [| exact Hb].
  intros Hfin. apply stored_finite in Hfin.
  assert (Htax : (0 <=? sumLines (Form.items data) 0 * Form.taxRate data / 100) = true).
  { apply percent_nonnegative, mul_nonnegative; auto.
    apply negb_true_iff in Hhi. revert Hhi Hr.
    rewrite leb_spec, !ltb_spec.
    replace (Prim2SF 0) with (S754_zero false) by (vm_compute; reflexivity).
    replace (Prim2SF 100) with (S754_finite false 7036874417766400 (-46))
      by (vm_compute; reflexivity).
    replace (Prim2SF infinity) with (S754_infinity false) by (vm_compute; reflexivity).
    now destruct (Prim2SF (Form.taxRate data)) as [[] | [] | | [] m e]. }
  split; [now apply stored_nonnegative |].
  apply stored_nonnegative, add_nonnegative; [| exact He].
  now apply add_nonnegative.
Qed.

(** ** The totals the billing page previews *)

(** On a number, [x || 0] is what a column makes of [x]. *)
Lemma orZero_stored (x : float) :
  (x =? x) = true -> orZero x = stored x.
Proof. intros H. unfold orZero, stored. now rewrite H, orb_false_r. Qed.

Lemma preview_lines (items : list Form.BillingItem) :
  forallb validItem items = true ->
  forall sum sum',
    stored sum = stored sum' ->
    stored (fold_left
              (fun sum item =>
                 sum + orZero (Form.quantity item) * orZero (Form.sellingPrice item))
              items sum)
    = stored (sumLines items sum').
Proof.
  induction items as [| item rest IH]; intros Hvalid sum sum' Hsum; [exact Hsum |].
  simpl in Hvalid. apply andb_prop in Hvalid. destruct Hvalid as [Hitem Hrest].
  unfold validItem, numberFrom in Hitem.
  apply andb_prop in Hitem. destruct Hitem as [Hitem Hp].
  apply andb_prop in Hitem. destruct Hitem as [_ Hq].
  apply andb_prop in Hp. destruct Hp as [Hp _].
  apply andb_prop in Hq. destruct Hq as [Hq _].
  simpl. apply (IH Hrest). unfold lineTotal.
  rewrite (orZero_stored _ Hq), (orZero_stored _ Hp).
  apply stored_add; [exact Hsum |].
  apply stored_mul; apply stored_idem.
Qed.

Lemma preview_charges (charges : list Form.ExtraCharge) :
  forallb validCharge charges = true ->
  forall sum sum',
    stored sum = stored sum' ->
    stored (fold_left (fun sum charge => sum + orZero (Form.amount charge))
              charges sum)
    = stored (fold_left (fun sum charge => sum + Form.amount charge) charges sum').
Proof.
  induction charges as [| c cs IH]; intros Hvalid sum sum' Hsum; [exact Hsum |].
  simpl in Hvalid. apply andb_prop in Hvalid. destruct Hvalid as [Hc Hcs].
  unfold validCharge, numberFrom in Hc.
  apply andb_prop in Hc. destruct Hc as [_ Ha].
  apply andb_prop in Ha. destruct Ha as [Ha _].
  simpl. apply (IH Hcs). rewrite (orZero_stored _ Ha).
  apply stored_add; [exact Hsum | apply stored_idem].
Qed.

(** X14: what the bill dialog previews is what the server stores.  When the
    server reads the data the page submits ([formattedData], with the tax
    rate [data.taxRate || 0]) and creates the bill, the stored subtotal,
    extra charges total, tax and total are the subtotal, extra charges
    total, tax and grand total the dialog computed from the form values,
    as a column holds them.  The bill of the answer is the row added to the
    bills table. *)
Theorem billing_preview_is_stored (data : BillingFormData.t)
    (session : option string) (body : json) (newId : string) (now : Z)
    (db db' : Db) (b : Bills.row) (j : list Write) :
  extendedBillSchema body = Some (formattedData data) ->
  run (createBill isDate session body newId now) db = (Created b, db', j) ->
  Bills.subtotal b = stored (Preview.subtotal data) /\
  Bills.extraChargesTotal b = stored (Preview.extraChargesTotal data) /\
  Bills.taxRate b = stored (taxRateOrZero (BillingFormData.taxRate data)) /\
  Bills.tax b = stored (Preview.tax data) /\
  Bills.total b = stored (Preview.grandTotal data) /\
  bills db' = (bills db ++ [b])%list.
Proof.
  intros Hparse Hrun.
  destruct (POST_inv _ _ _ _ _ _ _ _ Hrun)
    as (u & data' & ds & _ & Hparse' & _ & -> & -> & _).
  rewrite Hparse in Hparse'. injection Hparse' as <-.
  destruct (postWrites_tables u newId now (formattedData data) ds db)
    as (Hb & _).
  pose proof (extendedBillSchema_valid _ _ Hparse) as Hvalid.
  unfold validBill in Hvalid.
  apply andb_prop in Hvalid. destruct Hvalid as [Hvalid Hes].
  apply andb_prop in Hvalid. destruct Hvalid as [Hvalid _].
  apply andb_prop in Hvalid. destruct Hvalid as [Hvalid _].
  apply andb_prop in Hvalid. destruct Hvalid as [_ Hlines].
  cbn [formattedData Form.items Form.extraCharges] in Hlines, Hes.
  assert (Hs : stored (Preview.subtotal data)
               = stored (sumLines (BillingFormData.items data) 0))
    by (apply preview_lines; auto).
  assert (He : stored (Preview.extraChargesTotal data)
               = stored (sumCharges (chargesOrNone (BillingFormData.extraCharges data))))
    by (apply preview_charges; auto).
  assert (Ht : stored (Preview.tax data)
               = stored (sumLines (BillingFormData.items data) 0
                         * taxRateOrZero (BillingFormData.taxRate data) / 100))
    by (apply stored_percent, stored_mul; auto).
  cbn [newBillOf formattedData Form.items Form.extraCharges Form.taxRate
       Bills.tax Bills.total Bills.subtotal Bills.taxRate
       Bills.extraChargesTotal].
  split; [auto |]. split; [auto |]. split; [reflexivity |].
  split; [auto |]. split; [| exact Hb].
  unfold Preview.grandTotal. symmetry.
  apply stored_add; [apply stored_add |]; auto.
Qed.

(** ** The writes of bill creation, in order *)

Lemma entries_items (newId : string) (items : list Form.BillingItem) :
  forall rows,
    List.length rows = List.length items ->
    map (billItemOf newId)
      (map (fun ir => itemDataOf (fst ir) (snd ir)) (combine items rows))
    = map (lineItem newId) items.
Proof.
  induction items as [| item rest IH]; intros [| row rows] Hlen;
    try discriminate; [reflexivity |].
  simpl. f_equal. apply IH. now injection Hlen.
Qed.

(** X15: createBill writes in this order: the bill header, then all the
    bill items (one per line, in the order of the request), then the extra
    charges if there are any, then one inventory update per line, in the
    order of the request, each on the lot of its line.  The tables it
    leaves are those writes applied to the tables it found. *)
Theorem createBill_journal (session : option string) (body : json)
    (newId : string) (now : Z) (db db' : Db) (b : Bills.row) (j : list Write) :
  run (createBill isDate session body newId now) db = (Created b, db', j) ->
  exists data updates,
    extendedBillSchema body = Some data /\
    j = (InsertBill b
         :: InsertBillItems (map (lineItem newId) (Form.items data))
         :: chargeWrites newId (Form.extraCharges data) ++ updates)%list /\
    forallb isUpdateInventory updates = true /\
    map lotOfWrite updates
    = map (fun item => Some (Form.inventoryId item)) (Form.items data) /\
    db' = applyAll j db.
Proof.
  intros Hrun.
  destruct (POST_inv _ _ _ _ _ _ _ _ Hrun)
    as (u & data & ds & _ & Hparse & Hcheck & -> & -> & ->).
  destruct (validateItems_passes _ _ _ _ _ _ Hcheck)
    as (_ & rows & -> & Hlen & _).
  cbn [app].
  exists data, (reduceWrites (map (fun ir => itemDataOf (fst ir) (snd ir))
                                (combine (Form.items data) rows)) now).
  split; [exact Hparse |].
  split; [unfold postWrites; now rewrite (entries_items newId _ rows Hlen) |].
  split; [apply reduceWrites_updates |].
  split; [| reflexivity].
  unfold reduceWrites. rewrite !map_map. cbn [lotOfWrite itemDataOf ItemData.inventoryId].
  rewrite <- (combine_fst (Form.items data) rows Hlen) at 2.
  now rewrite map_map.
Qed.

(** ** A bill created and deleted again *)

Lemma released_entries (newId l : string) (items : list Form.BillingItem) :
  forall rows a,
    List.length rows = List.length items ->
    fold_left released
      (filter (onLot l)
         (map (billItemOf newId)
            (map (fun ir => itemDataOf (fst ir) (snd ir)) (combine items rows))))
      a
    = fold_left giveBack (linesOn l items) a.
Proof.
  induction items as [| item rest IH]; intros [| row rows] a Hlen;
    try discriminate; [reflexivity |].
  assert (Hlen' : List.length rows = List.length rest) by now injection Hlen.
  cbn [combine map filter linesOn fst snd]. unfold onLot at 1.
  cbn [billItemOf itemDataOf BillItems.inventoryId ItemData.inventoryId].
  destruct (Form.inventoryId item =? l)%string.
  - exact (IH rows (giveBack a item) Hlen').
  - exact (IH rows a Hlen').
Qed.

(** X16: a bill created under an id not in use and deleted again leaves
    the bill tables as they were, and every lot with what createBill left
    it (its available quantity minus the quantity of the last line on it)
    plus the quantity of each line on it, one after the other.  With one
    line per lot that is (a - q) + q; with several lines on a lot more is
    given back than was taken. *)
Theorem create_then_delete (userId : string) (body : json) (newId : string)
    (now now' : Z) (db db1 : Db) (b : Bills.row) (j1 : list Write) :
  freshId newId db = true ->
  run (createBill isDate (Some userId) body newId now) db = (Created b, db1, j1) ->
  exists data db2 j2,
    extendedBillSchema body = Some data /\
    run (deleteBill (Some userId) newId now') db1 = (Deleted, db2, j2) /\
    bills db2 = bills db /\
    billItems db2 = billItems db /\
    billExtraCharges db2 = billExtraCharges db /\
    forall l,
      availableOf l db2
      = option_map
          (fun a => fold_left giveBack (linesOn l (Form.items data))
                      (reserved l (Form.items data) a))
          (availableOf l db).
Proof.
  intros Hfresh Hrun. apply POST_inv in Hrun.
  destruct Hrun as (u & data & ds & [= <-] & Hparse & Hcheck & -> & -> & ->).
  exists data.
  destruct (postWrites_tables userId newId now data ds db) as (Hb1 & Hi1 & Hc1 & Hv1).
  cbv zeta in Hb1, Hi1, Hc1, Hv1.
  set (db1 := applyAll (postWrites userId newId now data ds) db) in *.
  unfold freshId in Hfresh.
  apply andb_prop in Hfresh. destruct Hfresh as [Hfresh Hfc].
  apply andb_prop in Hfresh. destruct Hfresh as [Hfb Hfi].
  assert (Hown : forallb (fun x => negb (ownBill newId userId x)) (bills db) = true).
  { revert Hfb. apply forallb_weaken. intros x Hx. unfold ownBill.
    apply negb_true_iff in Hx. now rewrite Hx. }
  assert (Hsel : selectBill newId userId db1
                 = Some (newBillOf userId newId now data)).
  { unfold selectBill. rewrite Hb1, (selectBill_new _ _ userId _ _ _ Hfb).
    now rewrite String.eqb_refl. }
  unfold deleteBill. rewrite (DELETE_deleted _ _ now' _ _ Hsel).
  eexists. eexists. split; [exact Hparse |]. split; [reflexivity |].
  unfold deleteWrites. rewrite applyAll_app.
  set (items1 := selectBillItems newId db1).
  destruct (updates_frame _ (restoreWrites_updates items1 now' db1) db1)
    as (HbX & HiX & HcX & _).
  pose proof (restoreWrites_available items1 now' db1) as HvX.
  set (X := applyAll (restoreWrites items1 now' db1) db1) in *.
  unfold applyAll at 1 2 3 4. cbn [fold_left apply].
  cbn [bills billItems billExtraCharges inventory].
  rewrite HbX, HiX, HcX, Hb1, Hi1, Hc1, !filter_app.
  rewrite (filter_all _ _ Hown), (filter_all _ _ Hfi), (filter_all _ _ Hfc).
  rewrite (proj2 (filter_new_items newId ds)), filter_new_charges, !app_nil_r.
  repeat split.
  - simpl. unfold ownBill. simpl. rewrite !String.eqb_refl. simpl.
    now rewrite app_nil_r.
  - intros l.
    transitivity (availableOf l X); [reflexivity |].
    rewrite HvX. subst items1. unfold selectBillItems.
    rewrite Hi1, filter_app, (filter_none _ _ Hfi),
      (proj1 (filter_new_items newId ds)). cbn [app].
    rewrite (availableOf_inventory l db1 _ Hv1), reduceWrites_available_last.
    destruct (validateItems_passes _ _ _ _ _ _ Hcheck)
      as (_ & rows & Hds & Hlen & Hall).
    cbn [app tables] in Hds, Hall. subst ds.
    pose proof (entries_find_last db l (Form.items data) rows Hlen Hall) as Hlast.
    unfold reserved.
    destruct (lastLineOn l (Form.items data)) as [item |].
    + destruct Hlast as (row & -> & ->). cbn [option_map].
      now rewrite released_entries.
    + rewrite Hlast. destruct (availableOf l db) as [a |]; [| reflexivity].
      cbn [option_map]. now rewrite released_entries.
Qed.

(** ** The dialog's schema and the server's *)

Lemma orZero_rate (t : float) :
  numberFrom 0 t = true -> negb (100 <? t) = true ->
  numberFrom 0 (orZero t) = true /\ negb (100 <? orZero t) = true.
Proof.
  intros Ht Hhi. unfold numberFrom in Ht.
  pose proof Ht as Ht'. apply andb_prop in Ht'. destruct Ht' as [Hnan _].
  unfold orZero. rewrite Hnan, orb_false_r.
  destruct (t =? 0); [split; reflexivity | now split].
Qed.

Lemma billingFormSchema_valid (values : json) (data : BillingFormData.t) :
  billingFormSchema values = Some data -> validBill (formattedData data) = true.
Proof.
  intros H.
  unfold billingFormSchema in H.
    destruct (props_of values) as [o |]; [| discriminate].
    destruct (zStringMin1 (prop "clientId" o)) as [c |] eqn:Hc; [| discriminate].
    destruct (zStringMin1 (prop "billDate" o)) as [d |] eqn:Hd; [| discriminate].
    destruct (zStringMin1 (prop "invoiceNumber" o)) as [n |] eqn:Hn; [| discriminate].
    destruct (zArrayMin1 billingItemSchema (prop "items" o)) as [lines |] eqn:Hl;
      [| discriminate].
    destruct (zOptional (zNumberMinMax 0 100) (prop "taxRate" o)) as [t |] eqn:Ht;
      [| discriminate].
    destruct (zOptional (zArray extraChargeSchema) (prop "extraCharges" o))
      as [es |] eqn:He; [| discriminate].
    destruct (zStringOptional (prop "notes" o)) as [ns |]; [| discriminate].
    destruct (statusEnum (prop "status" o)) as [st |]; [| discriminate].
    destruct (zStringMin1 (prop "dueDate" o)) as [dd |]; [| discriminate].
    injection H as <-. unfold validBill, formattedData. simpl.
    rewrite (zStringMin1_nonEmpty _ _ Hc), (zStringMin1_nonEmpty _ _ Hn),
      (zStringMin1_nonEmpty _ _ Hd). simpl.
    assert (Hlines : negb (Nat.eqb (List.length lines) 0) = true
                     /\ forallb validItem lines = true).
    { unfold zArrayMin1, zArray in Hl.
      destruct (prop "items" o) as [[| | | | elems |] |]; try discriminate.
      destruct (parseAll billingItemSchema elems) as [[| y ys] |] eqn:Hp;
        try discriminate.
      injection Hl as <-. split; [reflexivity |].
      exact (parseAll_forallb _ _ billingItemSchema_valid _ _ Hp). }
    destruct Hlines as [-> ->]. simpl.
    assert (Hrate : numberFrom 0 (taxRateOrZero t) = true
                    /\ negb (100 <? taxRateOrZero t) = true).
    { unfold zOptional in Ht.
      destruct (prop "taxRate" o) as [v |]; [| injection Ht as <-; now split].
      unfold zNumberMinMax in Ht.
      destruct (zNumberMin 0 (Some v)) as [x |] eqn:Hx; [| discriminate].
      destruct (100 <? x) eqn:Hhi; [discriminate |].
      injection Ht as <-. cbn [taxRateOrZero].
      apply orZero_rate; [exact (zNumberMin_from _ _ _ Hx) | now rewrite Hhi]. }
    destruct Hrate as [-> ->]. simpl.
    unfold zOptional, zArray in He.
    destruct (prop "extraCharges" o) as [[| | | | elems |] |]; try discriminate.
    - destruct (parseAll extraChargeSchema elems) as [ys |] eqn:Hp;
        [| discriminate].
      injection He as <-. simpl.
      exact (parseAll_forallb _ _ extraChargeSchema_valid _ _ Hp).
    - now injection He as <-.
Qed.

Lemma zero_nonpositive (x : float) : (x =? 0) = true -> (x <=? 0) = true.
Proof.
  rewrite leb_spec, FloatAxioms.eqb_spec.
  replace (Prim2SF 0) with (S754_zero false) by (vm_compute; reflexivity).
  destruct (Prim2SF x) as [s | s | | s m e]; try discriminate;
    destruct s; try discriminate; reflexivity.
Qed.

Lemma stored_quantity (q : float) : numberFrom 0.01 q = true -> stored q = q.
Proof.
  unfold numberFrom, stored. intros H.
  apply andb_prop in H. destruct H as [_ Hlo]. apply negb_true_iff in Hlo.
  destruct (q =? 0) eqn:Hz; [| reflexivity].
  now rewrite (nonpositive_below_min _ (zero_nonpositive _ Hz)) in Hlo.
Qed.

Lemma stored_numberFrom (x : float) :
  numberFrom 0 x = true -> numberFrom 0 (stored x) = true.
Proof.
  unfold numberFrom. rewrite !ltb_spec, !FloatAxioms.eqb_spec, stored_spec.
  replace (Prim2SF 0) with (S754_zero false) by (vm_compute; reflexivity).
  destruct (Prim2SF x) as [s | s | | s m e]; try (intros H; exact H);
    destruct s; intros H; try exact H; reflexivity.
Qed.

Lemma stored_below (hi x : float) : (hi <? stored x) = (hi <? x).
Proof.
  rewrite !ltb_spec, stored_spec.
  destruct (Prim2SF x) as [s | s | | s m e]; reflexivity.
Qed.

Lemma rate_finite (t : float) :
  numberFrom 0 t = true -> negb (100 <? t) = true -> isFinite t = true.
Proof.
  unfold numberFrom, isFinite. rewrite !ltb_spec, FloatAxioms.eqb_spec.
  replace (Prim2SF 0) with (S754_zero false) by (vm_compute; reflexivity).
  replace (Prim2SF 100) with (S754_finite false 7036874417766400 (-46))
    by (vm_compute; reflexivity).
  replace (Prim2SF infinity) with (S754_infinity false)
    by (vm_compute; reflexivity).
  replace (Prim2SF neg_infinity) with (S754_infinity true)
    by (vm_compute; reflexivity).
  destruct (Prim2SF t) as [s | s | | s m e]; try discriminate;
    destruct s; try discriminate; reflexivity.
Qed.

Lemma sentNumber_read (lo x : float) :
  isFinite x = true -> numberFrom lo (stored x) = true ->
  zNumberMin lo (Some (sentNumber x)) = Some (stored x).
Proof.
  intros Hfin H. unfold sentNumber. rewrite Hfin. fold (stored x).
  unfold numberFrom in H. apply andb_prop in H. destruct H as [Hnan Hlo].
  apply negb_true_iff in Hlo.
  unfold zNumberMin, zNumber. now rewrite Hnan, Hlo.
Qed.

Lemma sentNumber_null (lo x : float) :
  isFinite x = false -> zNumberMin lo (Some (sentNumber x)) = None.
Proof.
  intros Hfin. unfold sentNumber. now rewrite Hfin.
Qed.

Lemma parseAll_map {A B C : Type} (schema : A -> option B) (valid : C -> bool)
    (write : C -> A) (read : C -> B) :
  (forall y, valid y = true -> schema (write y) = Some (read y)) ->
  forall ys, forallb valid ys = true ->
  parseAll schema (map write ys) = Some (map read ys).
Proof.
  intros Hwrite. induction ys as [| y ys IH]; [reflexivity |].
  simpl. intros H. apply andb_prop in H. destruct H as [Hy Hys].
  now rewrite (Hwrite y Hy), (IH Hys).
Qed.

Lemma forallb_andb {A : Type} (f g : A -> bool) (l : list A) :
  forallb f l = true -> forallb g l = true ->
  forallb (fun x => f x && g x) l = true.
Proof.
  induction l as [| x l IH]; [reflexivity |]. simpl. intros Hf Hg.
  apply andb_prop in Hf. destruct Hf as [-> Hf].
  apply andb_prop in Hg. destruct Hg as [-> Hg]. now rewrite IH.
Qed.

Lemma forallb_false {A : Type} (f : A -> bool) (l : list A) :
  forallb f l = false -> exists x, In x l /\ f x = false.
Proof.
  induction l as [| x l IH]; [discriminate |]. simpl. intros H.
  destruct (f x) eqn:Hx.
  - destruct (IH H) as (y & Hin & Hy). exists y. split; [now right | exact Hy].
  - exists x. split; [now left | exact Hx].
Qed.

Lemma sentItem_read (item : Form.BillingItem) :
  validItem item && finiteItem item = true ->
  billingItemSchema (sentItem item) = Some (readItem item).
Proof.
  intros H. apply andb_prop in H. destruct H as [Hvalid Hfin].
  unfold validItem in Hvalid.
  apply andb_prop in Hvalid. destruct Hvalid as [Hvalid Hp].
  apply andb_prop in Hvalid. destruct Hvalid as [Hi Hq].
  unfold finiteItem in Hfin. apply andb_prop in Hfin. destruct Hfin as [Hfq Hfp].
  unfold billingItemSchema, sentItem, readItem. cbn [props_of]. simpl prop.
  rewrite (zStringMin1_accepts _ Hi).
  rewrite (sentNumber_read _ _ Hfq)
    by (now rewrite (stored_quantity _ Hq)).
  now rewrite (sentNumber_read _ _ Hfp (stored_numberFrom _ Hp)).
Qed.

Lemma sentItem_null (item : Form.BillingItem) :
  finiteItem item = false -> billingItemSchema (sentItem item) = None.
Proof.
  intros H. unfold finiteItem in H. apply andb_false_iff in H.
  unfold billingItemSchema, sentItem. cbn [props_of]. simpl prop.
  destruct H as [H | H]; rewrite (sentNumber_null _ _ H);
    repeat match goal with
           | |- match ?x with _ => _ end = None => destruct x; try reflexivity
           end.
Qed.

Lemma sentCharge_read (charge : Form.ExtraCharge) :
  validCharge charge && finiteCharge charge = true ->
  extraChargeSchema (sentCharge charge) = Some (readCharge charge).
Proof.
  intros H. apply andb_prop in H. destruct H as [Hvalid Hfin].
  unfold validCharge in Hvalid. apply andb_prop in Hvalid.
  destruct Hvalid as [Hn Ha].
  unfold extraChargeSchema, sentCharge, readCharge. cbn [props_of]. simpl prop.
  rewrite (zStringMin1_accepts _ Hn).
  now rewrite (sentNumber_read _ _ Hfin (stored_numberFrom _ Ha)).
Qed.

Lemma sentCharge_null (charge : Form.ExtraCharge) :
  finiteCharge charge = false -> extraChargeSchema (sentCharge charge) = None.
Proof.
  intros H. unfold extraChargeSchema, sentCharge. cbn [props_of]. simpl prop.
  rewrite (sentNumber_null _ _ H). now destruct (zStringMin1 _).
Qed.

Lemma extendedBillSchema_extraCharges (o : list (string * json)) :
  extraChargesSchema (prop "extraCharges" o) = None ->
  extendedBillSchema (JObj o) = None.
Proof.
  intros H. unfold extendedBillSchema; simpl. rewrite H.
  repeat match goal with
         | |- match ?x with _ => _ end = None => destruct x; try reflexivity
         end.
Qed.

(** X17: a form the dialog's schema accepts, sent as JSON.  When its
    quantities, prices and amounts are finite, the server's schema accepts
    the request and reads the data the page submits ([formattedData], a
    negative zero read as 0), which meet every constraint of
    extendedBillSchema.  When one of them is infinite, it is sent as null
    and the server's schema rejects the request. *)
Theorem billingForm_passes_server_schema (values : json)
    (data : BillingFormData.t) :
  billingFormSchema values = Some data ->
  (finiteForm data = true ->
   extendedBillSchema (requestBody data) = Some (readBack data) /\
   validBill (readBack data) = true) /\
  (finiteForm data = false -> extendedBillSchema (requestBody data) = None).
Proof.
  intros H. pose proof (billingFormSchema_valid _ _ H) as Hvalid.
  unfold validBill, formattedData in Hvalid. cbn [Form.clientId
    Form.invoiceNumber Form.billDate Form.items Form.taxRate Form.extraCharges]
    in Hvalid.
  apply andb_prop in Hvalid. destruct Hvalid as [Hvalid Hes].
  apply andb_prop in Hvalid. destruct Hvalid as [Hvalid Hhi].
  apply andb_prop in Hvalid. destruct Hvalid as [Hvalid Ht].
  apply andb_prop in Hvalid. destruct Hvalid as [Hvalid Hlines].
  apply andb_prop in Hvalid. destruct Hvalid as [Hvalid Hlen].
  apply andb_prop in Hvalid. destruct Hvalid as [Hvalid Hd].
  apply andb_prop in Hvalid. destruct Hvalid as [Hc Hn].
  split.
  - intros Hfin. unfold finiteForm in Hfin.
    apply andb_prop in Hfin. destruct Hfin as [Hfl Hfe].
    assert (Hread : extendedBillSchema (requestBody data) = Some (readBack data)).
    { unfold extendedBillSchema, requestBody, readBack. cbn [props_of].
      destruct (BillingFormData.notes data) as [ns |]; simpl prop;
        rewrite (zStringMin1_accepts _ Hc), (zStringMin1_accepts _ Hn),
          (zStringMin1_accepts _ Hd);
        unfold extraChargesSchema; unfold zArrayMin1, zArray;
        rewrite (parseAll_map _ _ _ _ sentItem_read _
                   (forallb_andb _ _ _ Hlines Hfl));
        rewrite (parseAll_map _ _ _ _ sentCharge_read _
                   (forallb_andb _ _ _ Hes Hfe));
        unfold sentNumber; rewrite (rate_finite _ Ht Hhi);
        fold (stored (taxRateOrZero (BillingFormData.taxRate data)));
        cbn [taxRatePreprocess]; unfold zNumberMinMax;
        pose proof (stored_numberFrom _ Ht) as Ht';
        unfold numberFrom in Ht'; apply andb_prop in Ht';
        destruct Ht' as [Hnan Hlo]; apply negb_true_iff in Hlo;
        unfold zNumberMin, zNumber; rewrite Hnan, Hlo, stored_below;
        apply negb_true_iff in Hhi; rewrite Hhi;
        destruct (BillingFormData.items data) as [| line lines];
        try discriminate; simpl;
        destruct (BillingFormData.status data); reflexivity. }
    split; [exact Hread | exact (extendedBillSchema_valid _ _ Hread)].
  - intros Hfin. unfold finiteForm in Hfin. apply andb_false_iff in Hfin.
    unfold requestBody.
    destruct Hfin as [Hfin | Hfin];
      apply forallb_false in Hfin; destruct Hfin as (x & Hin & Hx).
    + apply extendedBillSchema_items. simpl prop. unfold zArrayMin1, zArray.
      now rewrite (parseAll_In _ _ (sentItem x) (in_map _ _ _ Hin)
                     (sentItem_null _ Hx)).
    + apply extendedBillSchema_extraCharges.
      destruct (BillingFormData.notes data); simpl prop;
        unfold extraChargesSchema, zArray;
        now rewrite (parseAll_In _ _ (sentCharge x) (in_map _ _ _ Hin)
                       (sentCharge_null _ Hx)).
Qed.

(** ** Bills are independent *)

Lemma find_map_same {A : Type} (f : A -> bool) (g : A -> A) (l : list A) :
  (forall x, f (g x) = f x) -> (forall x, f x = true -> g x = x) ->
  find f (map g l) = find f l.
Proof.
  intros Hf Hg. induction l as [| x l IH]; [reflexivity |].
  simpl. rewrite Hf. destruct (f x) eqn:Hx; [| exact IH].
  now rewrite (Hg x Hx).
Qed.

Lemma find_filter_same {A : Type} (f p : A -> bool) (l : list A) :
  (forall x, f x = true -> p x = true) ->
  find f (filter p l) = find f l.
Proof.
  intros Hp. induction l as [| x l IH]; [reflexivity |].
  simpl. destruct (p x) eqn:Hpx; simpl.
  - now rewrite IH.
  - destruct (f x) eqn:Hx; [| exact IH].
    rewrite (Hp x Hx) in Hpx. discriminate.
Qed.

Lemma filter_filter_same {A : Type} (f p : A -> bool) (l : list A) :
  (forall x, f x = true -> p x = true) ->
  filter f (filter p l) = filter f l.
Proof.
  intros Hp. induction l as [| x l IH]; [reflexivity |].
  simpl. destruct (p x) eqn:Hpx; simpl.
  - now rewrite IH.
  - destruct (f x) eqn:Hx; [| exact IH].
    rewrite (Hp x Hx) in Hpx. discriminate.
Qed.

Lemma other_id (id billId x : string) :
  (id =? billId)%string = false -> (x =? billId)%string = true ->
  negb (x =? id)%string = true.
Proof.
  intros Hne Hx. apply String.eqb_eq in Hx. subst x.
  now rewrite String.eqb_sym, Hne.
Qed.

Lemma readOf_update (reader actor billId id : string) (s : BillSet.t) (db : Db) :
  (id =? billId)%string = false ->
  readOf reader billId (apply (UpdateBill id actor s) db) = readOf reader billId db.
Proof.
  intros Hne. unfold readOf, selectBill, selectBillItems, selectBillExtraCharges.
  cbn [apply bills billItems billExtraCharges]. f_equal. f_equal.
  apply find_map_same.
  - intros x. destruct (ownBill id actor x); reflexivity.
  - intros x Hx. unfold ownBill in *.
    apply andb_prop in Hx. destruct Hx as [Hx _].
    apply (other_id id billId _ Hne) in Hx. apply negb_true_iff in Hx.
    now rewrite Hx.
Qed.

Lemma readOf_tables (reader billId : string) (db db' : Db) :
  bills db' = bills db -> billItems db' = billItems db ->
  billExtraCharges db' = billExtraCharges db ->
  readOf reader billId db' = readOf reader billId db.
Proof.
  intros Hb Hi Hc.
  unfold readOf, selectBill, selectBillItems, selectBillExtraCharges.
  now rewrite Hb, Hi, Hc.
Qed.

Lemma GET_readOf (reader billId : string) (clients : list Clients.row)
    (db db' : Db) :
  readOf reader billId db' = readOf reader billId db ->
  fst (fst (run (GET (Some reader) billId clients) db'))
  = fst (fst (run (GET (Some reader) billId clients) db)).
Proof.
  unfold readOf. intros [= Hb Hi Hc].
  unfold run, GET, bind, query, ret. cbn [tables journal].
  rewrite Hb. destruct (selectBill billId reader db); [| reflexivity].
  cbn [fst tables]. now rewrite Hi, Hc.
Qed.

(** X18: bills are independent of each other.  A request that writes the
    rows of another bill (a POST that creates a bill under another id; a PUT,
    a PATCH with a body of header columns, or a DELETE on another id), by
    any user and whatever its answer, does not change what GET reads of
    this bill: the header, the items and the extra charges are the same
    before and after. *)
Theorem getBill_unaffected_by_other_bills (reader billId : string)
    (clients : list Clients.row) (session : option string) (now : Z)
    (r : Request) (db : Db) :
  writesTo r billId = false ->
  fst (fst (run (getBill (Some reader) billId clients)
              (snd (fst (run (route isDate session now r) db)))))
  = fst (fst (run (getBill (Some reader) billId clients) db)).
Proof.
  intros Hne. unfold getBill. apply GET_readOf.
  destruct session as [actor |];
    [| destruct r; reflexivity].
  destruct r as [body newId | id body | id body | id]; cbn [route writesTo] in *.
  - destruct (POST_cases (Some actor) body newId now db)
      as [(r0 & H0) | (u & data & ds & [= <-] & _ & _ & H1)].
    + now rewrite H0.
    + rewrite H1. cbn [fst snd].
      destruct (postWrites_tables actor newId now data ds db) as (Hb & Hi & Hc & _).
      cbv zeta in Hb, Hi, Hc.
      unfold readOf, selectBill, selectBillItems, selectBillExtraCharges.
      rewrite Hb, Hi, Hc, !filter_app. f_equal; [f_equal |].
      * destruct (find (ownBill billId reader) (bills db)) as [b |] eqn:Hfind.
        -- exact (find_app_some _ _ _ _ Hfind).
        -- rewrite (find_app_none _ _ _ Hfind). simpl. unfold ownBill. simpl.
           now rewrite Hne.
      * rewrite <- (app_nil_r (filter _ (billItems db))) at 2. f_equal.
        apply filter_none. clear -Hne.
        induction ds as [| d ds IH]; [reflexivity |].
        simpl. now rewrite Hne.
      * rewrite <- (app_nil_r (filter _ (billExtraCharges db))) at 2. f_equal.
        apply filter_none. clear -Hne.
        induction (Form.extraCharges data) as [| c cs IH]; [reflexivity |].
        simpl. now rewrite Hne.
  - destruct (PUT_cases (Some actor) id body now db)
      as [(r0 & H0 & _) | (u & b & [= <-] & _ & H1)].
    + now rewrite H0.
    + rewrite H1. cbn [fst snd]. now apply readOf_update.
  - destruct (PATCH_cases (Some actor) id body now db)
      as [(r0 & H0 & _) | (u & b & [= <-] & _ & H1)].
    + now rewrite H0.
    + rewrite H1. cbn [fst snd]. now apply readOf_update.
  - destruct (selectBill id actor db) as [b |] eqn:Hb.
    + rewrite (DELETE_deleted _ _ _ _ _ Hb). cbn [fst snd].
      unfold deleteWrites. rewrite applyAll_app.
      set (items := selectBillItems id db).
      destruct (updates_frame _ (restoreWrites_updates items now db) db)
        as (HbX & HiX & HcX & _).
      set (X := applyAll (restoreWrites items now db) db) in *.
      unfold readOf, selectBill, selectBillItems, selectBillExtraCharges.
      unfold applyAll. cbn [fold_left apply bills billItems billExtraCharges].
      rewrite HbX, HiX, HcX. f_equal; [f_equal |].
      * apply find_filter_same. intros x Hx. unfold ownBill in *.
        apply andb_prop in Hx. destruct Hx as [Hx _].
        apply (other_id id billId _ Hne) in Hx. apply negb_true_iff in Hx.
        now rewrite Hx.
      * apply filter_filter_same. intros x. apply (other_id id billId _ Hne).
      * apply filter_filter_same. intros x. apply (other_id id billId _ Hne).
    + now rewrite (DELETE_not_found _ _ _ _ Hb).
Qed.

End Properties.

(** * Scenarios *)

(** ** Scenarios of the claims *)

(** The example of the specification: subtotal 25.50, tax 2.55, total 31.05. *)
Example createBill_spec_example :
  option_map (fun b => (Bills.subtotal b, Bills.tax b, Bills.total b))
    (createdBill (fst (fst (run (createBill Sample.isDate (Some "u1") Sample.specExample "B1" 1)
                              Sample.oneLot))))
  = Some (25.5, 2.55, 31.05).
Proof. vm_compute. reflexivity. Qed.

(** Reserving and releasing whole numbers is exact; reserving 0.03 of 0.3
    and releasing it again leaves 0.30000000000000004. *)
Example roundTrip_values :
  roundTrip 3 10 = 10 /\ roundTrip 0.03 0.3 = 0.30000000000000004.
Proof. split; vm_compute; reflexivity. Qed.

(** C1, witness: three lines, the third on a lot with too little stock. *)
Lemma createBill_insufficient_stock_atomic_witness :
  exists r,
    run (createBill Sample.isDate (Some "u1") Sample.threeLines "B1" 1) Sample.threeLots
    = (r, Sample.threeLots, []) /\
    (400 <= statusCode r)%Z.
Proof.
  apply createBill_insufficient_stock_atomic.
  eexists. exists [Sample.line "L1" 2 1; Sample.line "L2" 3 1; Sample.line "L3" 4 1].
  eexists. exists "L3", 4, 1.
  split; [reflexivity |].
  split; [reflexivity |].
  split; [right; right; left; reflexivity |].
  repeat split; reflexivity.
Defined.

(** C2, counterexample: a bill with two lines (3 and 2) on one lot with 10
    available: created and deleted again, the lot has 13 available.  And a
    bill of 0.03 on a lot with 0.3 available: created and deleted again,
    the lot has 0.30000000000000004 available. *)
Lemma conservation_fails :
  availableOf "L1" Sample.oneLot = Some 10 /\
  option_map (availableOf "L1")
    (cycles Sample.isDate "u1" Sample.repeatedLot [("B1", 1%Z)] Sample.oneLot)
  = Some (Some 13) /\
  availableOf "L1" Sample.threeTenths = Some 0.3 /\
  option_map (availableOf "L1")
    (cycles Sample.isDate "u1" Sample.threeHundredths [("B1", 1%Z)] Sample.threeTenths)
  = Some (Some 0.30000000000000004).
Proof. repeat split; vm_compute; reflexivity. Qed.

(** C2, witness: two lines on two lots, created and deleted twice. *)
Lemma create_delete_cycles_witness :
  exists db',
    cycles Sample.isDate "u1" Sample.twoLines [("B1", 1%Z); ("B2", 2%Z)] Sample.twoLots = Some db' /\
    bills db' = [] /\ billItems db' = [] /\ billExtraCharges db' = [] /\
    availableOf "L1" db' = Some 10 /\ availableOf "L2" db' = Some 5.
Proof.
  destruct (cycles Sample.isDate "u1" Sample.twoLines [("B1", 1%Z); ("B2", 2%Z)] Sample.twoLots)
    as [db' |] eqn:Hcycles; [| vm_compute in Hcycles; discriminate].
  exists db'. split; [reflexivity |].
  assert (Hparse : extendedBillSchema Sample.twoLines
                   = Some (Form.mk "client-1" "INV-001" "2025-01-15"
                             [Form.mkItem "L1" 3 1; Form.mkItem "L2" 2 1]
                             10 [] None due))
    by (vm_compute; reflexivity).
  assert (Hnd : NoDup (map Form.inventoryId
                         [Form.mkItem "L1" 3 1; Form.mkItem "L2" 2 1])).
  { repeat constructor; simpl; intuition discriminate. }
  assert (Hfresh : forallb (fun p => freshId (fst p) Sample.twoLots)
                     [("B1", 1%Z); ("B2", 2%Z)] = true)
    by (vm_compute; reflexivity).
  destruct (create_delete_cycles Sample.isDate "u1" Sample.twoLines _ _ Hparse Hnd
              Sample.twoLots db' Hfresh Hcycles) as (Hb & Hi & Hc & Hav).
  repeat split; try assumption.
  - rewrite (Hav "L1"). vm_compute. reflexivity.
  - rewrite (Hav "L2"). vm_compute. reflexivity.
Defined.

(** C3, counterexample: one line of 1 at 0.125 under a tax rate of 100:
    the tax persisted is 0.125, where rounding half up to two decimals
    gives 0.13. *)
Lemma createBill_tax_not_rounded :
  option_map (fun b => (Bills.subtotal b, Bills.taxRate b, Bills.tax b))
    (createdBill (fst (fst (run (createBill Sample.isDate (Some "u1") Sample.eighth "B1" 1)
                              Sample.oneLot))))
  = Some (0.125, 100, 0.125) /\
  round2 (0.125 * 100 / 100) = 0.13 /\
  (0.125 <? 0.13) = true.
Proof. repeat split; vm_compute; reflexivity. Qed.

(** C3, witness: the example of the specification. *)
Lemma createBill_totals_witness :
  exists b db' j,
    run (createBill Sample.isDate (Some "u1") Sample.specExample "B1" 1) Sample.oneLot
    = (Created b, db', j) /\
    exists data,
      extendedBillSchema Sample.specExample = Some data /\
      Bills.subtotal b = stored (sumLines (Form.items data) 0) /\
      Bills.extraChargesTotal b = stored (sumCharges (Form.extraCharges data)) /\
      Bills.taxRate b = stored (Form.taxRate data) /\
      Bills.tax b = stored (sumLines (Form.items data) 0 * Form.taxRate data / 100) /\
      Bills.total b
      = stored (sumLines (Form.items data) 0
                + sumLines (Form.items data) 0 * Form.taxRate data / 100
                + sumCharges (Form.extraCharges data)) /\
      In b (bills db').
Proof.
  destruct (run (createBill Sample.isDate (Some "u1") Sample.specExample "B1" 1) Sample.oneLot)
    as [[r db'] j] eqn:Hrun.
  destruct r as [| | | | | b | | |]; try (vm_compute in Hrun; discriminate).
  exists b, db', j. split; [reflexivity |].
  exact (createBill_totals _ _ _ _ _ _ _ _ _ Hrun).
Defined.

(** C4, counterexample: a bill with subtotal 100, taxRate 10, tax 10 and
    total 110; after a PUT of taxRate 20 the bill has taxRate 20 and still
    tax 10 and total 110, where 20 percent of 100 is 20. *)
Lemma updateBillHeader_does_not_recompute :
  let db1 := snd (fst (run (createBill Sample.isDate (Some "u1") Sample.hundred "B1" 1)
                         (Sample.stock [Sample.lot "L1" 100 100]))) in
  let db2 := snd (fst (run (updateBillHeader Sample.isDate (Some "u1") "B1" Sample.rate20 2) db1)) in
  option_map (fun b => (Bills.subtotal b, Bills.taxRate b, Bills.tax b, Bills.total b))
    (selectBill "B1" "u1" db1) = Some (100, 10, 10, 110) /\
  option_map (fun b => (Bills.subtotal b, Bills.taxRate b, Bills.tax b, Bills.total b))
    (selectBill "B1" "u1" db2) = Some (100, 20, 10, 110) /\
  100 * 20 / 100 = 20.
Proof. repeat split; vm_compute; reflexivity. Qed.

(** C4, witness: the PUT of taxRate 20 on a stored bill, answered 200; and
    the same PUT with a bill date that is no date, answered 500. *)
Lemma updateBillHeader_keeps_tax_and_total_witness :
  (exists b',
     fst (fst (run (updateBillHeader Sample.isDate (Some "u1") "B1" Sample.rate20 2)
                 Sample.vanished))
     = Updated (Some b') /\
     selectBill "B1" "u1"
       (snd (fst (run (updateBillHeader Sample.isDate (Some "u1") "B1"
                         Sample.rate20 2)
                    Sample.vanished))) = Some b' /\
     Bills.taxRate b' = stored 20 /\
     Bills.subtotal b' = Bills.subtotal Sample.billB1 /\
     Bills.tax b' = Bills.tax Sample.billB1 /\
     Bills.extraChargesTotal b' = Bills.extraChargesTotal Sample.billB1 /\
     Bills.total b' = Bills.total Sample.billB1) /\
  run (updateBillHeader Sample.isDate (Some "u1") "B1" Sample.rate20Someday 2)
    Sample.vanished
  = (Failed "Failed to update bill", Sample.vanished, []).
Proof.
  split.
  - destruct (proj1 (proj2 (updateBillHeader_keeps_tax_and_total Sample.isDate
                              (Some "u1") "B1" Sample.rate20 2%Z Sample.vanished)
                       "u1" Sample.billB1 20 eq_refl eq_refl eq_refl)
                (Some (setBill (updateData Sample.rate20 2) Sample.billB1)) eq_refl)
      as (b' & Hb' & H).
    exists b'. split; [now rewrite <- Hb' | exact H].
  - destruct (proj2 (proj2 (proj2 (updateBillHeader_keeps_tax_and_total Sample.isDate
                                     (Some "u1") "B1" Sample.rate20Someday 2%Z
                                     Sample.vanished)
                              "u1" Sample.billB1 20 eq_refl eq_refl eq_refl))
                eq_refl) as [Hr Hdb].
    destruct (run (updateBillHeader Sample.isDate (Some "u1") "B1"
                     Sample.rate20Someday 2) Sample.vanished) as [[r db'] j] eqn:Hrun.
    cbn [fst snd] in Hr, Hdb. subst r db'.
    f_equal. vm_compute in Hrun. now injection Hrun as <-.
Defined.

(** C5, counterexample: a bill with an item on lot L1 and an item on a lot
    that no longer exists: the deletion is answered 200, lot L1 goes from
    7 to 10 available, and the rows of the bill are deleted. *)
Lemma deleteBill_skips_missing_lot :
  run (deleteBill (Some "u1") "B1" 5) Sample.vanished
  = (Deleted,
     mkDb [] [] [] [Inventory.mk "L1" "item-1" 10 10 5],
     [UpdateInventory "L1" 10 5; DeleteBillItems "B1";
      DeleteBillExtraCharges "B1"; DeleteBill "B1" "u1"]).
Proof. vm_compute. reflexivity. Qed.

(** C5, witness: the same deletion. *)
Lemma deleteBill_releases_then_deletes_witness :
  exists releases db',
    run (deleteBill (Some "u1") "B1" 5) Sample.vanished
    = (Deleted, db',
       (releases ++ [DeleteBillItems "B1"; DeleteBillExtraCharges "B1";
                     DeleteBill "B1" "u1"])%list) /\
    forallb isUpdateInventory releases = true /\
    map lotOfWrite releases
    = map Some (filter (lotExists Sample.vanished)
                  (map BillItems.inventoryId (selectBillItems "B1" Sample.vanished))) /\
    selectBillItems "B1" db' = [] /\
    filter (fun c => (BillExtraCharges.billId c =? "B1")%string)
      (billExtraCharges db') = [] /\
    selectBill "B1" "u1" db' = None /\
    (forall k item,
       nth_error
         (filter (fun i => lotExists Sample.vanished (BillItems.inventoryId i))
            (selectBillItems "B1" Sample.vanished)) k = Some item ->
       exists a,
         availableOf (BillItems.inventoryId item)
           (applyAll (firstn k releases) Sample.vanished)
         = Some a /\
         nth_error releases k
         = Some (UpdateInventory (BillItems.inventoryId item)
                   (stored (a + BillItems.quantity item)) 5)) /\
    (forall l,
       availableOf l db'
       = option_map
           (fun a =>
              fold_left (fun available item => stored (available + BillItems.quantity item))
                (filter (fun item => (BillItems.inventoryId item =? l)%string)
                   (selectBillItems "B1" Sample.vanished))
                a)
           (availableOf l Sample.vanished)) /\
    db' = applyAll (releases ++ [DeleteBillItems "B1"; DeleteBillExtraCharges "B1";
                                 DeleteBill "B1" "u1"]) Sample.vanished.
Proof.
  exact (deleteBill_releases_then_deletes "u1" "B1" 5%Z Sample.vanished
           Sample.billB1 eq_refl).
Defined.

(** C6, counterexample: a lot of total quantity 10 with 10 available; a
    bill with two lines on it is created and deleted again; the lot then
    has 13 available, above its total quantity.  Likewise a lot of 0.3 ends
    at 0.30000000000000004 after a bill of 0.03 is created and deleted. *)
Lemma release_exceeds_quantity :
  option_map (fun db => (quantityOf "L1" db, availableOf "L1" db))
    (cycles Sample.isDate "u1" Sample.repeatedLot [("B1", 1%Z)] Sample.oneLot)
  = Some (Some 10, Some 13) /\
  (10 <? 13) = true /\
  option_map (fun db => (quantityOf "L1" db, availableOf "L1" db))
    (cycles Sample.isDate "u1" Sample.threeHundredths [("B1", 1%Z)] Sample.threeTenths)
  = Some (Some 0.3, Some 0.30000000000000004) /\
  (0.3 <? 0.30000000000000004) = true.
Proof. repeat split; vm_compute; reflexivity. Qed.

(** C6, witness: the bill of two lines on two lots keeps both lots within
    their bounds; the release of the two items of a stored bill. *)
Lemma settlement_effect_on_lots_witness :
  (exists a',
     availableOf "L1"
       (snd (fst (run (createBill Sample.isDate (Some "u1") Sample.twoLines "B1" 1)
                    Sample.twoLots))) = Some a' /\
     (0 <=? a') = true /\ (a' <=? 10) = true) /\
  availableOf "L1"
    (snd (fst (run (deleteBill (Some "u1") "B1" 5) Sample.vanished)))
  = option_map
      (fun a => fold_left released
                  (filter (onLot "L1") (selectBillItems "B1" Sample.vanished)) a)
      (availableOf "L1" Sample.vanished).
Proof.
  split.
  - exact (proj2 (proj2 (proj1 (proj2 (settlement_effect_on_lots Sample.isDate Sample.twoLots "L1"))
                           (Some "u1") Sample.twoLines "B1" 1%Z))
             10 10 eq_refl eq_refl eq_refl eq_refl).
  - exact (proj1 (proj2 (proj2 (proj2 (settlement_effect_on_lots Sample.isDate Sample.vanished "L1"))
                           (Some "u1") "B1" 5%Z))
             "u1" Sample.billB1 eq_refl eq_refl).
Defined.

(** C7, counterexample: the same request on lot L1 and on lot L2, both
    with 1 available, is answered with the same error, which names no lot;
    and a line on a lot that does not exist, before the line that exceeds
    its lot, is what the answer reports. *)
Lemma insufficient_stock_names_no_lot :
  fst (fst (run (createBill Sample.isDate (Some "u1")
                   (Sample.order [Sample.line "L1" 5 1] []) "B1" 1) Sample.twoShort))
  = InsufficientStock 1 5 /\
  fst (fst (run (createBill Sample.isDate (Some "u1")
                   (Sample.order [Sample.line "L2" 5 1] []) "B1" 1) Sample.twoShort))
  = InsufficientStock 1 5 /\
  fst (fst (run (createBill Sample.isDate (Some "u1")
                   (Sample.order [Sample.line "L9" 1 1; Sample.line "L1" 5 1] [])
                   "B1" 1) Sample.twoShort))
  = InventoryItemNotFound "L9".
Proof. repeat split; vm_compute; reflexivity. Qed.

(** C7, witness: three lines, the third the first to exceed its lot. *)
Lemma createBill_first_failure_wins_witness :
  run (createBill Sample.isDate (Some "u1") Sample.threeLines "B1" 1) Sample.threeLots
  = (InsufficientStock 1 4, Sample.threeLots, []).
Proof.
  refine (createBill_first_failure_wins Sample.isDate "u1" Sample.threeLines "B1" 1%Z
            Sample.threeLots _
            [Form.mkItem "L1" 2 1; Form.mkItem "L2" 3 1] []
            (Form.mkItem "L3" 4 1) 1 _ _ _ _).
  - vm_compute. reflexivity.
  - reflexivity.
  - repeat constructor; eexists; split; vm_compute; reflexivity.
  - split; vm_compute; reflexivity.
Defined.

(** C9, witness: a request with no item, and one with a quantity of 0. *)
Lemma createBill_validation_error_witness :
  run (createBill Sample.isDate (Some "u1") (Sample.order [] []) "B1" 1) Sample.oneLot
  = (InvalidRequestData, Sample.oneLot, []) /\
  run (createBill Sample.isDate (Some "u1") (Sample.order [Sample.line "L1" 0 1] []) "B1" 1)
    Sample.oneLot
  = (InvalidRequestData, Sample.oneLot, []).
Proof.
  split; apply createBill_validation_error; eexists; (split; [reflexivity |]).
  - left. reflexivity.
  - right. left. eexists. eexists. exists 0.
    split; [reflexivity | split; [left; reflexivity | split; reflexivity]].
Defined.

(** C10, witness: a request with no taxRate: it is served as the request
    with taxRate 10, it is answered 201, and the bill of the answer is the
    row added to the bills table, with taxRate 10, tax 0.5 and total 5.5. *)
Lemma createBill_default_tax_rate_witness :
  run (createBill Sample.isDate (Some "u1") Sample.twoLines "B1" 1) Sample.twoLots
  = run (createBill Sample.isDate (Some "u1")
           (JObj (("taxRate", JNum 10)
                  :: [("clientId", JStr "client-1"); ("invoiceNumber", JStr "INV-001");
                      ("billDate", JStr "2025-01-15");
                      ("items", JArr [Sample.line "L1" 3 1; Sample.line "L2" 2 1])]))
           "B1" 1) Sample.twoLots /\
  exists b db' j,
    run (createBill Sample.isDate (Some "u1") Sample.twoLines "B1" 1) Sample.twoLots
    = (Created b, db', j) /\
    (Bills.subtotal b, Bills.taxRate b, Bills.tax b, Bills.total b)
    = (5, 10, 0.5, 5.5) /\
    bills db' = (bills Sample.twoLots ++ [b])%list /\
    In (InsertBill b) j /\
    db' = applyAll j Sample.twoLots.
Proof.
  assert (Hom : taxRateOmitted
                  [("clientId", JStr "client-1"); ("invoiceNumber", JStr "INV-001");
                   ("billDate", JStr "2025-01-15");
                   ("items", JArr [Sample.line "L1" 3 1; Sample.line "L2" 2 1])])
    by (left; reflexivity).
  destruct (createBill_default_tax_rate Sample.isDate (Some "u1") _ "B1" 1%Z
              Sample.twoLots Hom) as (_ & _ & Hsame & Haccepted & Hbill).
  split; [exact Hsame |].
  destruct (Haccepted "u1"
              (Form.mk "client-1" "INV-001" "2025-01-15"
                 [Form.mkItem "L1" 3 1; Form.mkItem "L2" 2 1] 10 [] None due)
              eq_refl eq_refl) as (b & db' & j & Hrun).
  - repeat constructor; eexists; split; vm_compute; reflexivity.
  - reflexivity.
  - exists b, db', j. split; [exact Hrun |].
    destruct (Hbill b db' j Hrun) as (data & _ & _ & _ & _ & _ & Hb & Hj & Hdb).
    split; [| now repeat split].
    change (run (createBill Sample.isDate (Some "u1") Sample.twoLines "B1" 1)
              Sample.twoLots = (Created b, db', j)) in Hrun.
    vm_compute in Hrun. now injection Hrun as <- _ _.
Defined.

(** ** Scenarios of the further properties *)

(** X13, the condition on the subtotal: a line of 1e308 at 1e308 has the
    subtotal infinity, and under a tax rate of 0 the tax and the total are
    NaN. *)
Example createBill_overflow :
  option_map (fun b => (Bills.subtotal b, Bills.tax b, Bills.total b))
    (createdBill (fst (fst (run (createBill Sample.isDate (Some "u1") Scenario.hugeLine "B1" 1)
                              Scenario.hugeLot))))
  = Some (infinity, nan, nan).
Proof. vm_compute. reflexivity. Qed.

(** A request that passes the schema and the stock check with a bill date
    that is no date is answered 500, and no table has changed. *)
Example createBill_no_date :
  let '(response, db', j) :=
    run (createBill Sample.isDate (Some "u1") Sample.someday "B1" 1) Sample.oneLot in
  (response, statusCode response, db', j)
  = (Failed "Failed to create bill", 500%Z, Sample.oneLot, []).
Proof. vm_compute. reflexivity. Qed.

(** A PATCH whose body carries a bill date, which is a text there, is
    answered 500, and the bill keeps its status. *)
Example patch_with_bill_date :
  run (PATCH (Some "u1") "B1" (Sample.paidOn "2025-01-15") 9) Sample.vanished
  = (Failed "Failed to update bill", Sample.vanished, []).
Proof. vm_compute. reflexivity. Qed.

(** X2, witness: the second of three lines names a lot that is not there;
    the third would exceed its lot. *)
Lemma createBill_missing_lot_witness :
  run (createBill Sample.isDate (Some "u1") Scenario.missingLot "B1" 1) Sample.threeLots
  = (InventoryItemNotFound "L9", Sample.threeLots, []) /\
  statusCode (InventoryItemNotFound "L9") = 400%Z.
Proof.
  refine (createBill_missing_lot Sample.isDate "u1" Scenario.missingLot "B1" 1%Z
            Sample.threeLots _ [Form.mkItem "L1" 2 1] [Form.mkItem "L3" 4 1]
            (Form.mkItem "L9" 1 1) _ _ _ _).
  - vm_compute. reflexivity.
  - reflexivity.
  - repeat constructor; eexists; split; vm_compute; reflexivity.
  - vm_compute. reflexivity.
Defined.

(** X3, witness: the request of three lines whose third exceeds its lot. *)
Lemma error_response_writes_nothing_witness :
  snd (fst (run (route Sample.isDate (Some "u1") 1 (ReqPOST Sample.threeLines "B1"))
              Sample.threeLots)) = Sample.threeLots /\
  snd (run (route Sample.isDate (Some "u1") 1 (ReqPOST Sample.threeLines "B1")) Sample.threeLots)
  = [].
Proof.
  refine (error_response_writes_nothing Sample.isDate (Some "u1") 1%Z
            (ReqPOST Sample.threeLines "B1") Sample.threeLots _
            (InsufficientStock 1 4) _ _ _).
  - vm_compute. reflexivity.
  - simpl. lia.
Defined.

(** X4, witness: two lines (3 and 2) on one lot with 10 available. *)
Lemma createBill_reserves_last_line_witness :
  exists data,
    extendedBillSchema Sample.repeatedLot = Some data /\
    forall l,
      availableOf l
        (snd (fst (run (createBill Sample.isDate (Some "u1") Sample.repeatedLot "B1" 1)
                     Sample.oneLot)))
      = match lastLineOn l (Form.items data) with
        | Some item =>
            option_map (fun a => stored (a - stored (Form.quantity item)))
              (availableOf l Sample.oneLot)
        | None => availableOf l Sample.oneLot
        end.
Proof.
  refine (createBill_reserves_last_line Sample.isDate (Some "u1") Sample.repeatedLot "B1" 1%Z
            Sample.oneLot _ _ _ _).
  vm_compute. reflexivity.
Defined.

(** X5, witness: the example of the specification, read back. *)
Lemma getBill_after_createBill_witness :
  exists b data,
    createdBill (fst (fst (run (createBill Sample.isDate (Some "u1") Sample.specExample "B1" 1)
                             Sample.oneLot))) = Some b /\
    extendedBillSchema Sample.specExample = Some data /\
    run (getBill (Some "u1") "B1" Scenario.clients)
      (snd (fst (run (createBill Sample.isDate (Some "u1") Sample.specExample "B1" 1)
                   Sample.oneLot)))
    = (GetOk (fullBillOf b (joinClient Scenario.clients b)
                (map itemViewOf (Form.items data))
                (map (chargeOf "B1") (Form.extraCharges data))),
       snd (fst (run (createBill Sample.isDate (Some "u1") Sample.specExample "B1" 1)
                   Sample.oneLot)), []).
Proof.
  destruct (run (createBill Sample.isDate (Some "u1") Sample.specExample "B1" 1) Sample.oneLot)
    as [[r db'] j] eqn:Hrun.
  destruct r as [| | | | | b | | |]; try (vm_compute in Hrun; discriminate).
  destruct (getBill_after_createBill Sample.isDate "u1" Sample.specExample "B1" 1%Z
              Scenario.clients Sample.oneLot db' b j eq_refl Hrun)
    as (data & Hparse & Hget & _).
  exists b, data. split; [reflexivity |]. split; [exact Hparse | exact Hget].
Defined.



(** X10, witness: the bill B1 marked paid. *)
Lemma updateBillStatus_sets_status_only_witness :
  exists db',
    run (updateBillStatus (Some "u1") "B1" paid 2) Sample.vanished
    = (Updated (Some (withStatus paid 2 Sample.billB1)), db',
       [UpdateBill "B1" "u1" (patchData (statusOnly paid) 2)]) /\
    run (getBill (Some "u1") "B1" Scenario.clients) db'
    = (GetOk (fullBillOf (withStatus paid 2 Sample.billB1)
                (joinClient Scenario.clients Sample.billB1)
                (map itemView (selectBillItems "B1" Sample.vanished))
                (selectBillExtraCharges "B1" Sample.vanished)), db', []).
Proof.
  exact (updateBillStatus_sets_status_only "u1" "B1" paid 2%Z Scenario.clients
           Sample.vanished Sample.billB1 eq_refl).
Defined.

(** X12, witness: the example of the specification. *)
Lemma createBill_stores_consistent_bill_witness :
  exists b db' j,
    run (createBill Sample.isDate (Some "u1") Sample.specExample "B1" 1) Sample.oneLot
    = (Created b, db', j) /\
    Bills.tax b = stored (Bills.subtotal b * Bills.taxRate b / 100) /\
    Bills.total b
    = stored (Bills.subtotal b + Bills.tax b + Bills.extraChargesTotal b) /\
    bills db' = (bills Sample.oneLot ++ [b])%list.
Proof.
  destruct (run (createBill Sample.isDate (Some "u1") Sample.specExample "B1" 1) Sample.oneLot)
    as [[r db'] j] eqn:Hrun.
  destruct r as [| | | | | b | | |]; try (vm_compute in Hrun; discriminate).
  exists b, db', j. split; [reflexivity |].
  exact (createBill_stores_consistent_bill Sample.isDate _ _ _ _ _ _ _ _ Hrun).
Defined.

(** X13, witness: the example of the specification. *)
Lemma createBill_totals_nonnegative_witness :
  exists b db' j,
    run (createBill Sample.isDate (Some "u1") Sample.specExample "B1" 1) Sample.oneLot
    = (Created b, db', j) /\
    (0 <=? Bills.subtotal b) = true /\
    (0 <=? Bills.taxRate b) = true /\
    (0 <=? Bills.extraChargesTotal b) = true /\
    ((Bills.subtotal b <? infinity) = true ->
     (0 <=? Bills.tax b) = true /\ (0 <=? Bills.total b) = true) /\
    bills db' = (bills Sample.oneLot ++ [b])%list.
Proof.
  destruct (run (createBill Sample.isDate (Some "u1") Sample.specExample "B1" 1) Sample.oneLot)
    as [[r db'] j] eqn:Hrun.
  destruct r as [| | | | | b | | |]; try (vm_compute in Hrun; discriminate).
  exists b, db', j. split; [reflexivity |].
  exact (createBill_totals_nonnegative Sample.isDate _ _ _ _ Sample.oneLot _ _ _ eq_refl Hrun).
Defined.

(** X14, witness: the dialog of two lines and one charge, no tax rate. *)
Lemma billing_preview_is_stored_witness :
  exists b db' j,
    run (createBill Sample.isDate (Some "u1") (requestBody Scenario.form) "B1" 1)
      Sample.oneLot
    = (Created b, db', j) /\
    Bills.subtotal b = stored (Preview.subtotal Scenario.form) /\
    Bills.extraChargesTotal b = stored (Preview.extraChargesTotal Scenario.form) /\
    Bills.taxRate b = stored (taxRateOrZero (BillingFormData.taxRate Scenario.form)) /\
    Bills.tax b = stored (Preview.tax Scenario.form) /\
    Bills.total b = stored (Preview.grandTotal Scenario.form) /\
    bills db' = (bills Sample.oneLot ++ [b])%list.
Proof.
  destruct (run (createBill Sample.isDate (Some "u1") (requestBody Scenario.form) "B1" 1)
              Sample.oneLot) as [[r db'] j] eqn:Hrun.
  destruct r as [| | | | | b | | |]; try (vm_compute in Hrun; discriminate).
  exists b, db', j. split; [reflexivity |].
  refine (billing_preview_is_stored Sample.isDate Scenario.form _ _ _ _ _ _ _ _ _ Hrun).
  vm_compute. reflexivity.
Defined.

(** X15, witness: the example of the specification. *)
Lemma createBill_journal_witness :
  exists b db' j,
    run (createBill Sample.isDate (Some "u1") Sample.specExample "B1" 1) Sample.oneLot
    = (Created b, db', j) /\
    exists data updates,
      extendedBillSchema Sample.specExample = Some data /\
      j = (InsertBill b
           :: InsertBillItems (map (lineItem "B1") (Form.items data))
           :: chargeWrites "B1" (Form.extraCharges data) ++ updates)%list /\
      forallb isUpdateInventory updates = true /\
      map lotOfWrite updates
      = map (fun item => Some (Form.inventoryId item)) (Form.items data) /\
      db' = applyAll j Sample.oneLot.
Proof.
  destruct (run (createBill Sample.isDate (Some "u1") Sample.specExample "B1" 1) Sample.oneLot)
    as [[r db'] j] eqn:Hrun.
  destruct r as [| | | | | b | | |]; try (vm_compute in Hrun; discriminate).
  exists b, db', j. split; [reflexivity |].
  exact (createBill_journal Sample.isDate _ _ _ _ _ _ _ _ Hrun).
Defined.

(** X16, witness: two lines (3 and 2) on one lot with 10 available. *)
Lemma create_then_delete_witness :
  exists data db2 j2,
    extendedBillSchema Sample.repeatedLot = Some data /\
    run (deleteBill (Some "u1") "B1" 5)
      (snd (fst (run (createBill Sample.isDate (Some "u1") Sample.repeatedLot "B1" 1)
                   Sample.oneLot)))
    = (Deleted, db2, j2) /\
    bills db2 = bills Sample.oneLot /\
    billItems db2 = billItems Sample.oneLot /\
    billExtraCharges db2 = billExtraCharges Sample.oneLot /\
    forall l,
      availableOf l db2
      = option_map
          (fun a => fold_left giveBack (linesOn l (Form.items data))
                      (reserved l (Form.items data) a))
          (availableOf l Sample.oneLot).
Proof.
  refine (create_then_delete Sample.isDate "u1" Sample.repeatedLot "B1" 1%Z 5%Z Sample.oneLot
            _ _ _ eq_refl _).
  vm_compute. reflexivity.
Defined.

(** X17, witness: the dialog of two lines and one charge, no tax rate, is
    read by the server with the tax rate 0; the dialog with a line of
    infinitely many units is rejected by it. *)
Lemma billingForm_passes_server_schema_witness :
  (billingFormSchema Scenario.formValues = Some Scenario.form /\
   finiteForm Scenario.form = true /\
   extendedBillSchema (requestBody Scenario.form)
   = Some (Form.mk "client-1" "INV-001" "2025-01-15"
             [Form.mkItem "L1" 2 10; Form.mkItem "L1" 1 5.5] 0
             [Form.mkCharge "Shipping" 3] None due) /\
   validBill (readBack Scenario.form) = true) /\
  (billingFormSchema Scenario.boundlessValues = Some Scenario.boundless /\
   finiteForm Scenario.boundless = false /\
   extendedBillSchema (requestBody Scenario.boundless) = None).
Proof.
  split.
  - destruct (billingForm_passes_server_schema Scenario.formValues
                Scenario.form eq_refl) as [Hfinite _].
    destruct (Hfinite eq_refl) as [Hread Hvalid].
    split; [reflexivity | split; [reflexivity |]].
    split; [exact Hread | exact Hvalid].
  - destruct (billingForm_passes_server_schema Scenario.boundlessValues
                Scenario.boundless eq_refl) as [_ Hnull].
    split; [reflexivity | split; [reflexivity |]].
    exact (Hnull eq_refl).
Defined.

(** X18, witness: the bill B1 read before and after a bill B2 is created. *)
Lemma getBill_unaffected_by_other_bills_witness :
  fst (fst (run (getBill (Some "u1") "B1" Scenario.clients)
              (snd (fst (run (route Sample.isDate (Some "u2") 7
                                (ReqPOST (Sample.order [Sample.line "L1" 2 1] []) "B2"))
                           Sample.vanished)))))
  = fst (fst (run (getBill (Some "u1") "B1" Scenario.clients) Sample.vanished)).
Proof.
  exact (getBill_unaffected_by_other_bills Sample.isDate "u1" "B1" Scenario.clients (Some "u2")
           7%Z (ReqPOST (Sample.order [Sample.line "L1" 2 1] []) "B2")
           Sample.vanished eq_refl).
Defined.
